(** * router-js: a shallow embedding of [router.js] and its verification

    The development follows the source file: the JavaScript values the router
    manipulates, the platform primitives it calls (regular expressions, URL
    parsing, JSON), then [RouterResponse], [RouterRequest] and [Router]
    themselves, and finally the properties of the dispatch pipeline. *)

From Stdlib Require Import String Ascii List Bool Arith NArith ZArith Lia Floats.
From Stdlib Require Import DecimalString.
Import ListNotations.
Local Open Scope list_scope.
Local Open Scope string_scope.

Set Implicit Arguments.
Set Warnings "-register-all".

(** ** JavaScript values *)

(** The fragment of the JavaScript value universe the router can observe.
    Objects are lists of own properties in the order of their enumeration
    (which [JSON.stringify] and a spread follow); [VError] is an [Error] instance carrying its
    [message]. Functions and [Response] instances are kept apart (see
    [result] and [argument] below), so that callbacks stay typed. *)
Inductive value : Type :=
| VUndefined
| VNull
| VBool (b : bool)
| VNumber (x : float)
| VString (s : string)
| VError (message : string)
| VArray (items : list value)
| VObject (props : list (string * value)).

Definition object := list (string * value).

(** Abrupt and normal completion of a call: [Throw] carries the thrown value. *)
Inductive completion (A : Type) : Type :=
| Ret (a : A)
| Throw (e : value).
Arguments Ret {A} a.
Arguments Throw {A} e.

Definition bind {A B} (c : completion A) (k : A -> completion B) : completion B :=
  match c with
  | Ret a => k a
  | Throw e => Throw e
  end.

(** [try { c } catch (error) { h error }] *)
Definition try_catch {A} (c : completion A) (h : value -> completion A) : completion A :=
  match c with
  | Ret a => Ret a
  | Throw e => h e
  end.

Declare Scope js_scope.
Delimit Scope js_scope with js.
Notation "x <- c ;; k" := (bind c (fun x => k))
  (at level 61, c at next level, right associativity) : js_scope.
Notation "'throw_Error' m" := (Throw (VError m)) (at level 10) : js_scope.
Local Open Scope js_scope.

(** ToBoolean *)
Definition truthy (v : value) : bool :=
  match v with
  | VUndefined | VNull => false
  | VBool b => b
  | VNumber x => negb (PrimFloat.is_nan x || PrimFloat.is_zero x)
  | VString s => negb (s =? "")
  | VError _ | VArray _ | VObject _ => true
  end.

Inductive js_type := TUndefined | TObject | TBoolean | TNumber | TString | TFunction.

(** [typeof v] for a value that is not a function *)
Definition typeof (v : value) : js_type :=
  match v with
  | VUndefined => TUndefined
  | VNull | VError _ | VArray _ | VObject _ => TObject
  | VBool _ => TBoolean
  | VNumber _ => TNumber
  | VString _ => TString
  end.

Definition js_type_eqb (a b : js_type) : bool :=
  match a, b with
  | TUndefined, TUndefined | TObject, TObject | TBoolean, TBoolean
  | TNumber, TNumber | TString, TString | TFunction, TFunction => true
  | _, _ => false
  end.

(** [a || b] on values *)
Definition js_or (a b : value) : value := if truthy a then a else b.

(** Own-property lookup, [o[k]] where a missing property reads [undefined]. *)
Fixpoint own (k : string) (o : object) : option value :=
  match o with
  | [] => None
  | (k', v) :: o' => if k' =? k then Some v else own k o'
  end.

Definition get_property (k : string) (o : object) : value :=
  match own k o with Some v => v | None => VUndefined end.

(** The order in which the own properties of an object are enumerated (by
    a spread, by [JSON.stringify]): the array indices first, in ascending
    order, then the other keys in the order of their creation. An array index
    is the canonical decimal text of an integer from 0 to 2^32 - 2. *)
Definition digit (c : ascii) : option N :=
  let n := N_of_ascii c in
  if N.leb 48 n && N.leb n 57 then Some (n - 48)%N else None.

Fixpoint digits (s : string) (acc : N) : option N :=
  match s with
  | "" => Some acc
  | String c s' =>
      match digit c with
      | Some d => digits s' (10 * acc + d)%N
      | None => None
      end
  end.

Definition array_index (k : string) : option N :=
  match k with
  | "" => None
  | String "0" "" => Some 0%N
  | String "0" _ => None
  | _ =>
      match digits k 0 with
      | Some n => if N.ltb n 4294967295 then Some n else None
      | None => None
      end
  end.

(** The new key [k] is enumerated before the key [k']. *)
Definition enumerated_before (k k' : string) : bool :=
  match array_index k, array_index k' with
  | Some i, Some j => N.ltb i j
  | Some _, None => true
  | None, _ => false
  end.

(** The value of the property [k], in place. *)
Fixpoint overwrite (k : string) (v : value) (o : object) : object :=
  match o with
  | [] => []
  | (k', v') :: o' => if k' =? k then (k', v) :: o' else (k', v') :: overwrite k v o'
  end.

(** The new property [k], at its place in the enumeration. *)
Fixpoint insert (k : string) (v : value) (o : object) : object :=
  match o with
  | [] => [(k, v)]
  | (k', v') :: o' =>
      if enumerated_before k k' then (k, v) :: (k', v') :: o'
      else (k', v') :: insert k v o'
  end.

(** CreateDataProperty: a property that exists keeps its place and takes the
    value; a new one is created. *)
Definition define_property (k : string) (v : value) (o : object) : object :=
  match own k o with
  | Some _ => overwrite k v o
  | None => insert k v o
  end.

(** [o[k] = v] on a plain object: an ordinary key defines the own property;
    the key [__proto__] reaches the accessor inherited from
    [Object.prototype] and never creates an own property. *)
Definition set_property (k : string) (v : value) (o : object) : object :=
  if k =? "__proto__" then o else define_property k v o.

(** The last property [k] of a list of properties: the one a spread of the
    list leaves. *)
Fixpoint last_own (k : string) (o : object) : option value :=
  match o with
  | [] => None
  | (k', v) :: o' =>
      match last_own k o' with
      | Some v' => Some v'
      | None => if k' =? k then Some v else None
      end
  end.

(** [{ ...a, ...b }] *)
Definition spread (a b : object) : object :=
  fold_left (fun acc kv => define_property (fst kv) (snd kv) acc) b a.

(** ** Regular expressions: the fragment of ECMAScript patterns modelled *)

Module RegExp.

(** Abstract syntax. [Group i r] is the i-th capturing group (counted from 0
    by opening parenthesis). *)
Inductive regex : Type :=
| Empty
| Char (c : ascii)
| Dot
| Class (negated : bool) (members : list ascii)
| Bol
| Eol
| Seq (r1 r2 : regex)
| Alt (r1 r2 : regex)
| Star (r : regex)
| Plus (r : regex)
| Opt (r : regex)
| Group (index : nat) (r : regex).

Inductive parse_result (A : Type) : Type :=
| Parsed (a : A)
| SyntaxError
| Unsupported.
Arguments Parsed {A} a.
Arguments SyntaxError {A}.
Arguments Unsupported {A}.

(** Syntax characters of a pattern (Annex B keeps "]" and "}" ordinary). *)
Definition is_syntax_char (c : ascii) : bool :=
  existsb (Ascii.eqb c)
    ["^"; "$"; "092"; "."; "*"; "+"; "?"; "("; ")"; "["; "{"; "|"]%char.

Definition is_quantifier (c : ascii) : bool :=
  existsb (Ascii.eqb c) ["*"; "+"; "?"]%char.

Definition is_line_terminator (c : ascii) : bool :=
  existsb (Ascii.eqb c) ["010"; "013"]%char.

(** The members of a character class up to its closing bracket. Escapes and
    ranges are outside the fragment. *)
Fixpoint parse_class (s : string) : parse_result (list ascii * string) :=
  match s with
  | "" => SyntaxError
  | String c s' =>
      if Ascii.eqb c "]" then Parsed ([], s')
      else if Ascii.eqb c "092" || Ascii.eqb c "-" then Unsupported
      else match parse_class s' with
           | Parsed (ms, rest) => Parsed (c :: ms, rest)
           | SyntaxError => SyntaxError
           | Unsupported => Unsupported
           end
  end.

(** An optional greedy quantifier after an atom. A lazy or braced quantifier
    is outside the fragment. *)
Definition parse_quantifier (a : regex) (s : string) : parse_result (regex * string) :=
  match s with
  | String q s' =>
      if is_quantifier q then
        match s' with
        | String "?" _ => Unsupported
        | _ => Parsed ((if Ascii.eqb q "*" then Star a
                        else if Ascii.eqb q "+" then Plus a else Opt a), s')
        end
      else if Ascii.eqb q "{" then Unsupported
      else Parsed (a, s)
  | "" => Parsed (a, s)
  end.

(** Lifting of the three outcomes. *)
Definition and_then {A B} (t : parse_result A) (k : A -> parse_result B) : parse_result B :=
  match t with
  | Parsed a => k a
  | SyntaxError => SyntaxError
  | Unsupported => Unsupported
  end.

(** Disjunction / Alternative / Term by recursive descent. [n] is the index of
    the next capturing group; [fuel] bounds the number of calls (running out
    of it leaves the fragment). [parse_alternative] stops in front of "|" or
    ")" or at the end of the source. *)
Fixpoint parse_disjunction (fuel : nat) (s : string) (n : nat)
  : parse_result (regex * string * nat) :=
  match fuel with
  | O => Unsupported
  | S fuel' =>
      and_then (parse_alternative fuel' s n) (fun '(r1, rest, n1) =>
        match rest with
        | String "|" rest1 =>
            and_then (parse_disjunction fuel' rest1 n1) (fun '(r2, rest2, n2) =>
              Parsed (Alt r1 r2, rest2, n2))
        | _ => Parsed (r1, rest, n1)
        end)
  end
with parse_alternative (fuel : nat) (s : string) (n : nat)
  : parse_result (regex * string * nat) :=
  match fuel with
  | O => Unsupported
  | S fuel' =>
      let continue (t : parse_result (regex * string * nat)) :=
        and_then t (fun '(a, rest, n1) =>
          and_then (parse_alternative fuel' rest n1) (fun '(r, rest', n2) =>
            Parsed (Seq a r, rest', n2))) in
      let quantified (a : regex) (rest : string) (n1 : nat) :=
        and_then (parse_quantifier a rest) (fun '(a', rest') =>
          Parsed (a', rest', n1)) in
      match s with
      | "" => Parsed (Empty, s, n)
      | String c s' =>
          if Ascii.eqb c "|" || Ascii.eqb c ")" then Parsed (Empty, s, n)
          else if Ascii.eqb c "^" then continue (Parsed (Bol, s', n))
          else if Ascii.eqb c "$" then continue (Parsed (Eol, s', n))
          else if is_quantifier c then SyntaxError
          else if Ascii.eqb c "092" || Ascii.eqb c "{" then Unsupported
          else if Ascii.eqb c "." then continue (quantified Dot s' n)
          else if Ascii.eqb c "[" then
            match s' with
            | String "^" s'' =>
                continue (and_then (parse_class s'') (fun '(ms, rest) =>
                            quantified (Class true ms) rest n))
            | _ =>
                continue (and_then (parse_class s') (fun '(ms, rest) =>
                            quantified (Class false ms) rest n))
            end
          else if Ascii.eqb c "(" then
            match s' with
            | String "?" _ => Unsupported
            | _ =>
                continue (and_then (parse_disjunction fuel' s' (S n)) (fun '(r, rest, n1) =>
                  match rest with
                  | String ")" rest' => quantified (Group n r) rest' n1
                  | _ => SyntaxError
                  end))
            end
          else continue (quantified (Char c) s' n)
      end
  end.

(** A whole pattern: the disjunction must consume the source; what is left can
    only be an unmatched ")". The result carries the number of groups. *)
Definition parse (src : string) : parse_result (regex * nat) :=
  and_then (parse_disjunction (2 * String.length src + 2) src 0) (fun '(r, rest, n) =>
    match rest with
    | "" => Parsed (r, n)
    | _ => SyntaxError
    end).

(** *** Matching (the backtracking semantics of ECMAScript matchers) *)

Definition captures := list (option string).

Fixpoint set_capture (i : nat) (v : option string) (c : captures) : captures :=
  match c, i with
  | [], _ => []
  | _ :: c', O => v :: c'
  | x :: c', S i' => x :: set_capture i' v c'
  end.

(** The indices of the groups inside a term: a quantifier resets them at the
    start of every iteration. *)
Fixpoint groups_of (r : regex) : list nat :=
  match r with
  | Empty | Char _ | Dot | Class _ _ | Bol | Eol => []
  | Seq r1 r2 | Alt r1 r2 => (groups_of r1 ++ groups_of r2)%list
  | Star r1 | Plus r1 | Opt r1 => groups_of r1
  | Group i r1 => i :: groups_of r1
  end.

Definition reset (r : regex) (c : captures) : captures :=
  fold_left (fun acc i => set_capture i None acc) (groups_of r) c.

(** The text between two positions, each given by what is left of the input. *)
Definition consumed (s s' : string) : string :=
  substring 0 (String.length s - String.length s') s.

Definition in_class (negated : bool) (members : list ascii) (c : ascii) : bool :=
  xorb negated (existsb (Ascii.eqb c) members).

Definition state := (string * captures)%type.
Definition continuation := string -> captures -> option state.

(** RepeatMatcher once the minimum is reached: one more iteration of [step]
    first, the continuation [k] when that fails. An iteration that consumes
    nothing fails. [n] bounds the iterations left; the length of what is left
    of the input is such a bound, as every iteration consumes. *)
Definition iterate (step : continuation -> string -> captures -> option state)
    (k : continuation) : nat -> string -> captures -> option state :=
  fix loop (n : nat) (s : string) (c : captures) {struct n} : option state :=
    match n with
    | O => k s c
    | S n' =>
        match step (fun s' c' => if Nat.ltb (String.length s') (String.length s)
                                 then loop n' s' c' else None) s c with
        | Some x => Some x
        | None => k s c
        end
    end.

Section Matcher.
(** The whole input, for the start-of-input assertion. *)
Variable input : string.

(** [m r k s c]: match [r] at the position where [s] is left of the input,
    with captures [c], then continue with [k]; [None] is failure, and
    alternatives are tried in order (a greedy quantifier first tries one more
    iteration). The captures of a quantified term are reset at the start of
    each iteration. *)
Fixpoint m (r : regex) (k : continuation) (s : string) (c : captures) {struct r}
  : option state :=
  match r with
  | Empty => k s c
  | Char a =>
      match s with
      | String b s' => if Ascii.eqb a b then k s' c else None
      | "" => None
      end
  | Dot =>
      match s with
      | String b s' => if is_line_terminator b then None else k s' c
      | "" => None
      end
  | Class negated members =>
      match s with
      | String b s' => if in_class negated members b then k s' c else None
      | "" => None
      end
  | Bol => if Nat.eqb (String.length s) (String.length input) then k s c else None
  | Eol => match s with "" => k s c | _ => None end
  | Seq r1 r2 => m r1 (m r2 k) s c
  | Alt r1 r2 =>
      match m r1 k s c with
      | Some x => Some x
      | None => m r2 k s c
      end
  | Group i r1 => m r1 (fun s' c' => k s' (set_capture i (Some (consumed s s')) c')) s c
  | Opt r1 =>
      iterate (fun k' s' c' => m r1 k' s' (reset r1 c')) k 1 s c
  | Star r1 =>
      iterate (fun k' s' c' => m r1 k' s' (reset r1 c')) k (String.length s) s c
  | Plus r1 =>
      m r1 (fun s1 c1 =>
              iterate (fun k' s' c' => m r1 k' s' (reset r1 c')) k (String.length s1) s1 c1)
        s (reset r1 c)
  end.

(** [RegExpBuiltinExec] without flags: the first start position, from the
    left, at which the pattern matches; the array holds the matched text
    followed by the captures. *)
Fixpoint exec_from (r : regex) (ngroups : nat) (s : string) : option (list (option string)) :=
  match m r (fun s' c' => Some (s', c')) s (repeat None ngroups) with
  | Some (s', c') => Some (Some (consumed s s') :: c')
  | None =>
      match s with
      | String _ s1 => exec_from r ngroups s1
      | "" => None
      end
  end.
End Matcher.

Definition exec (r : regex) (ngroups : nat) (input : string) : option (list (option string)) :=
  exec_from input r ngroups input.

End RegExp.

(** ** Conversions and JSON *)

Definition TypeError (m : string) : value := VError m.

(** [v[k]] for reading: [undefined] for a property that is not there, and a
    TypeError on [null] and [undefined]. *)
Definition prop (v : value) (k : string) : completion value :=
  match v with
  | VUndefined => Throw (TypeError ("Cannot read properties of undefined (reading '" ++ k ++ "')"))
  | VNull => Throw (TypeError ("Cannot read properties of null (reading '" ++ k ++ "')"))
  | VObject o => Ret (get_property k o)
  | VError m => Ret (if k =? "message" then VString m else VUndefined)
  | _ => Ret VUndefined
  end.

Fixpoint join (sep : string) (l : list string) : string :=
  match l with
  | [] => ""
  | [x] => x
  | x :: l' => x ++ sep ++ join sep l'
  end.

Definition hex_digit (n : nat) : ascii :=
  nth n ["0"; "1"; "2"; "3"; "4"; "5"; "6"; "7"; "8"; "9"; "a"; "b"; "c"; "d"; "e"; "f"]%char "0"%char.

Definition dquote : ascii := "034".
Definition backslash : ascii := "092".

(** QuoteJSONString on one code unit *)
Definition quote_char (c : ascii) : string :=
  if Ascii.eqb c dquote then String backslash (String dquote "")
  else if Ascii.eqb c backslash then String backslash (String backslash "")
  else if Ascii.eqb c "008" then String backslash "b"
  else if Ascii.eqb c "009" then String backslash "t"
  else if Ascii.eqb c "010" then String backslash "n"
  else if Ascii.eqb c "012" then String backslash "f"
  else if Ascii.eqb c "013" then String backslash "r"
  else if Nat.ltb (nat_of_ascii c) 32
       then String backslash "u00" ++ String (hex_digit (nat_of_ascii c / 16))
                                        (String (hex_digit (nat_of_ascii c mod 16)) "")
  else String c "".

Definition quote (s : string) : string :=
  String dquote (String.concat "" (map quote_char (list_ascii_of_string s)))
  ++ String dquote "".

Definition decimal (n : nat) : string := NilEmpty.string_of_uint (Nat.to_uint n).

Fixpoint indexed (i : nat) (items : list value) : object :=
  match items with
  | [] => []
  | v :: items' => (decimal i, v) :: indexed (S i) items'
  end.

(** The own enumerable properties a spread copies. *)
Definition own_enumerable (v : value) : object :=
  match v with
  | VObject o => o
  | VArray items => indexed 0 items
  | _ => []
  end.

(** White space and line terminators among the code units modelled. *)
Definition is_white_space (c : ascii) : bool :=
  existsb (Ascii.eqb c) ["009"; "010"; "011"; "012"; "013"; " "; "160"]%char.

(** [!s.trim()] *)
Definition blank (s : string) : bool :=
  forallb is_white_space (list_ascii_of_string s).

(** [s.includes(t)] *)
Fixpoint includes (t s : string) : bool :=
  prefix t s || match s with
                | "" => false
                | String _ s' => includes t s'
                end.

Record URL := { pathname : string; searchParams : list (string * string) }.

(** What the host provides and the router only calls. [RegExp_match src s]
    stands for [s.match(new RegExp(src))]: it throws where the constructor
    does, returns [None] for [null] and the match array otherwise.
    [Number_toString] is Number::toString, used by [String(x)] and
    [JSON.stringify]; [String_toNumber] is StringToNumber, used by ToNumber.
    [Response_refusal body status statusText headers] is the message of the
    error [new Response(body, { status, statusText, headers })] throws when
    it refuses its arguments: its wording is the host's own. *)
Record Platform := {
  RegExp_match : string -> string -> completion (option (list value));
  URL_parse : string -> completion URL;
  JSON_parse : string -> completion value;
  Number_toString : float -> string;
  String_toNumber : string -> float;
  Response_refusal : option string -> value -> value -> object -> string
}.

Definition capture_value (c : option string) : value :=
  match c with
  | Some s => VString s
  | None => VUndefined
  end.

(** The platform's regular expressions agree with ECMAScript on the fragment
    of [RegExp]; outside of it nothing is assumed. *)
Definition regexp_conforms (P : Platform) : Prop :=
  forall src input,
    match RegExp.parse src with
    | RegExp.Parsed (r, n) =>
        RegExp_match P src input = Ret (option_map (map capture_value) (RegExp.exec r n input))
    | RegExp.SyntaxError => exists e, RegExp_match P src input = Throw e
    | RegExp.Unsupported => True
    end.

Section Conversions.
Variable P : Platform.

(** [String(v)] *)
Fixpoint js_String (v : value) : string :=
  match v with
  | VUndefined => "undefined"
  | VNull => "null"
  | VBool b => if b then "true" else "false"
  | VNumber x => Number_toString P x
  | VString s => s
  | VError m => if m =? "" then "Error" else "Error: " ++ m
  | VArray items =>
      join "," (map (fun i => match i with
                              | VUndefined | VNull => ""
                              | _ => js_String i
                              end) items)
  | VObject _ => "[object Object]"
  end.

(** [JSON.stringify(v)]; [None] is [undefined]. *)
Fixpoint JSON_stringify (v : value) : option string :=
  match v with
  | VUndefined => None
  | VNull => Some "null"
  | VBool b => Some (if b then "true" else "false")
  | VNumber x =>
      Some (if PrimFloat.is_nan x || PrimFloat.is_infinity x then "null"
            else Number_toString P x)
  | VString s => Some (quote s)
  | VError _ => Some "{}"
  | VArray items =>
      Some ("[" ++ join "," (map (fun i => match JSON_stringify i with
                                           | Some s => s
                                           | None => "null"
                                           end) items) ++ "]")
  | VObject props =>
      Some ("{" ++ join "," (flat_map (fun '(k, x) => match JSON_stringify x with
                                                      | Some s => [quote k ++ ":" ++ s]
                                                      | None => []
                                                      end) props) ++ "}")
  end.
End Conversions.

(** ** [Response], the transport's response object *)

Module Response.
(** A [Response] instance: its body, [status], [statusText], and its header
    list, the names as they were given. *)
Record t := new {
  body : option string;
  status : value;
  statusText : value;
  headers : object
}.

(** *** The constructor, after the Fetch standard and Web IDL *)

(** The integer an [unsigned short] member takes from a number: 0 for NaN,
    the zeros and the infinities; any other number is truncated towards zero
    and reduced modulo 2^16. *)
Definition to_unsigned_short (x : float) : Z :=
  match Prim2SF x with
  | S754_finite s m e =>
      let n := if (0 <=? e)%Z then (Z.pos m * 2 ^ e)%Z else (Z.pos m / 2 ^ (- e))%Z in
      ((if s then - n else n) mod 65536)%Z
  | _ => 0%Z
  end.

(** The integer [n] as a number. *)
Definition number (n : Z) : float := PrimFloat.of_uint63 (Uint63.of_Z n).

(** The statuses [new Response] takes: 200 to 599. *)
Definition is_ok_status (n : Z) : bool := (200 <=? n)%Z && (n <=? 599)%Z.

(** The statuses that admit no body. *)
Definition is_null_body_status (n : Z) : bool :=
  existsb (Z.eqb n) [101; 103; 204; 205; 304]%Z.

(** reason-phrase = *( HTAB / SP / VCHAR / obs-text ) *)
Definition is_reason_phrase_char (c : ascii) : bool :=
  let n := N_of_ascii c in
  N.eqb n 9 || (N.leb 32 n && N.leb n 126) || N.leb 128 n.

Definition is_reason_phrase (s : string) : bool :=
  forallb is_reason_phrase_char (list_ascii_of_string s).

(** A header name is a non-empty token. *)
Definition is_tchar (c : ascii) : bool :=
  let n := N_of_ascii c in
  (N.leb 48 n && N.leb n 57) || (N.leb 65 n && N.leb n 90) || (N.leb 97 n && N.leb n 122)
  || existsb (Ascii.eqb c)
       ["!"; "#"; "$"; "%"; "&"; "'"; "*"; "+"; "-"; "."; "^"; "_"; "`"; "|"; "~"]%char.

Definition is_header_name (s : string) : bool :=
  negb (s =? "") && forallb is_tchar (list_ascii_of_string s).

(** HTTP whitespace bytes: tab, line feed, carriage return, space. *)
Definition is_http_whitespace (c : ascii) : bool :=
  existsb (Ascii.eqb c) ["009"; "010"; "013"; " "]%char.

Fixpoint trim_start (s : string) : string :=
  match s with
  | "" => ""
  | String c s' => if is_http_whitespace c then trim_start s' else s
  end.

Fixpoint trim_end (s : string) : string :=
  match s with
  | "" => ""
  | String c s' =>
      let t := trim_end s' in
      if is_http_whitespace c && (t =? "") then "" else String c t
  end.

(** A header value as it is stored: without the HTTP whitespace around it. *)
Definition normalize (s : string) : string := trim_end (trim_start s).

(** A normalized value is a header value when it holds no NUL, line feed or
    carriage return. *)
Definition is_header_value (s : string) : bool :=
  forallb (fun c => negb (existsb (Ascii.eqb c) ["000"; "010"; "013"]%char))
    (list_ascii_of_string s).

Definition lower (c : ascii) : ascii :=
  let n := N_of_ascii c in
  if N.leb 65 n && N.leb n 90 then ascii_of_N (n + 32) else c.

Fixpoint lowercase (s : string) : string :=
  match s with
  | "" => ""
  | String c s' => String (lower c) (lowercase s')
  end.

(** Header names are compared without regard to case. *)
Definition same_name (a b : string) : bool := lowercase a =? lowercase b.

Definition has_body (body : option string) : bool :=
  match body with Some _ => true | None => false end.

Section Constructor.
Variable P : Platform.

(** ToNumber. An object goes through its string (no [valueOf] or
    [toString] of its own is callable in this universe). *)
Definition ToNumber (v : value) : float :=
  match v with
  | VUndefined => PrimFloat.nan
  | VNull => 0
  | VBool b => if b then 1 else 0
  | VNumber x => x
  | VString s => String_toNumber P s
  | VError _ | VArray _ | VObject _ => String_toNumber P (js_String P v)
  end.

(** The status the constructor reads from the member [status]. *)
Definition code (status : value) : Z := to_unsigned_short (ToNumber status).

(** An entry of the record given as [headers], and what it appends to the
    header list: the name as it is, the string of the value, normalized. *)
Definition header_value (v : value) : string := normalize (js_String P v).

Definition is_header (kv : string * value) : bool :=
  is_header_name (fst kv) && is_header_value (header_value (snd kv)).

Definition header (kv : string * value) : string * value :=
  (fst kv, VString (header_value (snd kv))).

(** What the constructor accepts, with or without a body. The names
    [Set-Cookie] are appended like the others, as the server runtimes do. *)
Definition accepts (with_body : bool) (status statusText : value) (headers : object)
  : bool :=
  is_ok_status (code status)
  && is_reason_phrase (js_String P statusText)
  && forallb is_header headers
  && negb (with_body && is_null_body_status (code status)).

(** The header list of the response: the entries given, and for a body
    without any [Content-Type] the type of a string body. *)
Definition header_list (body : option string) (headers : object) : object :=
  let list := map header headers in
  if has_body body && negb (existsb (fun kv => same_name (fst kv) "Content-Type") list)
  then (list ++ [("Content-Type", VString "text/plain;charset=UTF-8")])%list
  else list.

(** [new Response(body, { status, statusText, headers })], where the three
    members are given. It throws a RangeError for a status outside of 200 to
    599, and a TypeError for a status text that is no reason phrase, for a
    header name or value that is none, and for a body with a null body
    status. *)
Definition construct (body : option string) (status statusText : value) (headers : object)
  : completion t :=
  if accepts (has_body body) status statusText headers
  then Ret (new body (VNumber (number (code status))) (VString (js_String P statusText))
              (header_list body headers))
  else Throw (VError (Response_refusal P body status statusText headers)).

End Constructor.
End Response.

(** What a callback may return: a [Response] instance or any other value. *)
Inductive result : Type :=
| Materialized (r : Response.t)
| Value (v : value).

(** [error.message] in a catch clause *)
Definition message_of (error : value) : completion value := prop error "message".

(** ** [class RouterResponse] *)

Module RouterResponse.
Record t := {
  header : object;
  status : value;
  statusText : value
}.

Definition constructor : t :=
  {| header := [ ("Access-Control-Allow-Origin", VString "*");
                 ("Server", VString "Cloudflare Worker");
                 ("Access-Control-Allow-Headers", VString "*");
                 ("Access-Control-Allow-Methods", VString "GET, POST, PUT, DELETE, PATCH, OPTIONS") ];
     status := VNumber 200;
     statusText := VString "OK" |}.

(** A destructuring default: it applies when the property is [undefined]. *)
Definition default_to (d v : value) : value :=
  match v with
  | VUndefined => d
  | _ => v
  end.

Definition set_header (k : string) (v : value) (this : t) : t :=
  {| header := set_property k v (header this); status := status this; statusText := statusText this |}.

(** [cors(options = {})]; it returns [this]. *)
Definition cors (this : t) (options : value) : completion t :=
  let options := default_to (VObject []) options in
  origin <- prop options "origin" ;;
  methods <- prop options "methods" ;;
  headers <- prop options "headers" ;;
  credentials <- prop options "credentials" ;;
  let origin := default_to (VString "*") origin in
  let methods := default_to (VString "GET, POST, PUT, DELETE, PATCH, OPTIONS") methods in
  let headers := default_to (VString "*") headers in
  let credentials := default_to (VBool false) credentials in
  let this := set_header "Access-Control-Allow-Origin" origin this in
  let this := set_header "Access-Control-Allow-Methods" methods this in
  let this := set_header "Access-Control-Allow-Headers" headers this in
  Ret (if truthy credentials
       then set_header "Access-Control-Allow-Credentials" (VString "true") this
       else this).

Definition out_of_range (status : value) : bool :=
  match status with
  | VNumber x => PrimFloat.ltb x 100 || PrimFloat.ltb 599 x
  | _ => true
  end.

(** [writeHead(status, statusText, headers)]: the builder after the call. *)
Definition writeHead (this : t) (status statusText headers : value) : completion t :=
  if negb (js_type_eqb (typeof status) TNumber) || out_of_range status
  then throw_Error "Status must be a number between 100 and 599"
  else if truthy statusText && negb (js_type_eqb (typeof statusText) TString)
  then throw_Error "Status text must be a string"
  else if truthy headers && negb (js_type_eqb (typeof headers) TObject)
  then throw_Error "Headers must be an object"
  else Ret {| status := status;
              statusText := js_or statusText (VString "");
              header := if truthy headers
                        then spread (header this) (own_enumerable headers)
                        else header this |}.

Section Materializers.
Variable P : Platform.

Definition json (this : t) (body : value) : completion Response.t :=
  try_catch
    (match body with
     | VUndefined => throw_Error "Cannot serialize undefined to JSON"
     | _ =>
         let jsonString := JSON_stringify P body in
         Response.construct P jsonString
           (js_or (status this) (VNumber 200))
           (js_or (statusText this) (VString "OK"))
           (spread (header this) [("Content-Type", VString "application/json")])
     end)
    (fun err =>
       m <- message_of err ;;
       throw_Error ("Failed to serialize response to JSON: " ++ js_String P m)).

Definition text (this : t) (body : value) : completion Response.t :=
  try_catch
    (let textBody := match body with
                     | VNull | VUndefined => ""
                     | _ => js_String P body
                     end in
     Response.construct P (Some textBody)
       (js_or (status this) (VNumber 200))
       (js_or (statusText this) (VString "OK"))
       (spread (header this) [("Content-Type", VString "text/plain")]))
    (fun err =>
       m <- message_of err ;;
       throw_Error ("Failed to create text response: " ++ js_String P m)).

Definition html (this : t) (body : value) : completion Response.t :=
  try_catch
    (let htmlBody := match body with
                     | VNull | VUndefined => ""
                     | _ => js_String P body
                     end in
     Response.construct P (Some htmlBody)
       (js_or (status this) (VNumber 200))
       (js_or (statusText this) (VString "OK"))
       (spread (header this) [("Content-Type", VString "text/html")]))
    (fun err =>
       m <- message_of err ;;
       throw_Error ("Failed to create HTML response: " ++ js_String P m)).

End Materializers.
End RouterResponse.

(** ** [class RouterRequest] *)

(** The raw transport request. [headers] is [None] when the property is
    nullish, else its [get]; [text] and [formData] give what awaiting the
    transport's readers gives. *)
Record RawRequest := {
  raw_url : value;
  raw_method : value;
  raw_headers : option (string -> completion value);
  raw_body : value;
  raw_cf : value;
  raw_text : completion string;
  raw_formData : completion value
}.

(** The first argument of [fetch]: a request object, or a value that is none
    and has none of the properties the router reads ([null], [undefined], a
    primitive, an empty object). *)
Inductive request_argument : Type :=
| NotObject (v : value)
| Raw (r : RawRequest).

(** What a primitive shows when it is read as a request: no property. *)
Definition primitive_request : RawRequest :=
  {| raw_url := VUndefined;
     raw_method := VUndefined;
     raw_headers := None;
     raw_body := VUndefined;
     raw_cf := VUndefined;
     raw_text := Throw (TypeError "this.request.text is not a function");
     raw_formData := Throw (TypeError "this.request.formData is not a function") |}.

Module RouterRequest.
Record t := {
  client : object;
  method : value;
  url : URL;
  headers : option (string -> completion value);
  body : value;
  request : RawRequest;
  query : object;
  (** [params] is not assigned by the constructor: [VUndefined] until
      [fetch] assigns it. *)
  params : value;
  (** properties callbacks add to the wrapper, such as [req.user] *)
  expando : object
}.

Definition with_params (v : value) (this : t) : t :=
  {| client := client this; method := method this; url := url this;
     headers := headers this; body := body this; request := request this;
     query := query this; params := v; expando := expando this |}.

(** [a.k || null] where [a] is neither [null] nor [undefined] *)
Definition or_null (v : value) : value := js_or v VNull.

Definition field (o : value) (k : string) : value :=
  match prop o k with
  | Ret v => v
  | Throw _ => VUndefined
  end.

Section Methods.
Variable P : Platform.

(** The constructor past its guard. *)
Definition build (request : RawRequest) : completion t :=
  let cf := js_or (raw_cf request) (VObject []) in
  let botManagement := js_or (field cf "botManagement") (VObject []) in
  let jsDetection := js_or (field botManagement "jsDetection") (VObject []) in
  ip <- match raw_headers request with
        | None => Ret VUndefined
        | Some get => get "cf-connecting-ip"
        end ;;
  let client :=
    [ ("ipAddress", or_null ip);
      ("clientTcpRtt", or_null (field cf "clientTcpRtt"));
      ("longitude", or_null (field cf "longitude"));
      ("latitude", or_null (field cf "latitude"));
      ("city", or_null (field cf "city"));
      ("region", or_null (field cf "region"));
      ("regionCode", or_null (field cf "regionCode"));
      ("country", or_null (field cf "country"));
      ("postalCode", or_null (field cf "postalCode"));
      ("timezone", or_null (field cf "timezone"));
      ("asn", or_null (field cf "asn"));
      ("asOrganization", or_null (field cf "asOrganization"));
      ("continent", or_null (field cf "continent"));
      ("httpProtocol", or_null (field cf "httpProtocol"));
      ("botScore", or_null (field botManagement "score"));
      ("jsDetectionPassed", or_null (field jsDetection "passed")) ] in
  u <- URL_parse P (js_String P (raw_url request)) ;;
  Ret {| client := client;
         method := raw_method request;
         url := u;
         headers := raw_headers request;
         body := raw_body request;
         request := request;
         query := fold_left (fun q kv => set_property (fst kv) (VString (snd kv)) q)
                    (searchParams u) [];
         params := VUndefined;
         expando := [] |}.

Definition constructor (request : request_argument) : completion t :=
  match request with
  | NotObject v =>
      if negb (truthy v) then throw_Error "Request object is required"
      else build primitive_request
  | Raw request => build request
  end.

(** The size ceiling of [text()], in code units. *)
Definition max_length : N := 1024 * 1024.

Definition length (s : string) : N := N.of_nat (String.length s).

(** [async text()] *)
Definition text (this : t) : completion string :=
  try_catch
    (text <- raw_text (request this) ;;
     if N.ltb max_length (length text)
     then throw_Error "Request body too large (max 1MB)"
     else Ret text)
    (fun error =>
       m <- message_of error ;;
       throw_Error ("Failed to parse request body as text: " ++ js_String P m)).

(** [error.message.includes('JSON')] *)
Definition message_includes_JSON (m : value) : completion bool :=
  match m with
  | VString s => Ret (includes "JSON" s)
  | VArray items =>
      Ret (existsb (fun i => match i with
                             | VString s => s =? "JSON"
                             | _ => false
                             end) items)
  | _ => Throw (TypeError "error.message.includes is not a function")
  end.

(** [async json()] *)
Definition json (this : t) : completion value :=
  try_catch
    (text <- text this ;;
     if blank text
     then throw_Error "Empty request body"
     else JSON_parse P text)
    (fun error =>
       m <- message_of error ;;
       b <- message_includes_JSON m ;;
       if b
       then throw_Error ("Invalid JSON format: " ++ js_String P m)
       else throw_Error ("Failed to parse request body as JSON: " ++ js_String P m)).

(** [async formdata()] *)
Definition formdata (this : t) : completion value :=
  try_catch
    (raw_formData (request this))
    (fun error =>
       m <- message_of error ;;
       throw_Error ("Failed to parse request body as form data: " ++ js_String P m)).
End Methods.
End RouterRequest.

(** ** [class Router] *)

Module Router.
(** The six methods the registration operations pass to [_addRoute]. *)
Inductive method := GET | POST | PUT | DELETE | PATCH | OPTIONS.

Definition method_name (m : method) : string :=
  match m with
  | GET => "GET" | POST => "POST" | PUT => "PUT"
  | DELETE => "DELETE" | PATCH => "PATCH" | OPTIONS => "OPTIONS"
  end.

(** What the replacer returns for every match. *)
Definition group_source : string := "([^/]+)".

Definition is_slash (c : ascii) : bool := Ascii.eqb c "/".

(** The longest prefix without a slash. *)
Fixpoint run (s : string) : string :=
  match s with
  | "" => ""
  | String c s' => if is_slash c then "" else String c (run s')
  end.

(** [pattern.replace(/:([^/]+)/g, ...)]: the parameter names pushed by the
    replacer, and the pattern with every match replaced by the group. A match
    starts at a ":" that is followed by a character other than a slash, and
    runs up to the next slash; [in_name] is true inside a match, whose
    characters are dropped. *)
Fixpoint replace (s : string) (in_name : bool) : list string * string :=
  match s with
  | "" => ([], "")
  | String c s' =>
      if is_slash c then
        let (names, re) := replace s' false in (names, String c re)
      else if in_name then replace s' true
      else if Ascii.eqb c ":" && negb (run s' =? "") then
        let (names, re) := replace s' true in (run s' :: names, group_source ++ re)
      else
        let (names, re) := replace s' false in (names, String c re)
  end.

(** [for (i ...) params[paramNames[i]] = match[i + 1]] *)
Fixpoint assign (paramNames : list string) (i : nat) (matched : list value)
    (params : object) : object :=
  match paramNames with
  | [] => params
  | name :: paramNames' =>
      assign paramNames' (S i) matched (set_property name (nth (S i) matched VUndefined) params)
  end.

Section Dispatch.
Variable P : Platform.
(** What the callbacks can observe and change outside of the request and
    the response builder (counters, logs). *)
Variable World : Type.

(** A middleware or a handler, called with [(req, res, env, ctx)]: what it
    returns or throws, and the request, the builder and the world as it
    leaves them. *)
Record outcome := {
  returned : completion result;
  req_after : RouterRequest.t;
  res_after : RouterResponse.t;
  world_after : World
}.

Definition callback :=
  RouterRequest.t -> RouterResponse.t -> value -> value -> World -> outcome.

(** An argument that should be a function. *)
Inductive argument : Type :=
| Function (f : callback)
| NotFunction (v : value).

Definition truthy_argument (a : argument) : bool :=
  match a with
  | Function _ => true
  | NotFunction v => truthy v
  end.

Record route := {
  url : string;
  callback_of : callback;
  method_of : method
}.

Record t := {
  routes : list route;
  middlewares : list callback
}.

Definition constructor : t := {| routes := []; middlewares := [] |}.

Definition use (this : t) (middleware : argument) : completion t :=
  match middleware with
  | NotFunction _ => throw_Error "Middleware must be a function."
  | Function f =>
      Ret {| routes := routes this; middlewares := (middlewares this ++ [f])%list |}
  end.

Definition method_eqb (a b : method) : bool := method_name a =? method_name b.

(** [this.routes.forEach(route => { if (...) throw ... })] *)
Fixpoint check_duplicate (rs : list route) (m : method) (u : string) : completion unit :=
  match rs with
  | [] => Ret tt
  | r :: rs' =>
      if (url r =? u) && method_eqb (method_of r) m
      then throw_Error ("Route already exists for " ++ method_name m ++ " " ++ u ++ ".")
      else check_duplicate rs' m u
  end.

Definition _addRoute (this : t) (m : method) (u : value) (cb : argument) : completion t :=
  if negb (truthy u) || negb (truthy_argument cb)
  then throw_Error "URL or Callback is not provided."
  else match u with
       | VString u =>
           match cb with
           | NotFunction _ => throw_Error "Callback must be of type function."
           | Function f =>
               _ <- check_duplicate (routes this) m u ;;
               Ret {| routes := (routes this
                                 ++ [{| url := u; callback_of := f; method_of := m |}])%list;
                      middlewares := middlewares this |}
           end
       | _ => throw_Error "URL must be of type string."
       end.

Definition get (this : t) u cb := _addRoute this GET u cb.
Definition post (this : t) u cb := _addRoute this POST u cb.
Definition put (this : t) u cb := _addRoute this PUT u cb.
Definition delete (this : t) u cb := _addRoute this DELETE u cb.
Definition patch (this : t) u cb := _addRoute this PATCH u cb.
Definition options (this : t) u cb := _addRoute this OPTIONS u cb.

(** [_matchRoute(pattern, pathname)]: [None] is [null], [Some params] is
    [{ params }]. *)
Definition _matchRoute (pattern pathname : string) : completion (option object) :=
  let (paramNames, regexPattern) := replace pattern false in
  matched <- RegExp_match P ("^" ++ regexPattern ++ "$") pathname ;;
  match matched with
  | None => Ret None
  | Some matched => Ret (Some (assign paramNames 0 matched []))
  end.

(** The headers of every error response. *)
Definition json_headers : object :=
  [("Content-Type", VString "application/json");
   ("Access-Control-Allow-Origin", VString "*")].

(** The object [_errorResponse] serializes. *)
Definition error_body (status : float) (statusText : string) (message : value) : object :=
  let message := match message with VUndefined => VNull | _ => message end in
  let body := [("error", VString statusText); ("status", VNumber status)] in
  if truthy message then set_property "message" message body else body.

(** [_errorResponse(status, statusText, message = null)]. [fetch] calls it
    with the statuses 400, 404 and 500, with literal status texts and with
    these two headers, which the constructor of [Response] accepts and keeps
    as they are: the response is written as the record. *)
Definition _errorResponse (status : float) (statusText : string) (message : value)
  : Response.t :=
  Response.new (JSON_stringify P (VObject (error_body status statusText message)))
    (VNumber status) (VString statusText) json_headers.

(** What a dispatch does, as observed from outside: the calls of the
    middleware and of the handlers, and the match attempts, by index in
    their tables. *)
Inductive event : Type :=
| Middleware (i : nat)
| Matching (i : nat)
| Handler (i : nat).

(** A run: how it completed, the world it leaves, what it did. *)
Record execution (A : Type) := {
  completed : completion A;
  world : World;
  log : list event
}.

Definition request_truthy (request : request_argument) : bool :=
  match request with
  | NotObject v => truthy v
  | Raw _ => true
  end.

Definition request_url (request : request_argument) : value :=
  match request with
  | NotObject _ => VUndefined
  | Raw r => raw_url r
  end.

Definition request_method (request : request_argument) : value :=
  match request with
  | NotObject _ => VUndefined
  | Raw r => raw_method r
  end.

(** [route.method === request.method] *)
Definition strict_equal (m : method) (v : value) : bool :=
  match v with
  | VString s => method_name m =? s
  | _ => false
  end.

(** [for (let middleware of this.middlewares) { try { ... } catch ... }]:
    [inl r] when the loop leaves [fetch] with [return r], [inr] with the
    request and the builder when it runs to its end. What the catch clauses
    print with [console.error] is not part of the model. *)
Fixpoint run_middlewares (ms : list callback) (i : nat)
    (req : RouterRequest.t) (res : RouterResponse.t) (env ctx : value)
    (w : World) (l : list event)
  : execution (result + RouterRequest.t * RouterResponse.t) :=
  match ms with
  | [] => {| completed := Ret (inr (req, res)); world := w; log := l |}
  | middleware :: ms' =>
      let o := middleware req res env ctx w in
      let l := (l ++ [Middleware i])%list in
      match returned o with
      | Ret (Materialized r) =>
          {| completed := Ret (inl (Materialized r)); world := world_after o; log := l |}
      | Ret (Value _) =>
          run_middlewares ms' (S i) (req_after o) (res_after o) env ctx (world_after o) l
      | Throw error =>
          {| completed :=
               (message <- message_of error ;;
                Ret (inl (Materialized (_errorResponse 500 "Middleware Error" message))));
             world := world_after o; log := l |}
      end
  end.

(** [for (let route of this.routes) { ... }]: [Some r] when the loop leaves
    [fetch] with [return r], [None] when no route was taken. *)
Fixpoint run_routes (rs : list route) (i : nat) (request : request_argument)
    (pathname : string) (req : RouterRequest.t) (res : RouterResponse.t)
    (env ctx : value) (w : World) (l : list event)
  : execution (option result) :=
  match rs with
  | [] => {| completed := Ret None; world := w; log := l |}
  | route :: rs' =>
      let l := (l ++ [Matching i])%list in
      match _matchRoute (url route) pathname with
      | Throw e => {| completed := Throw e; world := w; log := l |}
      | Ret (Some params) =>
          if strict_equal (method_of route) (request_method request) then
            let req := RouterRequest.with_params (VObject params) req in
            let o := callback_of route req res env ctx w in
            {| completed :=
                 try_catch
                   (r <- returned o ;; Ret (Some r))
                   (fun error =>
                      message <- message_of error ;;
                      Ret (Some (Materialized
                                   (_errorResponse 500 "Internal Server Error" message))));
               world := world_after o;
               log := (l ++ [Handler i])%list |}
          else run_routes rs' (S i) request pathname req res env ctx w l
      | Ret None => run_routes rs' (S i) request pathname req res env ctx w l
      end
  end.

(** The body of the [try] block of [fetch]. *)
Definition fetch_body (this : t) (request : request_argument) (env ctx : value)
    (w : World) : execution result :=
  let stop (c : completion result) := {| completed := c; world := w; log := [] |} in
  if negb (request_truthy request)
     || negb (js_type_eqb (typeof (request_url request)) TString)
  then stop (Ret (Materialized (_errorResponse 400 "Invalid request object" VUndefined)))
  else
    match URL_parse P (js_String P (request_url request)) with
    | Throw e => stop (Throw e)
    | Ret u =>
        let pathname := pathname u in
        match RouterRequest.constructor P request with
        | Throw e => stop (Throw e)
        | Ret req =>
            let res := RouterResponse.constructor in
            let ms := run_middlewares (middlewares this) 0 req res env ctx w [] in
            match completed ms with
            | Throw e => {| completed := Throw e; world := world ms; log := log ms |}
            | Ret (inl r) => {| completed := Ret r; world := world ms; log := log ms |}
            | Ret (inr (req, res)) =>
                let rs := run_routes (routes this) 0 request pathname req res env ctx
                            (world ms) (log ms) in
                match completed rs with
                | Throw e => {| completed := Throw e; world := world rs; log := log rs |}
                | Ret (Some r) => {| completed := Ret r; world := world rs; log := log rs |}
                | Ret None =>
                    {| completed :=
                         Ret (Materialized
                                (_errorResponse 404 "Not Found"
                                   (VString ("Route " ++ js_String P (request_method request)
                                             ++ " " ++ pathname ++ " not found"))));
                       world := world rs; log := log rs |}
                end
            end
        end
    end.

(** [async fetch(request, env, ctx)] *)
Definition fetch (this : t) (request : request_argument) (env ctx : value)
    (w : World) : execution result :=
  let attempt := fetch_body this request env ctx w in
  {| completed :=
       try_catch (completed attempt)
         (fun error =>
            Ret (Materialized
                   (_errorResponse 500 "Internal Server Error"
                      (VString "Failed to process request"))));
     world := world attempt;
     log := log attempt |}.

(** *** What the dispatch properties are stated with *)

(** The requests [fetch] lets in: a request object whose [url] is a string
    that parses, and from which the wrapper [req] is built. *)
Definition admitted (request : request_argument) (u : URL) (req : RouterRequest.t) : Prop :=
  request_truthy request = true
  /\ typeof (request_url request) = TString
  /\ URL_parse P (js_String P (request_url request)) = Ret u
  /\ RouterRequest.constructor P request = Ret req.

(** The middleware [ms] called one after the other, each on what the one
    before left, as long as each returns a value that is no response. *)
Fixpoint pass (ms : list callback) (req : RouterRequest.t) (res : RouterResponse.t)
    (env ctx : value) (w : World) : option (RouterRequest.t * RouterResponse.t * World) :=
  match ms with
  | [] => Some (req, res, w)
  | middleware :: ms' =>
      let o := middleware req res env ctx w in
      match returned o with
      | Ret (Value _) => pass ms' (req_after o) (res_after o) env ctx (world_after o)
      | _ => None
      end
  end.

(** No route of [rs] is taken: each match attempt returns, with [null] or
    for a route of another method. *)
Fixpoint unmatched (rs : list route) (request : request_argument) (pathname : string) : bool :=
  match rs with
  | [] => true
  | r :: rs' =>
      match _matchRoute (url r) pathname with
      | Ret None => unmatched rs' request pathname
      | Ret (Some _) =>
          negb (strict_equal (method_of r) (request_method request))
          && unmatched rs' request pathname
      | Throw _ => false
      end
  end.

(** What the catch clause around a callback answers to the thrown [error]:
    the error response with the message of [error], and the last-resort
    response of [fetch] when reading that message throws. *)
Definition failure_response (label : string) (error : value) : Response.t :=
  match message_of error with
  | Ret message => _errorResponse 500 label message
  | Throw _ => _errorResponse 500 "Internal Server Error" (VString "Failed to process request")
  end.


(** A callback that leaves [req.params] as it finds it. *)
Definition keeps_params (f : callback) : Prop :=
  forall req res env ctx w,
    RouterRequest.params (req_after (f req res env ctx w)) = RouterRequest.params req.

(** The (method, pattern) pair of a route. *)
Definition key (r : route) : method * string := (method_of r, url r).

(** The routers the registration operations build. *)
Inductive reachable : t -> Prop :=
| reachable_constructor : reachable constructor
| reachable_use this middleware this' :
    reachable this -> use this middleware = Ret this' -> reachable this'
| reachable_addRoute this m u cb this' :
    reachable this -> _addRoute this m u cb = Ret this' -> reachable this'.

End Dispatch.
End Router.


(** ** The segment matchers the matching claims are stated against *)

Module Segments.
Import Router.

(** The segments of a slash-delimited string: "/a/b" has the segments "", "a"
    and "b". *)
Fixpoint split (s : string) : list string :=
  match s with
  | "" => [""]
  | String c s' =>
      if is_slash c then "" :: split s'
      else match split s' with
           | seg :: segs => String c seg :: segs
           | [] => [String c ""]
           end
  end.

(** [strip p s]: what is left of [s] after its prefix [p]. *)
Fixpoint strip (p s : string) : option string :=
  match p, s with
  | "", _ => Some s
  | String a p', String b s' => if Ascii.eqb a b then strip p' s' else None
  | String _ _, "" => None
  end.

(** The reference matcher, after the words of the specification: a segment of
    the form ":name" captures one non-empty path segment, every other
    segment is matched literally, and both strings must have the same number
    of segments. *)
Definition named (seg : string) : option string :=
  match seg with
  | String ":" name => if name =? "" then None else Some name
  | _ => None
  end.

Fixpoint reference_captures (pattern path : list string) : option (list (string * string)) :=
  match pattern, path with
  | [], [] => Some []
  | p :: pattern', s :: path' =>
      match named p with
      | Some name =>
          if s =? "" then None
          else option_map (cons (name, s)) (reference_captures pattern' path')
      | None =>
          if p =? s then reference_captures pattern' path' else None
      end
  | _, _ => None
  end.

(** The map of a list of bindings, assigned from left to right. *)
Definition bindings (l : list (string * string)) : object :=
  fold_left (fun params kv => set_property (fst kv) (VString (snd kv)) params) l [].

Definition reference_match (pattern pathname : string) : option object :=
  option_map bindings (reference_captures (split pattern) (split pathname)).

(** The matcher the code implements on patterns without syntax characters: a
    segment captures from its first ":" that is followed by a character, and
    what stands before that ":" is a literal prefix of the path segment. *)
Fixpoint capture_of (seg : string) : string * option string :=
  match seg with
  | "" => ("", None)
  | String c seg' =>
      if Ascii.eqb c ":" && negb (seg' =? "") then ("", Some seg')
      else let (p, name) := capture_of seg' in (String c p, name)
  end.

Fixpoint segment_captures (pattern path : list string) : option (list (string * string)) :=
  match pattern, path with
  | [], [] => Some []
  | p :: pattern', s :: path' =>
      match capture_of p with
      | (prefix, Some name) =>
          match strip prefix s with
          | Some v =>
              if v =? "" then None
              else option_map (cons (name, v)) (segment_captures pattern' path')
          | None => None
          end
      | (_, None) =>
          if p =? s then segment_captures pattern' path' else None
      end
  | _, _ => None
  end.

Definition captures_of (pattern pathname : string) : option (list (string * string)) :=
  segment_captures (split pattern) (split pathname).

Definition segment_match (pattern pathname : string) : option object :=
  option_map bindings (captures_of pattern pathname).

(** A pattern without syntax characters of regular expressions. *)
Definition plain (pattern : string) : bool :=
  forallb (fun c => negb (RegExp.is_syntax_char c)) (list_ascii_of_string pattern).

Definition no_colon (pattern : string) : bool :=
  forallb (fun c => negb (Ascii.eqb c ":")) (list_ascii_of_string pattern).


(** The value the last capture named [name] holds. *)
Fixpoint last_capture (name : string) (l : list (string * string)) : option string :=
  match l with
  | [] => None
  | (k, v) :: l' =>
      match last_capture name l' with
      | Some v' => Some v'
      | None => if k =? name then Some v else None
      end
  end.

End Segments.

(** ** A platform to run the model on *)

Module Host.

(** Regular expressions of the fragment only; a source outside of it is
    refused like a malformed one. *)
Definition match_regexp (src input : string) : completion (option (list value)) :=
  match RegExp.parse src with
  | RegExp.Parsed (r, n) => Ret (option_map (map capture_value) (RegExp.exec r n input))
  | RegExp.SyntaxError => Throw (VError ("Invalid regular expression: /" ++ src ++ "/"))
  | RegExp.Unsupported => Throw (VError ("Unsupported regular expression: /" ++ src ++ "/"))
  end.

(** [index_of c s]: the text before and after the first [c] of [s]. *)
Fixpoint cut (c : ascii) (s : string) : string * option string :=
  match s with
  | "" => ("", None)
  | String b s' =>
      if Ascii.eqb b c then ("", Some s')
      else let (before, after) := cut c s' in (String b before, after)
  end.

Fixpoint split_on (fuel : nat) (c : ascii) (s : string) : list string :=
  match fuel with
  | O => [s]
  | S fuel' =>
      match cut c s with
      | (before, Some after) => before :: split_on fuel' c after
      | (before, None) => [before]
      end
  end.

(** URLs of the shape scheme://host/path?query, without escapes or fragment:
    enough for the sample requests. *)
Definition parse_url (s : string) : completion URL :=
  match cut ":" s with
  | (scheme, Some (String "/" (String "/" rest))) =>
      if scheme =? "" then Throw (TypeError "Invalid URL")
      else
        let (location, query) := cut "?" rest in
        let (host, path) := cut "/" location in
        Ret {| pathname := match path with
                           | Some p => String "/" p
                           | None => "/"
                           end;
               searchParams :=
                 match query with
                 | Some q =>
                     map (fun kv => let (k, v) := cut "=" kv in
                                    (k, match v with Some v => v | None => "" end))
                       (split_on (String.length q) "&" q)
                 | None => []
                 end |}
  | _ => Throw (TypeError "Invalid URL")
  end.

(** The JSON texts of a few literals; every other text is refused with the
    message V8 gives for an unexpected end. *)
Definition parse_json (s : string) : completion value :=
  if s =? "null" then Ret VNull
  else if s =? "true" then Ret (VBool true)
  else if s =? "false" then Ret (VBool false)
  else if s =? "{}" then Ret (VObject [])
  else if s =? "[]" then Ret (VArray [])
  else Throw (VError "Unexpected end of JSON input").

(** The digits of a fraction, without the zeros at its end. *)
Fixpoint drop_zeros (rev_digits : list ascii) : list ascii :=
  match rev_digits with
  | "0"%char :: l => drop_zeros l
  | _ => rev_digits
  end.

Definition fraction_digits (frac unit : Z) : string :=
  match NilZero.string_of_int (Z.to_int (unit + frac)) with
  | String _ digits =>
      string_of_list_ascii (rev (drop_zeros (rev (list_ascii_of_string digits))))
  | "" => ""
  end.

(** Number::toString on the integers and on the dyadic fractions whose exact
    decimal expansion is the shortest one (200.5, 0.25). *)
Definition number_to_string (x : float) : string :=
  match Prim2SF x with
  | S754_nan => "NaN"
  | S754_infinity s => if s then "-Infinity" else "Infinity"
  | S754_zero _ => "0"
  | S754_finite s m e =>
      let sign := if s then "-" else "" in
      match e with
      | Zneg k =>
          let scaled := (Zpos m * 5 ^ Zpos k)%Z in
          let unit := (10 ^ Zpos k)%Z in
          let whole := NilZero.string_of_int (Z.to_int (scaled / unit)) in
          let frac := (scaled mod unit)%Z in
          if (frac =? 0)%Z then sign ++ whole
          else sign ++ whole ++ "." ++ fraction_digits frac unit
      | _ => sign ++ NilZero.string_of_int (Z.to_int (Zpos m * 2 ^ e))
      end
  end.

(** StringToNumber on the decimal integers of at most fifteen digits, with
    white space around them, and on the blank texts, which read as 0; the
    stub reads every other text as NaN. *)
Fixpoint skip_white_space (s : string) : string :=
  match s with
  | "" => ""
  | String c s' => if is_white_space c then skip_white_space s' else s
  end.

Fixpoint decimal_digits (s : string) (acc : Z) : option Z :=
  match s with
  | "" => Some acc
  | String c s' =>
      if is_white_space c then (if blank s' then Some acc else None)
      else match digit c with
           | Some d => decimal_digits s' (10 * acc + Z.of_N d)
           | None => None
           end
  end.

Definition string_to_number (s : string) : float :=
  let t := skip_white_space s in
  if Nat.ltb 15 (String.length t) then PrimFloat.nan
  else match decimal_digits t 0 with
       | Some n => Response.number n
       | None => PrimFloat.nan
       end.

(** The messages of this host: one for a status out of range, one for a body
    with a null body status, one for the other refusals. *)
Definition response_refusal (body : option string) (status statusText : value)
    (headers : object) : string :=
  let code := Response.to_unsigned_short
                match status with VNumber x => x | _ => PrimFloat.nan end in
  if negb (Response.is_ok_status code)
  then "Responses may only be constructed with status codes in the range 200 to 599, inclusive."
  else if Response.has_body body && Response.is_null_body_status code
  then "Response with null body status (101, 204, 205, or 304) cannot have a body."
  else "Invalid header or status text.".

Definition platform : Platform :=
  {| RegExp_match := match_regexp;
     URL_parse := parse_url;
     JSON_parse := parse_json;
     Number_toString := number_to_string;
     String_toNumber := string_to_number;
     Response_refusal := response_refusal |}.

End Host.

(** ** The shape of the expressions [_matchRoute] builds *)

Module Shape.
Import Router.

(** What [replace] leaves of a pattern: its literal characters, and a capture
    for each parameter. *)
Inductive item : Type :=
| Lit (c : ascii)
| Cap (name : string).

Fixpoint items_of (s : string) (in_name : bool) : list item :=
  match s with
  | "" => []
  | String c s' =>
      if is_slash c then Lit c :: items_of s' false
      else if in_name then items_of s' true
      else if Ascii.eqb c ":" && negb (run s' =? "") then Cap (run s') :: items_of s' true
      else Lit c :: items_of s' false
  end.

Fixpoint names (its : list item) : list string :=
  match its with
  | [] => []
  | Lit _ :: its' => names its'
  | Cap name :: its' => name :: names its'
  end.

Fixpoint source (its : list item) : string :=
  match its with
  | [] => ""
  | Lit c :: its' => String c (source its')
  | Cap _ :: its' => group_source ++ source its'
  end.

Definition not_slash : RegExp.regex := RegExp.Class true ["/"%char].

(** The expression the items parse to, closed by the end-of-input assertion;
    [n] is the index of the next group. *)
Fixpoint regex_of (its : list item) (n : nat) : RegExp.regex :=
  match its with
  | [] => RegExp.Seq RegExp.Eol RegExp.Empty
  | Lit c :: its' => RegExp.Seq (RegExp.Char c) (regex_of its' n)
  | Cap _ :: its' =>
      RegExp.Seq (RegExp.Group n (RegExp.Seq (RegExp.Plus not_slash) RegExp.Empty))
        (regex_of its' (S n))
  end.

(** What is left of a string after its longest prefix without a slash. *)
Fixpoint skip (s : string) : string :=
  match s with
  | "" => ""
  | String c s' => if is_slash c then s else skip s'
  end.

(** The items matched against a path from its start to its end. *)
Fixpoint match_items (its : list item) (s : string) : option (list (string * string)) :=
  match its with
  | [] => if s =? "" then Some [] else None
  | Lit c :: its' =>
      match s with
      | String b s' => if Ascii.eqb c b then match_items its' s' else None
      | "" => None
      end
  | Cap name :: its' =>
      if run s =? "" then None
      else option_map (cons (name, run s)) (match_items its' (skip s))
  end.

(** A capture is followed by a slash or by the end. *)
Fixpoint closed (its : list item) : bool :=
  match its with
  | [] => true
  | Cap _ :: Lit c :: its' => is_slash c && closed its'
  | Cap _ :: [] => true
  | Cap _ :: Cap _ :: _ => false
  | Lit _ :: its' => closed its'
  end.

(** The captures after the items have matched: one group for each binding,
    from the group of index [n] on. *)
Fixpoint fill (n : nat) (vals : list (string * string)) (c : RegExp.captures)
  : RegExp.captures :=
  match vals with
  | [] => c
  | (_, v) :: vals' => fill (S n) vals' (RegExp.set_capture n (Some v) c)
  end.

(** The continuation that accepts. *)
Definition final : RegExp.continuation := fun s c => Some (s, c).

Definition literal (its : list item) : bool :=
  forallb (fun i => match i with
                    | Lit c => negb (RegExp.is_syntax_char c)
                    | Cap _ => true
                    end) its.

End Shape.


(** ** What the properties of the wrapper and of the builder are stated with *)

Module Messages.
Definition too_large : string := "Request body too large (max 1MB)".
Definition empty_body : string := "Empty request body".
Definition text_prefix : string := "Failed to parse request body as text: ".
Definition json_prefix : string := "Failed to parse request body as JSON: ".
Definition invalid_prefix : string := "Invalid JSON format: ".
End Messages.

Module WriteHead.
(** The number [n] as a JavaScript number. *)
Definition number (n : nat) : float := PrimFloat.of_uint63 (Uint63.of_Z (Z.of_nat n)).

(** After the words of the specification: [status] is an integer in
    [100, 599]. *)
Definition integer_in_range (status : value) : bool :=
  match status with
  | VNumber x => existsb (fun n => PrimFloat.eqb x (number n)) (seq 100 500)
  | _ => false
  end.

(** After the message of the code: a number between 100 and 599, whole or
    not. NaN is none. *)
Definition between_100_and_599 (x : float) : bool :=
  PrimFloat.leb 100 x && PrimFloat.leb x 599.

(** An optional argument that is given and is no string: a falsy value
    counts as not given. *)
Definition given_not_string (v : value) : Prop :=
  truthy v = true /\ forall s, v <> VString s.

Definition omitted_or_string (v : value) : Prop :=
  truthy v = false \/ exists s, v = VString s.

(** An optional argument that is given and is no object. *)
Definition given_not_object (v : value) : Prop :=
  truthy v = true /\ typeof v <> TObject.

Definition omitted_or_object (v : value) : Prop :=
  truthy v = false \/ typeof v = TObject.
End WriteHead.

(** ** Sample callbacks and requests *)

Module Samples.
Import Router.

(** The world of the samples is a counter of calls. *)
Definition counter := nat.

(** [(req, res) => { calls++ }] *)
Definition counting : callback counter :=
  fun req res env ctx w =>
    {| returned := Ret (Value VUndefined);
       req_after := req; res_after := res; world_after := S w |}.


(** [() => { calls++; throw new Error(message) }] *)
Definition throwing (message : string) : callback counter :=
  fun req res env ctx w =>
    {| returned := throw_Error message;
       req_after := req; res_after := res; world_after := S w |}.

(** [(req, res) => { calls++; return res.json(req.params) }], where the
    absent [params] is shown as [null]. *)
Definition echoing : callback counter :=
  fun req res env ctx w =>
    {| returned :=
         (r <- RouterResponse.json Host.platform res
                 (js_or (RouterRequest.params req) VNull) ;;
          Ret (Materialized r));
       req_after := req; res_after := res; world_after := S w |}.

Definition raw (url method : string) (text : completion string) : RawRequest :=
  {| raw_url := VString url;
     raw_method := VString method;
     raw_headers := Some (fun _ => Ret VNull);
     raw_body := VNull;
     raw_cf := VObject [("country", VString "US")];
     raw_text := text;
     raw_formData := Ret VUndefined |}.

Definition request (url method : string) : request_argument :=
  Raw (raw url method (Ret "")).

Definition router (ms : list (callback counter))
    (rs : list (method * string * callback counter)) : t counter :=
  {| routes := map (fun r => {| url := snd (fst r);
                                callback_of := snd r;
                                method_of := fst (fst r) |}) rs;
     middlewares := ms |}.

Definition sample : request_argument := request "https://example.com/users/7" "GET".


(** A handler that throws an error of the given message. *)
Definition failing (message : string) : t counter :=
  router [counting] [(POST, "/users/:id", counting); (GET, "/users/:id", throwing message)].

Definition counted : t counter :=
  router [counting; counting] [(POST, "/users/:id", counting); (GET, "/users/:id", echoing)].

(** The wrapper of a request whose body reads as [text]. *)
Definition wrapper (text : completion string) : RouterRequest.t :=
  {| RouterRequest.client := [];
     RouterRequest.method := VString "POST";
     RouterRequest.url := {| pathname := "/upload"; searchParams := [] |};
     RouterRequest.headers := None;
     RouterRequest.body := VNull;
     RouterRequest.request := raw "https://example.com/upload" "POST" text;
     RouterRequest.query := [];
     RouterRequest.params := VUndefined;
     RouterRequest.expando := [] |}.

(** A text of [n] code units. *)
Definition text_of_length (n : N) : string :=
  string_of_list_ascii (repeat "a"%char (N.to_nat n)).

End Samples.

(** ** Registrations in sequence, and the example applications *)

Module Programs.
Import Router.

Section Sequences.
Variable World : Type.

(** [app.use(a1); app.use(a2); ...]: the calls stop at the first that throws. *)
Fixpoint use_all (this : t World) (ms : list (argument World)) : completion (t World) :=
  match ms with
  | [] => Ret this
  | a :: ms' => this' <- use this a ;; use_all this' ms'
  end.

(** [app._addRoute(m1, u1, cb1); app._addRoute(m2, u2, cb2); ...] *)
Fixpoint register_all (this : t World) (rs : list (method * value * argument World))
  : completion (t World) :=
  match rs with
  | [] => Ret this
  | (m, u, cb) :: rs' => this' <- _addRoute this m u cb ;; register_all this' rs'
  end.

(** The route a registration of a pattern and a function appends. *)
Definition route_of (r : method * string * callback World) : route World :=
  {| url := snd (fst r); callback_of := snd r; method_of := fst (fst r) |}.

Definition registration (r : method * string * callback World)
  : method * value * argument World :=
  (fst (fst r), VString (snd (fst r)), Function (snd r)).
End Sequences.

(** The number of slashes of a string. *)
Fixpoint slashes (s : string) : nat :=
  match s with
  | "" => 0
  | String c s' => (if is_slash c then 1 else 0) + slashes s'
  end.

(** The last value given for the key [k] in a list of entries. *)
Fixpoint last_value (k : string) (l : list (string * string)) : option string :=
  match l with
  | [] => None
  | (k', v) :: l' =>
      match last_value k l' with
      | Some v' => Some v'
      | None => if k' =? k then Some v else None
      end
  end.

(** The names of the fields of [req.client], in the order of the source. *)
Definition client_fields : list string :=
  ["ipAddress"; "clientTcpRtt"; "longitude"; "latitude"; "city"; "region";
   "regionCode"; "country"; "postalCode"; "timezone"; "asn"; "asOrganization";
   "continent"; "httpProtocol"; "botScore"; "jsDetectionPassed"].

Section Applications.
Variable P : Platform.
Variable World : Type.

(** A callback that changes neither the request, nor the builder, nor the
    world. *)
Definition answer (returned : completion result) (req : RouterRequest.t)
    (res : RouterResponse.t) (w : World) : outcome World :=
  {| returned := returned; req_after := req; res_after := res; world_after := w |}.

(** *** examples/router_1.js *)

(** [(req, res) => { return res.text("SAMPLE GET REQ"); }] *)
Definition sample_get : callback World :=
  fun req res env ctx w =>
    answer (r <- RouterResponse.text P res (VString "SAMPLE GET REQ") ;;
            Ret (Materialized r)) req res w.

(** [(req, res) => { return res.text("SAMPLE POST REQ"); }] *)
Definition sample_post : callback World :=
  fun req res env ctx w =>
    answer (r <- RouterResponse.text P res (VString "SAMPLE POST REQ") ;;
            Ret (Materialized r)) req res w.

(** [async (req, res) => { let body = await req.text(); return res.text(body); }] *)
Definition echo : callback World :=
  fun req res env ctx w =>
    answer (body <- RouterRequest.text P req ;;
            r <- RouterResponse.text P res (VString body) ;;
            Ret (Materialized r)) req res w.

(** [const app = new Router(); app.get("/", ...); app.post("/", ...);
    app.post("/echo", ...)] *)
Definition router_1 : completion (t World) :=
  app <- get (constructor World) (VString "/") (Function sample_get) ;;
  app <- post app (VString "/") (Function sample_post) ;;
  post app (VString "/echo") (Function echo).

(** *** examples/enhanced-router.js *)




End Applications.

Section Routing.
Variable World : Type.

(** The route a request is dispatched to, as the segment matcher decides it:
    the first route of the table, from index [i] on, whose pattern matches the
    path and whose method is the method of the request; with its index and
    the captures. *)
Fixpoint select (rs : list (route World)) (i : nat) (method : value) (path : string)
  : option (nat * route World * object) :=
  match rs with
  | [] => None
  | r :: rs' =>
      match Segments.segment_match (url r) path with
      | Some params =>
          if strict_equal (method_of r) method then Some (i, r, params)
          else select rs' (S i) method path
      | None => select rs' (S i) method path
      end
  end.
End Routing.

Section Answers.
Variable P : Platform.
Variable World : Type.

(** What [fetch] answers once the route [r] of index [i] is taken with the
    captures [params], the middleware having left [req1], [res1] and [w1]
    after [n] calls. *)
Definition taken (n i : nat) (r : route World) (params : object) (req1 : RouterRequest.t)
    (res1 : RouterResponse.t) (env ctx : value) (w1 : World) : execution World result :=
  let o := callback_of r (RouterRequest.with_params (VObject params) req1) res1 env ctx w1 in
  {| completed := match returned o with
                  | Ret x => Ret x
                  | Throw error =>
                      Ret (Materialized (failure_response P "Internal Server Error" error))
                  end;
     world := world_after o;
     log := (map (@Middleware) (seq 0 n) ++ map (@Matching) (seq 0 (S i)) ++ [Handler i])%list |}.

(** What [fetch] answers when no route is taken. *)
Definition not_found (n k : nat) (request : request_argument) (path : string) (w1 : World)
  : execution World result :=
  {| completed :=
       Ret (Materialized
              (_errorResponse P 404 "Not Found"
                 (VString ("Route " ++ js_String P (request_method request)
                           ++ " " ++ path ++ " not found"))));
     world := w1;
     log := (map (@Middleware) (seq 0 n) ++ map (@Matching) (seq 0 k))%list |}.
End Answers.

(** Whether [new Response] accepts the pending state of the builder [this]
    with a body and the content type [ct], and the message of its refusal. *)
Definition accepted (P : Platform) (this : RouterResponse.t) (ct : string) : bool :=
  Response.accepts P true
    (js_or (RouterResponse.status this) (VNumber 200))
    (js_or (RouterResponse.statusText this) (VString "OK"))
    (spread (RouterResponse.header this) [("Content-Type", VString ct)]).

Definition refusal (P : Platform) (this : RouterResponse.t) (body : string) (ct : string)
  : string :=
  Response_refusal P (Some body)
    (js_or (RouterResponse.status this) (VNumber 200))
    (js_or (RouterResponse.statusText this) (VString "OK"))
    (spread (RouterResponse.header this) [("Content-Type", VString ct)]).

(** [body === null || body === undefined ? '' : String(body)] *)
Definition text_of (P : Platform) (body : value) : string :=
  match body with
  | VNull | VUndefined => ""
  | _ => js_String P body
  end.

(** The statuses from 100 to 599 with which no response with a body is
    made: those below 200 and the null body statuses. *)
Definition bodiless (n : nat) : bool :=
  Nat.ltb n 200 || existsb (Nat.eqb n) [204; 205; 304].

(** A response made from the builder [this] with the content type [ct]: the
    status and the status text the constructor reads from those of the
    builder, 200 and "OK" standing in for falsy ones; the header
    [Content-Type] with the value [ct], and the other headers of the builder
    with the normalized strings of their values. *)
Definition made_from (P : Platform) (this : RouterResponse.t) (ct : string)
    (r : Response.t) : Prop :=
  Response.status r
  = VNumber (Response.number
               (Response.code P (js_or (RouterResponse.status this) (VNumber 200))))
  /\ Response.statusText r
     = VString (js_String P (js_or (RouterResponse.statusText this) (VString "OK")))
  /\ own "Content-Type" (Response.headers r) = Some (VString ct)
  /\ forall k, k <> "Content-Type" ->
       own k (Response.headers r)
       = option_map (fun v => VString (Response.header_value P v))
           (own k (RouterResponse.header this)).

(** The response [res.text(body)] gives on a builder nothing has changed. *)
Definition text_response (body : string) : Response.t :=
  Response.new (Some body) (VNumber 200) (VString "OK")
    [("Access-Control-Allow-Origin", VString "*");
     ("Server", VString "Cloudflare Worker");
     ("Access-Control-Allow-Headers", VString "*");
     ("Access-Control-Allow-Methods", VString "GET, POST, PUT, DELETE, PATCH, OPTIONS");
     ("Content-Type", VString "text/plain")].

End Programs.

(** * Properties *)

(** ** The expression built from a pattern and what it matches *)

Module MatchFacts.
Import Router Shape RegExp Segments.

Arguments RegExp.is_syntax_char : simpl never.
Arguments RegExp.is_quantifier : simpl never.
Arguments is_slash : simpl never.

Lemma replace_items s : forall b, replace s b = (names (items_of s b), source (items_of s b)).
Proof.
  induction s as [|c s IH]; intro b; simpl; [reflexivity|].
  destruct (is_slash c).
  - rewrite IH. reflexivity.
  - destruct b.
    + apply IH.
    + destruct (Ascii.eqb c ":" && negb (run s =? "")); rewrite IH; reflexivity.
Qed.

Lemma items_in_name s :
  items_of s true = [] \/ exists its, items_of s true = Lit "/" :: its.
Proof.
  induction s as [|c s IH]; simpl; [now left|].
  unfold is_slash. destruct (Ascii.eqb_spec c "/") as [->|].
  - right. eauto.
  - exact IH.
Qed.

Lemma items_closed s : forall b, closed (items_of s b) = true.
Proof.
  induction s as [|c s IH]; intro b; simpl; [reflexivity|].
  destruct (is_slash c); [apply IH|].
  destruct b; [apply IH|].
  destruct (Ascii.eqb c ":" && negb (run s =? "")); [|apply IH].
  destruct (items_in_name s) as [E | [its E]].
  - rewrite E. reflexivity.
  - pose proof (IH true) as H. rewrite E in *. simpl in *. exact H.
Qed.

Lemma items_literal s : forall b, Segments.plain s = true -> literal (items_of s b) = true.
Proof.
  unfold Segments.plain, literal.
  induction s as [|c s IH]; intros b H; [reflexivity|].
  cbn [list_ascii_of_string forallb] in H.
  apply andb_true_iff in H as [Hc Hs].
  cbn [items_of].
  destruct (is_slash c); [cbn [forallb]; rewrite Hc; cbn [andb]; now auto|].
  destruct b; [now auto|].
  destruct (Ascii.eqb c ":" && negb (run s =? "")); cbn [forallb];
    [|rewrite Hc]; cbn [andb]; now auto.
Qed.

Lemma source_length its : length its <= String.length (source its).
Proof.
  induction its as [|[c|name] its IH]; simpl; lia.
Qed.


Lemma quantifier_not_syntax c : is_syntax_char c = false -> is_quantifier c = false.
Proof.
  unfold is_syntax_char, is_quantifier. cbn [existsb].
  intro H. repeat (apply orb_false_iff in H as [? H]).
  repeat (apply orb_false_iff; split); auto.
Qed.

Lemma next_ok_source its : literal its = true -> forall a, parse_quantifier a (source its ++ "$") = Parsed (a, source its ++ "$").
Proof.
  destruct its as [|[c|name] its]; simpl; intros H a; try reflexivity.
  apply andb_true_iff in H as [Hc _]. apply negb_true_iff in Hc.
  rewrite (quantifier_not_syntax _ Hc).
  unfold is_syntax_char in Hc. cbn [existsb] in Hc.
  repeat (apply orb_false_iff in Hc as [? Hc]).
  replace (Ascii.eqb c "{") with false by (symmetry; assumption). reflexivity.
Qed.

Lemma parse_alternative_eq f s n :
  parse_alternative (S f) s n =

      let continue (t : parse_result (regex * string * nat)) :=
        and_then t (fun '(a, rest, n1) =>
          and_then (parse_alternative f rest n1) (fun '(r, rest', n2) =>
            Parsed (Seq a r, rest', n2))) in
      let quantified (a : regex) (rest : string) (n1 : nat) :=
        and_then (parse_quantifier a rest) (fun '(a', rest') =>
          Parsed (a', rest', n1)) in
      match s with
      | "" => Parsed (Empty, s, n)
      | String c s' =>
          if Ascii.eqb c "|" || Ascii.eqb c ")" then Parsed (Empty, s, n)
          else if Ascii.eqb c "^" then continue (Parsed (Bol, s', n))
          else if Ascii.eqb c "$" then continue (Parsed (Eol, s', n))
          else if is_quantifier c then SyntaxError
          else if Ascii.eqb c "092" || Ascii.eqb c "{" then Unsupported
          else if Ascii.eqb c "." then continue (quantified Dot s' n)
          else if Ascii.eqb c "[" then
            match s' with
            | String "^" s'' =>
                continue (and_then (parse_class s'') (fun '(ms, rest) =>
                            quantified (Class true ms) rest n))
            | _ =>
                continue (and_then (parse_class s') (fun '(ms, rest) =>
                            quantified (Class false ms) rest n))
            end
          else if Ascii.eqb c "(" then
            match s' with
            | String "?" _ => Unsupported
            | _ =>
                continue (and_then (parse_disjunction f s' (S n)) (fun '(r, rest, n1) =>
                  match rest with
                  | String ")" rest' => quantified (Group n r) rest' n1
                  | _ => SyntaxError
                  end))
            end
          else continue (quantified (Char c) s' n)
      end.
Proof. reflexivity. Qed.

Lemma parse_group_body f rest n :
  parse_disjunction (S (S (S f))) ("[^/]+)" ++ rest) n
  = Parsed (Seq (Plus not_slash) Empty, ")" ++ rest, n).
Proof. reflexivity. Qed.

Lemma parse_items its : literal its = true -> forall n f,
  length its + 3 <= f ->
  parse_alternative f (source its ++ "$") n
  = Parsed (regex_of its n, "", n + length (names its)).
Proof.
  induction its as [|[c|name] its IH]; intros Hl n f Hf.
  - destruct f as [|[|f]]; try (simpl in Hf; lia). simpl. rewrite Nat.add_0_r. reflexivity.
  - destruct f as [|f]; [simpl in Hf; lia|].
    pose proof Hl as Hl'. cbn [literal forallb] in Hl'. apply andb_true_iff in Hl' as [Hc Hl'].
    apply negb_true_iff in Hc.
    pose proof (quantifier_not_syntax _ Hc) as Hq.
    unfold is_syntax_char in Hc. cbn [existsb] in Hc.
    repeat (apply orb_false_iff in Hc as [? Hc]).
    cbn [source append]. rewrite parse_alternative_eq.
    repeat match goal with H : Ascii.eqb c ?x = false |- _ => rewrite H; clear H end.
    rewrite Hq. cbn [orb].
    rewrite (next_ok_source its Hl'). cbn [and_then].
    rewrite (IH Hl' n f) by (simpl in Hf; lia). reflexivity.
  - destruct f as [|[|[|[|f]]]]; try (simpl in Hf; lia).
    pose proof Hl as Hl'. cbn [literal forallb andb] in Hl'.
    cbn [source]. unfold group_source.
    rewrite parse_alternative_eq.
    change (("([^/]+)" ++ source its) ++ "$") with (String "(" ("[^/]+)" ++ (source its ++ "$"))).
    cbv beta iota.
    change (Ascii.eqb "(" "|" || Ascii.eqb "(" ")") with false.
    change (Ascii.eqb "(" "^") with false.
    change (Ascii.eqb "(" "$") with false.
    change (is_quantifier "(") with false.
    change (Ascii.eqb "(" "092" || Ascii.eqb "(" "{") with false.
    change (Ascii.eqb "(" ".") with false.
    change (Ascii.eqb "(" "[") with false.
    change (Ascii.eqb "(" "(") with true.
    cbv iota.
    change ("[^/]+)" ++ (source its ++ "$")) with (String "[" ("^/]+)" ++ (source its ++ "$"))) at 1.
    cbv iota.
    change (String "[" ("^/]+)" ++ (source its ++ "$"))) with ("[^/]+)" ++ (source its ++ "$")).
    rewrite parse_group_body.
    cbn [and_then append].
    rewrite (next_ok_source its Hl'). cbn [and_then].
    rewrite (IH Hl' (S n) (S (S (S f)))) by (simpl in Hf; lia).
    cbn [and_then names length]. rewrite Nat.add_succ_r. reflexivity.
Qed.

(** strings *)
Lemma run_skip s : s = run s ++ skip s.
Proof.
  induction s as [|c s IH]; simpl; [reflexivity|].
  destruct (is_slash c); simpl; [reflexivity|]. now rewrite <- IH.
Qed.

Lemma length_append (a b : string) : String.length (a ++ b) = String.length a + String.length b.
Proof. induction a; simpl; auto. Qed.

Lemma substring_append a b : substring 0 (String.length a) (a ++ b) = a.
Proof.
  induction a as [|c a IH]; simpl.
  - destruct b; reflexivity.
  - now rewrite IH.
Qed.

Lemma consumed_append a b : consumed (a ++ b) b = a.
Proof.
  unfold consumed. rewrite length_append.
  replace (String.length a + String.length b - String.length b) with (String.length a) by lia.
  apply substring_append.
Qed.

Lemma consumed_skip s : consumed s (skip s) = run s.
Proof. rewrite (run_skip s) at 1. apply consumed_append. Qed.

Lemma append_empty (a : string) : a ++ "" = a.
Proof. induction a; simpl; congruence. Qed.

Lemma consumed_all s : consumed s "" = s.
Proof. rewrite <- (append_empty s) at 1. apply consumed_append. Qed.

Section Items.
Variable input : string.

Lemma iterate_not_slash (K : continuation) :
  (forall b s' c', is_slash b = false -> K (String b s') c' = None) ->
  forall n s c, String.length s <= n ->
  iterate (fun k' s' c' => m input not_slash k' s' (reset not_slash c')) K n s c
  = K (skip s) c.
Proof.
  intros HK. induction n as [|n IH]; intros s c Hn.
  - destruct s; [reflexivity|simpl in Hn; lia].
  - destruct s as [|b s]; [reflexivity|].
    cbn [iterate m not_slash reset groups_of fold_left in_class existsb xorb skip].
    change (Ascii.eqb b "/") with (is_slash b).
    destruct (is_slash b) eqn:Eb; cbn [orb negb xorb]; [reflexivity|].
    cbn [String.length]. rewrite (proj2 (Nat.ltb_lt _ _)) by lia.
    fold (iterate (fun k' s' c' => m input not_slash k' s' (reset not_slash c')) K).
    rewrite IH by (simpl in Hn; lia).
    destruct (K (skip s) c) eqn:E; [reflexivity|].
    apply HK. exact Eb.
Qed.

Lemma m_plus_not_slash (K : continuation) s c :
  (forall b s' c', is_slash b = false -> K (String b s') c' = None) ->
  m input (Plus not_slash) K s c = if run s =? "" then None else K (skip s) c.
Proof.
  intro HK. destruct s as [|b s]; [reflexivity|].
  cbn [m not_slash reset groups_of fold_left in_class existsb xorb skip run].
  change (Ascii.eqb b "/") with (is_slash b).
  destruct (is_slash b) eqn:Eb; cbn [orb negb xorb]; [reflexivity|].
  cbn [String.eqb].
  apply iterate_not_slash; auto.
Qed.

Lemma m_items_head its n : closed (Cap "" :: its) = true ->
  forall b s c, is_slash b = false -> m input (regex_of its n) final (String b s) c = None.
Proof.
  destruct its as [|[ch|name] its]; cbn [closed]; intros H b s c Hb.
  - reflexivity.
  - apply andb_true_iff in H as [H _]. cbn [regex_of m].
    unfold is_slash in *. apply Ascii.eqb_eq in H. subst ch. rewrite Ascii.eqb_sym, Hb. reflexivity.
  - discriminate.
Qed.

Lemma m_seq r1 r2 k s c : m input (Seq r1 r2) k s c = m input r1 (m input r2 k) s c.
Proof. reflexivity. Qed.

Lemma m_group i r k s c :
  m input (Group i r) k s c
  = m input r (fun s' c' => k s' (set_capture i (Some (consumed s s')) c')) s c.
Proof. reflexivity. Qed.

Lemma m_items its : closed its = true -> forall n s c,
  m input (regex_of its n) final s c
  = option_map (fun vals => ("", fill n vals c)) (match_items its s).
Proof.
  induction its as [|[ch|name] its IH]; intros Hc n s c.
  - destruct s; reflexivity.
  - cbn [regex_of m match_items]. destruct s as [|b s]; [reflexivity|].
    destruct (Ascii.eqb ch b); [|reflexivity].
    apply IH. exact Hc.
  - assert (Hc' : closed its = true).
    { destruct its as [|[ch|nm] its']; cbn [closed] in Hc; auto; try discriminate.
      apply andb_true_iff in Hc as [_ Hc]. exact Hc. }
    cbn [regex_of match_items].
    rewrite m_seq, m_group, m_seq, m_plus_not_slash.
    + destruct (run s =? ""); [reflexivity|].
      cbn [m]. rewrite consumed_skip, IH by exact Hc'.
      destruct (match_items its (skip s)); reflexivity.
    + intros b s' c' Hb. cbn [m]. apply m_items_head; auto.
Qed.

Lemma exec_from_bol r N : forall s, String.length s < String.length input ->
  exec_from input (Seq Bol r) N s = None.
Proof.
  induction s as [|b s IH]; intro H; cbn [exec_from m].
  - rewrite (proj2 (Nat.eqb_neq _ _)) by lia. reflexivity.
  - rewrite (proj2 (Nat.eqb_neq _ _)) by lia. apply IH. simpl in H. lia.
Qed.

End Items.

Lemma exec_items its N input : closed its = true ->
  exec (Seq Bol (regex_of its 0)) N input
  = option_map (fun vals => Some input :: fill 0 vals (repeat None N)) (match_items its input).
Proof.
  intro Hc. unfold exec.
  destruct input as [|b s] eqn:E.
  - cbn [exec_from m String.length Nat.eqb].
    fold final. rewrite m_items by exact Hc.
    destruct (match_items its ""); reflexivity.
  - cbn [exec_from m]. rewrite Nat.eqb_refl. fold final.
    rewrite m_items by exact Hc.
    destruct (match_items its (String b s)); cbn [option_map].
    + rewrite consumed_all. reflexivity.
    + apply exec_from_bol. simpl. lia.
Qed.

Lemma match_items_names its : forall s vals,
  match_items its s = Some vals -> map fst vals = names its.
Proof.
  induction its as [|[ch|name] its IH]; intros s vals; cbn [match_items names].
  - destruct (s =? ""); intro H; inversion H; reflexivity.
  - destruct s as [|b s]; [discriminate|]. destruct (Ascii.eqb ch b); [apply IH|discriminate].
  - destruct (run s =? ""); [discriminate|].
    destruct (match_items its (skip s)) eqn:E; [|discriminate].
    intro H. inversion H. cbn [map fst]. f_equal. eapply IH; eauto.
Qed.

Lemma set_capture_middle pre v rest x :
  set_capture (length pre) v (pre ++ x :: rest)%list = (pre ++ v :: rest)%list.
Proof. induction pre as [|p pre IH]; simpl; [reflexivity|]. now rewrite IH. Qed.

Lemma fill_repeat vals : forall pre,
  fill (length pre) vals (pre ++ repeat None (length vals))%list
  = (pre ++ map (fun kv => Some (snd kv)) vals)%list.
Proof.
  induction vals as [|[k v] vals IH]; intro pre; cbn [fill length repeat map snd].
  - reflexivity.
  - rewrite set_capture_middle.
    replace (pre ++ Some v :: repeat None (length vals))%list
      with ((pre ++ [Some v]) ++ repeat None (length vals))%list
      by (rewrite <- app_assoc; reflexivity).
    replace (S (length pre)) with (length (pre ++ [Some v])%list)
      by (rewrite length_app; simpl; lia).
    rewrite IH, <- app_assoc. reflexivity.
Qed.

Lemma assign_bindings vals : forall i pre params,
  length pre = S i ->
  assign (map fst vals) i (pre ++ map (fun kv => VString (snd kv)) vals)%list params
  = fold_left (fun o kv => set_property (fst kv) (VString (snd kv)) o) vals params.
Proof.
  induction vals as [|[k v] vals IH]; intros i pre params Hp; cbn [map assign fold_left fst snd].
  - reflexivity.
  - rewrite <- Hp, nth_middle.
    replace (pre ++ VString v :: map (fun kv => VString (snd kv)) vals)%list
      with ((pre ++ [VString v]) ++ map (fun kv => VString (snd kv)) vals)%list
      by (rewrite <- app_assoc; reflexivity).
    rewrite Hp. apply IH. rewrite length_app. simpl. lia.
Qed.

Lemma parse_source its : literal its = true ->
  parse ("^" ++ source its ++ "$") = Parsed (Seq Bol (regex_of its 0), length (names its)).
Proof.
  intro Hl. unfold parse.
  set (src := "^" ++ source its ++ "$").
  assert (Hlen : String.length src = S (String.length (source its ++ "$"))) by reflexivity.
  assert (Hfuel : 2 * String.length src + 2 = S (S (2 * String.length (source its ++ "$") + 2)))
    by lia.
  rewrite Hfuel. unfold src.
  cbn [parse_disjunction parse_alternative append Ascii.eqb Bool.eqb orb and_then].
  rewrite parse_items; [reflexivity|exact Hl|].
  rewrite length_append. pose proof (source_length its). simpl. lia.
Qed.

Theorem matchRoute_items P (conforms : regexp_conforms P) pattern pathname :
  Segments.plain pattern = true ->
  _matchRoute P pattern pathname
  = Ret (option_map Segments.bindings (match_items (items_of pattern false) pathname)).
Proof.
  intro Hp. unfold _matchRoute. rewrite replace_items.
  set (its := items_of pattern false).
  pose proof (conforms ("^" ++ source its ++ "$") pathname) as C.
  rewrite parse_source in C by (apply items_literal; exact Hp).
  rewrite C. cbn [bind].
  rewrite exec_items by apply items_closed.
  destruct (match_items its pathname) as [vals|] eqn:E; cbn [option_map]; [|reflexivity].
  f_equal. f_equal.
  rewrite <- (match_items_names _ _ E).
  rewrite length_map.
  pose proof (fill_repeat vals []) as F. cbn [app length] in F. rewrite F.
  cbn [app map capture_value].
  rewrite map_map. cbn [capture_value].
  change (VString pathname :: map (fun x => VString (snd x)) vals)
    with ([VString pathname] ++ map (fun x => VString (snd x)) vals)%list.
  rewrite assign_bindings by reflexivity. reflexivity.
Qed.


Lemma split_run s : split s = run s :: tl (split s).
Proof.
  induction s as [|c s IH]; cbn [split run]; [reflexivity|].
  destruct (is_slash c); [reflexivity|].
  rewrite IH. reflexivity.
Qed.

Lemma split_tail s :
  tl (split s) = match skip s with
                 | "" => []
                 | String _ t => split t
                 end.
Proof.
  induction s as [|c s IH]; cbn [split skip]; [reflexivity|].
  destruct (is_slash c); [reflexivity|].
  rewrite (split_run s). cbn [tl]. exact IH.
Qed.

Lemma skip_slash s : skip s = "" \/ exists t, skip s = String "/" t.
Proof.
  induction s as [|c s IH]; cbn [skip]; [now left|].
  unfold is_slash. destruct (Ascii.eqb_spec c "/") as [->|]; [right; eauto|exact IH].
Qed.

Lemma items_captures p :
  (forall s, match_items (items_of p false) s = segment_captures (split p) (split s))
  /\ (forall s, match_items (items_of p true) (skip s)
                = segment_captures (tl (split p)) (tl (split s))).
Proof.
  induction p as [|c p [IHA IHB]].
  - split; intro s; cbn [items_of match_items split tl].
    + rewrite (split_run s), split_tail. cbn [segment_captures capture_of].
      destruct s as [|b s]; [reflexivity|].
      cbn [run skip String.eqb]. destruct (is_slash b) eqn:Eb.
      * cbn [String.eqb]. rewrite (split_run s). reflexivity.
      * reflexivity.
    + rewrite split_tail. destruct (skip s) eqn:E; [reflexivity|].
      rewrite (split_run s0). reflexivity.
  - split; intro s; cbn [items_of split].
    + destruct (is_slash c) eqn:Ec.
      * (* a slash *)
        cbn [match_items segment_captures capture_of].
        destruct s as [|b s]; [cbn [split]; rewrite (split_run p); reflexivity|].
        cbn [split]. unfold is_slash in Ec. apply Ascii.eqb_eq in Ec. subst c.
        rewrite (Ascii.eqb_sym "/" b). fold (is_slash b).
        destruct (is_slash b) eqn:Eb.
        -- cbn [String.eqb]. apply IHA.
        -- rewrite (split_run s). cbn [String.eqb]. reflexivity.
      * rewrite (split_run p). cbn [negb].
        destruct (Ascii.eqb c ":" && negb (run p =? "")) eqn:Ecap.
        -- (* the start of a capture *)
           cbn [match_items segment_captures capture_of]. rewrite Ecap.
           rewrite (split_run s). cbn [strip tl].
           rewrite IHB. reflexivity.
        -- (* a literal character *)
           cbn [match_items segment_captures capture_of]. rewrite Ecap.
           destruct s as [|b s].
           ++ cbn [split segment_captures capture_of strip String.eqb].
              destruct (capture_of (run p)) as [pfx [nm|]]; reflexivity.
           ++ rewrite IHA, (split_run p).
              cbn [split]. destruct (is_slash b) eqn:Eb.
              ** assert (Ascii.eqb c b = false) as ->.
                 { apply Ascii.eqb_neq. intros ->. congruence. }
                 cbn [segment_captures strip String.eqb].
                 destruct (capture_of (run p)) as [pfx [nm|]];
                   cbn [segment_captures strip String.eqb tl]; reflexivity.
              ** rewrite (split_run s).
                 cbn [segment_captures strip String.eqb].
                 destruct (capture_of (run p)) as [pfx [nm|]];
                   cbn [segment_captures strip String.eqb tl];
                   destruct (Ascii.eqb c b); reflexivity.
    + destruct (is_slash c) eqn:Ec.
      * cbn [tl match_items]. rewrite split_tail.
        destruct (skip_slash s) as [E | [t E]]; rewrite E.
        -- rewrite (split_run p). reflexivity.
        -- unfold is_slash in Ec. apply Ascii.eqb_eq in Ec. subst c.
           cbn [Ascii.eqb Bool.eqb]. apply IHA.
      * rewrite (split_run p). cbn [tl]. apply IHB.
Qed.

Theorem matchRoute_segments P (conforms : regexp_conforms P) pattern pathname :
  plain pattern = true ->
  _matchRoute P pattern pathname = Ret (segment_match pattern pathname).
Proof.
  intro Hp. rewrite matchRoute_items by assumption.
  unfold segment_match, captures_of. now rewrite (proj1 (items_captures pattern)).
Qed.

Lemma items_no_colon p : no_colon p = true ->
  items_of p false = map Lit (list_ascii_of_string p).
Proof.
  unfold no_colon. induction p as [|c p IH]; cbn [list_ascii_of_string forallb items_of map];
    [reflexivity|].
  intro H. apply andb_true_iff in H as [Hc Hp]. apply negb_true_iff in Hc.
  rewrite Hc. cbn [andb]. destruct (is_slash c); rewrite IH by exact Hp; reflexivity.
Qed.

Lemma match_literals p : forall s,
  match_items (map Lit (list_ascii_of_string p)) s = if p =? s then Some [] else None.
Proof.
  induction p as [|c p IH]; intro s; cbn [list_ascii_of_string map match_items].
  - destruct s; reflexivity.
  - destruct s as [|b s]; [reflexivity|]. cbn [String.eqb].
    destruct (Ascii.eqb c b); [apply IH|reflexivity].
Qed.

Lemma segment_match_literal p s : no_colon p = true ->
  segment_match p s = if p =? s then Some [] else None.
Proof.
  intro H. unfold segment_match, captures_of.
  rewrite <- (proj1 (items_captures p)), items_no_colon, match_literals by exact H.
  destruct (p =? s); reflexivity.
Qed.



Lemma own_overwrite k k' v o :
  own k (overwrite k' v o)
  = if k' =? k then match own k' o with Some _ => Some v | None => None end else own k o.
Proof.
  induction o as [|[k1 v1] o IH]; cbn [overwrite own]; [now destruct (k' =? k)|].
  destruct (String.eqb_spec k1 k') as [->|N1]; cbn [own].
  - destruct (k' =? k); reflexivity.
  - rewrite IH. destruct (String.eqb_spec k1 k) as [->|N2]; [|reflexivity].
    now rewrite (proj2 (String.eqb_neq k' k)) by congruence.
Qed.

Lemma own_insert k k' v o :
  own k' o = None ->
  own k (insert k' v o) = if k' =? k then Some v else own k o.
Proof.
  induction o as [|[k1 v1] o IH]; cbn [insert own]; [reflexivity|].
  destruct (String.eqb_spec k1 k') as [->|N1]; [discriminate|]. intro H.
  destruct (enumerated_before k' k1); cbn [own].
  - destruct (k' =? k); reflexivity.
  - rewrite (IH H). destruct (String.eqb_spec k1 k) as [->|N2]; [|reflexivity].
    now rewrite (proj2 (String.eqb_neq k' k)) by congruence.
Qed.

Lemma own_define k k' v o :
  own k (define_property k' v o) = if k' =? k then Some v else own k o.
Proof.
  unfold define_property. destruct (own k' o) as [v'|] eqn:E.
  - rewrite own_overwrite, E. reflexivity.
  - now apply own_insert.
Qed.

Lemma own_bindings name l : name <> "__proto__" -> forall acc,
  own name (fold_left (fun params kv => set_property (fst kv) (VString (snd kv)) params) l acc)
  = match last_capture name l with
    | Some v => Some (VString v)
    | None => own name acc
    end.
Proof.
  intro Hn. induction l as [|[k v] l IH]; intro acc; cbn [fold_left last_capture fst snd];
    [reflexivity|].
  rewrite IH. destruct (last_capture name l); [reflexivity|].
  unfold set_property. destruct (String.eqb_spec k "__proto__") as [->|Hk].
  - now rewrite (proj2 (String.eqb_neq "__proto__" name)) by congruence.
  - rewrite own_define. destruct (k =? name); reflexivity.
Qed.

Lemma host_conforms : regexp_conforms Host.platform.
Proof.
  intros src input. cbn [RegExp_match Host.platform]. unfold Host.match_regexp.
  destruct (parse src) as [[r n]| |]; eauto.
Qed.

End MatchFacts.

(** ** Route matching *)

Section Matching.
Import Router Segments.
Variable P : Platform.
Hypothesis conforms : regexp_conforms P.


(** X21. On a pattern without syntax characters of regular expressions that
    matches the path, the result does not depend on the conforming platform,
    the captures are those of the pattern's parameters in left-to-right
    order, and every name other than [__proto__] is bound to the value of its
    last (rightmost) capture: later assignments overwrite earlier ones. *)
Theorem matchRoute_last_capture_wins :
  forall pattern pathname params,
    plain pattern = true ->
    _matchRoute P pattern pathname = Ret (Some params) ->
    exists caps,
      captures_of pattern pathname = Some caps
      /\ map fst caps = fst (replace pattern false)
      /\ params = bindings caps
      /\ (forall name v, name <> "__proto__" -> last_capture name caps = Some v ->
            own name params = Some (VString v))
      /\ (forall P', regexp_conforms P' ->
            _matchRoute P' pattern pathname = Ret (Some params)).
Proof.
  intros pattern pathname params Hp H.
  pose proof (MatchFacts.matchRoute_segments conforms pattern pathname Hp) as G.
  rewrite H in G. inversion G as [G']. unfold segment_match in G'.
  destruct (captures_of pattern pathname) as [caps|] eqn:E; [|discriminate].
  cbn [option_map] in G'. inversion G'. subst params.
  exists caps. repeat split.
  - unfold captures_of in E. rewrite <- (proj1 (MatchFacts.items_captures pattern)) in E.
    rewrite (MatchFacts.match_items_names _ _ E), MatchFacts.replace_items. reflexivity.
  - intros name v Hn Hl. unfold bindings. rewrite MatchFacts.own_bindings by exact Hn.
    now rewrite Hl.
  - intros P' C'. rewrite (MatchFacts.matchRoute_segments C') by exact Hp.
    unfold segment_match. now rewrite E.
Qed.

(** C10 (a defect of the code). The name at position [i] of the pattern is
    bound to the group [i + 1] of the match, and the pattern is compiled as
    it stands: a group written in the pattern takes a number of its own and
    shifts the others. For "/(x)/:id/:id" on "/x/1/2" the match holds "x",
    "1" and "2"; the two names are bound to the groups 1 and 2, so that [id]
    is "1", what its first occurrence captured, and not "2", what its last
    occurrence captured. *)
Theorem matchRoute_written_group_shifts_captures :
  replace "/(x)/:id/:id" false = (["id"; "id"], "/(x)/([^/]+)/([^/]+)")
  /\ RegExp_match P "^/(x)/([^/]+)/([^/]+)$" "/x/1/2"
     = Ret (Some [VString "/x/1/2"; VString "x"; VString "1"; VString "2"])
  /\ _matchRoute P "/(x)/:id/:id" "/x/1/2" = Ret (Some [("id", VString "1")])
  /\ _matchRoute P "/(x)/:id/:id" "/x/1/2" <> Ret (Some [("id", VString "2")]).
Proof.
  assert (R : replace "/(x)/:id/:id" false = (["id"; "id"], "/(x)/([^/]+)/([^/]+)"))
    by reflexivity.
  assert (M : RegExp_match P "^/(x)/([^/]+)/([^/]+)$" "/x/1/2"
              = Ret (Some [VString "/x/1/2"; VString "x"; VString "1"; VString "2"])).
  { pose proof (conforms "^/(x)/([^/]+)/([^/]+)$" "/x/1/2") as C.
    vm_compute in C. exact C. }
  assert (E : _matchRoute P "/(x)/:id/:id" "/x/1/2" = Ret (Some [("id", VString "1")])).
  { unfold _matchRoute. rewrite R.
    change ("^" ++ "/(x)/([^/]+)/([^/]+)" ++ "$") with "^/(x)/([^/]+)/([^/]+)$".
    rewrite M. reflexivity. }
  split; [exact R|]. split; [exact M|]. split; [exact E|].
  rewrite E. intro H. inversion H.
Qed.

End Matching.



(** X21 on a sample: a name declared twice. *)
Lemma matchRoute_last_capture_wins_witness :
  exists caps,
    Segments.captures_of "/:id/x/:id" "/1/x/2" = Some caps
    /\ map fst caps = fst (Router.replace "/:id/x/:id" false)
    /\ [("id", VString "2")] = Segments.bindings caps
    /\ (forall name v, name <> "__proto__" -> Segments.last_capture name caps = Some v ->
          own name [("id", VString "2")] = Some (VString v))
    /\ (forall P', regexp_conforms P' ->
          Router._matchRoute P' "/:id/x/:id" "/1/x/2" = Ret (Some [("id", VString "2")])).
Proof.
  apply (matchRoute_last_capture_wins MatchFacts.host_conforms "/:id/x/:id" "/1/x/2");
    reflexivity.
Defined.

(** C10 at its failing input, on the host platform. *)
Lemma matchRoute_written_group_shifts_captures_witness :
  Router._matchRoute Host.platform "/(x)/:id/:id" "/x/1/2"
  = Ret (Some [("id", VString "1")]).
Proof.
  exact (proj1 (proj2 (proj2 (matchRoute_written_group_shifts_captures
                                MatchFacts.host_conforms)))).
Defined.

(** ** Registration *)

Section Registration.
Import Router.
Variable P : Platform.
Variable World : Type.

Lemma method_name_injective a b : method_name a = method_name b -> a = b.
Proof. destruct a, b; simpl; intro H; try reflexivity; discriminate. Qed.

Lemma method_eqb_spec a b : method_eqb a b = true <-> a = b.
Proof.
  unfold method_eqb. rewrite String.eqb_eq. split.
  - apply method_name_injective.
  - now intros ->.
Qed.

Lemma pair_eq_dec (a b : method * string) : {a = b} + {a <> b}.
Proof. decide equality; [apply string_dec|decide equality]. Qed.

Lemma check_duplicate_spec (rs : list (route World)) m u :
  (In (m, u) (map (@key World) rs) ->
   check_duplicate rs m u
   = throw_Error ("Route already exists for " ++ method_name m ++ " " ++ u ++ "."))
  /\ (~ In (m, u) (map (@key World) rs) -> check_duplicate rs m u = Ret tt).
Proof.
  induction rs as [|r rs [IH1 IH2]]; cbn [map In check_duplicate].
  - split; [contradiction|reflexivity].
  - destruct (String.eqb_spec (url r) u) as [Eu|Nu];
      destruct (method_eqb (method_of r) m) eqn:Em; cbn [andb].
    + split; [reflexivity|]. intro H. exfalso. apply H. left.
      apply method_eqb_spec in Em. unfold key. now rewrite Eu, Em.
    + split; intro H.
      * apply IH1. destruct H as [H|H]; [|exact H].
        unfold key in H. inversion H as [[Hm Hu]].
        rewrite (proj2 (method_eqb_spec _ _) Hm) in Em. discriminate.
      * apply IH2. tauto.
    + split; intro H.
      * apply IH1. destruct H as [H|H]; [|exact H].
        unfold key in H. inversion H. contradiction.
      * apply IH2. tauto.
    + split; intro H.
      * apply IH1. destruct H as [H|H]; [|exact H].
        unfold key in H. inversion H. contradiction.
      * apply IH2. tauto.
Qed.

(** A registration that returns has appended one route whose pair was not in
    the table, and whose pattern is not empty. *)
Lemma addRoute_inversion (this this' : t World) m u cb :
  _addRoute this m u cb = Ret this' ->
  exists pattern f,
    u = VString pattern /\ cb = Function f /\ pattern <> ""
    /\ ~ In (m, pattern) (map (@key World) (routes this))
    /\ this' = {| routes := (routes this
                             ++ [{| url := pattern; callback_of := f; method_of := m |}])%list;
                  middlewares := middlewares this |}.
Proof.
  unfold _addRoute.
  destruct (negb (truthy u) || negb (truthy_argument cb)) eqn:G; [discriminate|].
  apply orb_false_iff in G as [Gu Gc]. apply negb_false_iff in Gu.
  destruct u as [| | | |pattern| | |]; try discriminate.
  destruct cb as [f|v]; [|discriminate].
  destruct (in_dec pair_eq_dec (m, pattern) (map (@key World) (routes this))) as [Hin|Hin].
  - rewrite (proj1 (check_duplicate_spec (routes this) m pattern) Hin). discriminate.
  - rewrite (proj2 (check_duplicate_spec (routes this) m pattern) Hin). cbn [bind].
    intro H. inversion H. exists pattern, f. repeat split; auto.
    intros ->. discriminate.
Qed.

Lemma reachable_routes (this : t World) :
  reachable this ->
  NoDup (map (@key World) (routes this))
  /\ Forall (fun r => url r <> "") (routes this).
Proof.
  induction 1 as [|this middleware this' _ [IH1 IH2] Hu|this m u cb this' _ [IH1 IH2] Ha].
  - split; constructor.
  - destruct middleware as [f|v]; [|discriminate]. inversion Hu. split; assumption.
  - apply addRoute_inversion in Ha as (pattern & f & _ & _ & Hne & Hin & ->).
    cbn [routes]. split.
    + rewrite map_app. cbn [map key url method_of].
      apply NoDup_app; [exact IH1|repeat constructor; intros []| ].
      intros x Hx [<-|[]]. exact (Hin Hx).
    + apply Forall_app. split; [exact IH2|]. constructor; [exact Hne|constructor].
Qed.

(** C3. Every router built by the registration operations has a route table
    in which no two routes share their (method, pattern) pair. Registering a
    pair that is in the table fails with the error "Route already exists for
    METHOD pattern." (with the final period of the source); registering a
    pair that is not, such as a registered pattern under a distinct method,
    succeeds and appends the route at the end of the table. *)
Theorem no_duplicate_routes :
  (forall this : t World, reachable this -> NoDup (map (@key World) (routes this)))
  /\ (forall (this : t World) m pattern f,
        reachable this ->
        In (m, pattern) (map (@key World) (routes this)) ->
        _addRoute this m (VString pattern) (Function f)
        = throw_Error ("Route already exists for " ++ method_name m ++ " " ++ pattern ++ "."))
  /\ (forall (this : t World) m pattern f,
        pattern <> "" ->
        ~ In (m, pattern) (map (@key World) (routes this)) ->
        _addRoute this m (VString pattern) (Function f)
        = Ret {| routes := (routes this
                            ++ [{| url := pattern; callback_of := f; method_of := m |}])%list;
                 middlewares := middlewares this |})
  /\ (forall (this this1 : t World) m m' pattern f g,
        _addRoute this m (VString pattern) (Function f) = Ret this1 ->
        m' <> m ->
        ~ In (m', pattern) (map (@key World) (routes this)) ->
        _addRoute this1 m (VString pattern) (Function g)
        = throw_Error ("Route already exists for " ++ method_name m ++ " " ++ pattern ++ ".")
        /\ _addRoute this1 m' (VString pattern) (Function g)
           = Ret {| routes := (routes this1
                               ++ [{| url := pattern; callback_of := g; method_of := m' |}])%list;
                    middlewares := middlewares this1 |}).
Proof.
  assert (Dup : forall (this : t World) m pattern f,
            pattern <> "" ->
            In (m, pattern) (map (@key World) (routes this)) ->
            _addRoute this m (VString pattern) (Function f)
            = throw_Error ("Route already exists for " ++ method_name m ++ " " ++ pattern ++ ".")).
  { intros this m pattern f Hne Hin. unfold _addRoute. cbn [truthy truthy_argument].
    rewrite (proj2 (String.eqb_neq pattern "")) by exact Hne. cbn [negb orb].
    now rewrite (proj1 (check_duplicate_spec (routes this) m pattern) Hin). }
  assert (New : forall (this : t World) m pattern f,
            pattern <> "" ->
            ~ In (m, pattern) (map (@key World) (routes this)) ->
            _addRoute this m (VString pattern) (Function f)
            = Ret {| routes := (routes this
                                ++ [{| url := pattern; callback_of := f; method_of := m |}])%list;
                     middlewares := middlewares this |}).
  { intros this m pattern f Hne Hin. unfold _addRoute. cbn [truthy truthy_argument].
    rewrite (proj2 (String.eqb_neq pattern "")) by exact Hne. cbn [negb orb].
    now rewrite (proj2 (check_duplicate_spec (routes this) m pattern) Hin). }
  split; [intros this H; apply (reachable_routes H)|].
  split; [|split; [exact New|]].
  - intros this m pattern f Hr Hin. apply Dup; [|exact Hin].
    destruct (reachable_routes Hr) as [_ Hne].
    apply in_map_iff in Hin as (r & Hk & Hr').
    rewrite Forall_forall in Hne. specialize (Hne r Hr').
    unfold key in Hk. inversion Hk. now subst.
  - intros this this1 m m' pattern f g Ha Hm Hin.
    apply addRoute_inversion in Ha as (p' & f' & Ep & _ & Hne & Hin0 & ->).
    inversion Ep. subst p'. split.
    + apply Dup; [exact Hne|]. cbn [routes]. rewrite map_app. apply in_or_app.
      right. left. reflexivity.
    + apply New; [exact Hne|]. cbn [routes]. rewrite map_app. intro H.
      apply in_app_or in H as [H|[H|[]]]; [exact (Hin H)|].
      unfold key in H. cbn [method_of url] in H. inversion H. congruence.
Qed.

End Registration.

(** The sample of C3's theorem: GET /users, the same again, then POST /users. *)
Lemma no_duplicate_routes_witness :
  let this := Samples.router [] [] in
  exists this1,
    Router._addRoute this Router.GET (VString "/users") (Router.Function Samples.counting)
    = Ret this1
    /\ Router._addRoute this1 Router.GET (VString "/users") (Router.Function Samples.echoing)
       = throw_Error "Route already exists for GET /users."
    /\ Router._addRoute this1 Router.POST (VString "/users") (Router.Function Samples.echoing)
       = Ret (Samples.router []
                [(Router.GET, "/users", Samples.counting);
                 (Router.POST, "/users", Samples.echoing)]).
Proof.
  eexists. split; [reflexivity|].
  exact (proj2 (proj2 (proj2 (no_duplicate_routes Samples.counter)))
           (Samples.router [] []) _ Router.GET Router.POST "/users"
           Samples.counting Samples.echoing eq_refl
           (fun H => ltac:(discriminate H)) (fun H => H)).
Defined.

(** ** Dispatch *)

Section Dispatching.
Import Router.
Variable P : Platform.
Variable World : Type.

Local Abbreviation callback := (callback World).
Local Abbreviation route := (route World).
Local Abbreviation router := (t World).

(** The middleware loop on a list whose first part passes. *)
Lemma run_middlewares_pass (pre post : list callback) env ctx :
  forall i req res w l req1 res1 w1,
    pass pre req res env ctx w = Some (req1, res1, w1) ->
    run_middlewares P (pre ++ post) i req res env ctx w l
    = run_middlewares P post (i + length pre) req1 res1 env ctx w1
        (l ++ map (@Middleware) (seq i (length pre))).
Proof.
  induction pre as [|middleware pre IH]; intros i req res w l req1 res1 w1 H.
  - cbn [pass] in H. inversion H. cbn [app length seq map].
    now rewrite Nat.add_0_r, app_nil_r.
  - cbn [pass] in H. cbn [app run_middlewares].
    destruct (returned (middleware req res env ctx w)) as [[r|v]|e]; try discriminate.
    rewrite (IH _ _ _ _ _ _ _ _ H). cbn [length seq map].
    rewrite Nat.add_succ_r, <- app_assoc. reflexivity.
Qed.


(** The route loop past the routes that are not taken. *)
Lemma run_routes_unmatched (pre post : list route) request pathname req res env ctx w :
  forall i l,
    unmatched P pre request pathname = true ->
    run_routes P (pre ++ post) i request pathname req res env ctx w l
    = run_routes P post (i + length pre) request pathname req res env ctx w
        (l ++ map (@Matching) (seq i (length pre))).
Proof.
  induction pre as [|r pre IH]; intros i l H.
  - cbn [app length seq map]. now rewrite Nat.add_0_r, app_nil_r.
  - cbn [unmatched] in H. cbn [app run_routes].
    destruct (_matchRoute P (url r) pathname) as [[params|]|e]; try discriminate.
    + apply andb_true_iff in H as [Hm H]. apply negb_true_iff in Hm. rewrite Hm.
      rewrite (IH _ _ H). cbn [length seq map].
      rewrite Nat.add_succ_r, <- app_assoc. reflexivity.
    + rewrite (IH _ _ H). cbn [length seq map].
      rewrite Nat.add_succ_r, <- app_assoc. reflexivity.
Qed.


(** [fetch] on an admitted request, from the middleware loop on. *)
Lemma fetch_body_admitted (this : router) request env ctx w u req0 :
  admitted P request u req0 ->
  fetch_body P this request env ctx w
  = let ms := run_middlewares P (middlewares this) 0 req0 RouterResponse.constructor
                env ctx w [] in
    match completed ms with
    | Throw e => {| completed := Throw e; world := world ms; log := log ms |}
    | Ret (inl r) => {| completed := Ret r; world := world ms; log := log ms |}
    | Ret (inr (req, res)) =>
        let rs := run_routes P (routes this) 0 request (pathname u) req res env ctx
                    (world ms) (log ms) in
        match completed rs with
        | Throw e => {| completed := Throw e; world := world rs; log := log rs |}
        | Ret (Some r) => {| completed := Ret r; world := world rs; log := log rs |}
        | Ret None =>
            {| completed :=
                 Ret (Materialized
                        (_errorResponse P 404 "Not Found"
                           (VString ("Route " ++ js_String P (request_method request)
                                     ++ " " ++ pathname u ++ " not found"))));
               world := world rs; log := log rs |}
        end
    end.
Proof.
  intros (Ht & Hs & Hu & Hc). unfold fetch_body.
  rewrite Ht, Hs, Hu, Hc. reflexivity.
Qed.


Lemma js_type_eqb_eq a b : js_type_eqb a b = true <-> a = b.
Proof. destruct a, b; simpl; split; intro H; try reflexivity; discriminate. Qed.


(** The shape of what a catch clause around a callback answers. *)
Lemma failure_response_shape label error :
  exists label' body,
    failure_response P label error
    = Response.new (JSON_stringify P (VObject body)) (VNumber 500) (VString label')
        json_headers
    /\ own "error" body = Some (VString label')
    /\ own "status" body = Some (VNumber 500)
    /\ (forall m, error = VError m -> m <> "" ->
          label' = label
          /\ body = [("error", VString label); ("status", VNumber 500);
                     ("message", VString m)])
    /\ (error = VError "" ->
          label' = label
          /\ body = [("error", VString label); ("status", VNumber 500)]).
Proof.
  unfold failure_response, message_of, _errorResponse.
  destruct error as [| | b | x | s | m | items | props].
  1, 2: exists "Internal Server Error"; eexists; split; [reflexivity|];
    repeat split; try reflexivity; intros; discriminate.
  1, 2, 3, 5: exists label; eexists; split; [reflexivity|];
    repeat split; try reflexivity; intros; discriminate.
  - exists label. eexists.
    change (prop (VError m) "message") with (Ret (VString m)).
    split; [reflexivity|].
    unfold error_body. cbn [truthy]. split; [|split; [|split]].
    + destruct (negb (m =? "")); reflexivity.
    + destruct (negb (m =? "")); reflexivity.
    + intros m' H Hm. inversion H. subst m'.
      rewrite (proj2 (String.eqb_neq m "")) by exact Hm. split; reflexivity.
    + intro H. inversion H. split; reflexivity.
  - exists label. eexists.
    change (prop (VObject props) "message") with (Ret (get_property "message" props)).
    split; [reflexivity|].
    unfold error_body.
    destruct (truthy match get_property "message" props with
                     | VUndefined => VNull
                     | _ => get_property "message" props
                     end);
      repeat split; try reflexivity; intros; discriminate.
Qed.

(** C5 (amended). A failure thrown by a middleware, or by the handler of the
    route that is taken, does not leave [fetch]: it is answered by a 500 error
    response with JSON content type, whose body has the [error] field and
    [status] 500. When the thrown value is an error with a non-empty message,
    the body has that message under [message]; with an empty message the
    field is left out. *)
Theorem callback_failure_500 :
  (forall (this : router) request env ctx w u req0 pre middleware post req1 res1 w1 error,
     admitted P request u req0 ->
     middlewares this = (pre ++ middleware :: post)%list ->
     pass pre req0 RouterResponse.constructor env ctx w = Some (req1, res1, w1) ->
     returned (middleware req1 res1 env ctx w1) = Throw error ->
     completed (fetch P this request env ctx w)
     = Ret (Materialized (failure_response P "Middleware Error" error)))
  /\ (forall (this : router) request env ctx w u req0 req1 res1 w1 pre r post params error,
        admitted P request u req0 ->
        pass (middlewares this) req0 RouterResponse.constructor env ctx w
        = Some (req1, res1, w1) ->
        routes this = (pre ++ r :: post)%list ->
        unmatched P pre request (pathname u) = true ->
        _matchRoute P (url r) (pathname u) = Ret (Some params) ->
        strict_equal (method_of r) (request_method request) = true ->
        returned (callback_of r (RouterRequest.with_params (VObject params) req1)
                    res1 env ctx w1) = Throw error ->
        completed (fetch P this request env ctx w)
        = Ret (Materialized (failure_response P "Internal Server Error" error)))
  /\ (forall label error,
        exists label' body,
          failure_response P label error
          = Response.new (JSON_stringify P (VObject body)) (VNumber 500) (VString label')
              json_headers
          /\ own "error" body = Some (VString label')
          /\ own "status" body = Some (VNumber 500)
          /\ (forall m, error = VError m -> m <> "" ->
                label' = label
                /\ body = [("error", VString label); ("status", VNumber 500);
                           ("message", VString m)])
          /\ (error = VError "" ->
                label' = label
                /\ body = [("error", VString label); ("status", VNumber 500)])).
Proof.
  split; [|split; [|exact failure_response_shape]].
  - intros this request env ctx w u req0 pre middleware post req1 res1 w1 error
      Ha Hm Hp Hr.
    unfold fetch. rewrite (fetch_body_admitted this env ctx w Ha). cbv zeta.
    rewrite Hm, (run_middlewares_pass pre (middleware :: post) env ctx 0 _ _ _ [] Hp).
    cbn [run_middlewares]. rewrite Hr. unfold failure_response.
    destruct (message_of error); reflexivity.
  - intros this request env ctx w u req0 req1 res1 w1 pre r post params error
      Ha Hp Hr Hn Hm Hs He.
    unfold fetch. rewrite (fetch_body_admitted this env ctx w Ha). cbv zeta.
    pose proof (run_middlewares_pass (middlewares this) [] env ctx 0 _ _ _ [] Hp) as E.
    rewrite app_nil_r in E. rewrite E. cbn [run_middlewares completed world log].
    rewrite Hr, (run_routes_unmatched pre (r :: post) _ _ _ _ _ _ _ _ _ Hn).
    cbn [run_routes]. rewrite Hm, Hs. cbn [completed]. rewrite He.
    unfold failure_response. cbn [bind try_catch].
    destruct (message_of error); reflexivity.
Qed.

(** X20. When the request is let in, the middleware all pass, and no route of
    the table is taken (each match attempt returns, and the route either does
    not match the path or is registered for another method), [fetch] returns
    the 404 error response of
    [_errorResponse]: status 404, JSON content type, any origin allowed, and
    the body with [error], [status] 404 and the message "Route METHOD path
    not found". No handler is called. [_errorResponse] leaves [message] out
    of the body when it is [null] or not given. *)
Theorem unmatched_request_404 :
  (forall (this : router) request env ctx w u req0 req1 res1 w1,
     admitted P request u req0 ->
     pass (middlewares this) req0 RouterResponse.constructor env ctx w
     = Some (req1, res1, w1) ->
     unmatched P (routes this) request (pathname u) = true ->
     let message := "Route " ++ js_String P (request_method request)
                    ++ " " ++ pathname u ++ " not found" in
     fetch P this request env ctx w
     = {| completed :=
            Ret (Materialized
                   (Response.new
                      (JSON_stringify P
                         (VObject [("error", VString "Not Found");
                                   ("status", VNumber 404);
                                   ("message", VString message)]))
                      (VNumber 404) (VString "Not Found")
                      [("Content-Type", VString "application/json");
                       ("Access-Control-Allow-Origin", VString "*")]));
          world := w1;
          log := (map (@Middleware) (seq 0 (length (middlewares this)))
                  ++ map (@Matching) (seq 0 (length (routes this))))%list |})
  /\ (forall status statusText message,
        message = VNull \/ message = VUndefined ->
        _errorResponse P status statusText message
        = Response.new
            (JSON_stringify P (VObject [("error", VString statusText);
                                        ("status", VNumber status)]))
            (VNumber status) (VString statusText)
            [("Content-Type", VString "application/json");
             ("Access-Control-Allow-Origin", VString "*")]).
Proof.
  split.
  - intros this request env ctx w u req0 req1 res1 w1 Ha Hp Hn message.
    unfold fetch. rewrite (fetch_body_admitted this env ctx w Ha). cbv zeta.
    pose proof (run_middlewares_pass (middlewares this) [] env ctx 0 _ _ _ [] Hp) as E.
    rewrite app_nil_r in E. rewrite E. cbn [run_middlewares completed world log].
    pose proof (run_routes_unmatched (routes this) [] request (pathname u) req1 res1
                  env ctx w1 0 ([] ++ map (@Middleware) (seq 0 (length (middlewares this))))
                  Hn) as E'.
    rewrite app_nil_r in E'. rewrite E'. cbn [run_routes completed world log try_catch app].
    reflexivity.
  - intros status statusText message [-> | ->]; reflexivity.
Qed.

(** C6 (a defect of the code). A request that matches no registered route
    is not always answered with 404. The pattern of a route is compiled as a
    regular expression as it stands; when it is none, as "/c++/docs" is, the
    match attempt on that route throws, and every request that reaches the
    route in the scan is answered with the 500 response "Failed to process
    request", whatever its method and path: no later route is tried and the
    404 response is never built. *)
Theorem unmatched_request_pattern_failure :
  regexp_conforms P ->
  forall (this : router) request env ctx w u req0 req1 res1 w1 pre r post,
    admitted P request u req0 ->
    pass (middlewares this) req0 RouterResponse.constructor env ctx w
    = Some (req1, res1, w1) ->
    routes this = (pre ++ r :: post)%list ->
    unmatched P pre request (pathname u) = true ->
    RegExp.parse ("^" ++ snd (replace (url r) false) ++ "$") = RegExp.SyntaxError ->
    fetch P this request env ctx w
    = {| completed :=
           Ret (Materialized
                  (Response.new
                     (JSON_stringify P
                        (VObject [("error", VString "Internal Server Error");
                                  ("status", VNumber 500);
                                  ("message", VString "Failed to process request")]))
                     (VNumber 500) (VString "Internal Server Error")
                     [("Content-Type", VString "application/json");
                      ("Access-Control-Allow-Origin", VString "*")]));
         world := w1;
         log := (map (@Middleware) (seq 0 (length (middlewares this)))
                 ++ map (@Matching) (seq 0 (S (length pre))))%list |}.
Proof.
  intros conforms this request env ctx w u req0 req1 res1 w1 pre r post Ha Hp Hr Hn Hs.
  assert (Hm : exists e, _matchRoute P (url r) (pathname u) = Throw e).
  { unfold _matchRoute. destruct (replace (url r) false) as [names re]. cbn [snd] in Hs.
    pose proof (conforms ("^" ++ re ++ "$") (pathname u)) as C. rewrite Hs in C.
    destruct C as [e E]. exists e. now rewrite E. }
  destruct Hm as [e Hm].
  unfold fetch. rewrite (fetch_body_admitted this env ctx w Ha). cbv zeta.
  pose proof (run_middlewares_pass (middlewares this) [] env ctx 0 _ _ _ [] Hp) as E.
  rewrite app_nil_r in E. rewrite E. cbn [run_middlewares completed world log].
  rewrite Hr, (run_routes_unmatched pre (r :: post) _ _ _ _ _ _ _ _ _ Hn).
  cbn [run_routes]. rewrite Hm. cbn [completed world log try_catch app Nat.add].
  rewrite seq_S, map_app, app_assoc. cbn [Nat.add map]. reflexivity.
Qed.

(** The wrapper as the constructor leaves it. *)
Lemma constructor_params request req :
  RouterRequest.constructor P request = Ret req -> RouterRequest.params req = VUndefined.
Proof.
  assert (B : forall raw, RouterRequest.build P raw = Ret req ->
                          RouterRequest.params req = VUndefined).
  { intros raw. unfold RouterRequest.build.
    destruct (match raw_headers raw with
              | Some get => get "cf-connecting-ip"
              | None => Ret VUndefined
              end); [|discriminate].
    cbn [bind].
    destruct (URL_parse P (js_String P (raw_url raw))); [|discriminate].
    cbn [bind]. intro H. inversion H. reflexivity. }
  unfold RouterRequest.constructor. destruct request as [v|raw].
  - destruct (negb (truthy v)); [discriminate|apply B].
  - apply B.
Qed.

Lemma pass_keeps_params (ms : list callback) env ctx :
  Forall (@keeps_params World) ms ->
  forall req res w req1 res1 w1,
    pass ms req res env ctx w = Some (req1, res1, w1) ->
    RouterRequest.params req1 = RouterRequest.params req.
Proof.
  induction 1 as [|middleware ms Hk _ IH]; intros req res w req1 res1 w1 H; cbn [pass] in H.
  - inversion H. reflexivity.
  - destruct (returned (middleware req res env ctx w)) as [[r|v]|e]; try discriminate.
    rewrite (IH _ _ _ _ _ _ H). apply Hk.
Qed.

(** C9 (amended). The constructor does not create [params]: on the wrapper
    it builds, the property is absent ([undefined]). The middleware loop runs
    on that wrapper, before any route is matched: a middleware is called with
    the wrapper as the middleware before it left it, so without [params]
    unless one of them assigned the property itself. Only when a route is
    taken does [fetch] assign the captures of its pattern to [params], right
    before it calls the handler. *)
Theorem params_assigned_after_match :
  (forall request req,
     RouterRequest.constructor P request = Ret req ->
     RouterRequest.params req = VUndefined)
  /\ (forall (this : router) request env ctx w u req0 pre middleware post req1 res1 w1,
        admitted P request u req0 ->
        middlewares this = (pre ++ middleware :: post)%list ->
        pass pre req0 RouterResponse.constructor env ctx w = Some (req1, res1, w1) ->
        Forall (@keeps_params World) pre ->
        RouterRequest.params req1 = VUndefined
        /\ run_middlewares P (middlewares this) 0 req0 RouterResponse.constructor env ctx w []
           = run_middlewares P (middleware :: post) (length pre) req1 res1 env ctx w1
               (map (@Middleware) (seq 0 (length pre))))
  /\ (forall (this : router) request env ctx w u req0 req1 res1 w1 pre r post params,
        admitted P request u req0 ->
        pass (middlewares this) req0 RouterResponse.constructor env ctx w
        = Some (req1, res1, w1) ->
        routes this = (pre ++ r :: post)%list ->
        unmatched P pre request (pathname u) = true ->
        _matchRoute P (url r) (pathname u) = Ret (Some params) ->
        strict_equal (method_of r) (request_method request) = true ->
        let o := callback_of r (RouterRequest.with_params (VObject params) req1)
                   res1 env ctx w1 in
        RouterRequest.params (RouterRequest.with_params (VObject params) req1)
        = VObject params
        /\ world (fetch P this request env ctx w) = world_after o
        /\ log (fetch P this request env ctx w)
           = (map (@Middleware) (seq 0 (length (middlewares this)))
              ++ map (@Matching) (seq 0 (S (length pre)))
              ++ [Handler (length pre)])%list
        /\ (forall x, returned o = Ret x ->
              completed (fetch P this request env ctx w) = Ret x)).
Proof.
  split; [exact constructor_params|split].
  - intros this request env ctx w u req0 pre middleware post req1 res1 w1 Ha Hm Hp Hk.
    split.
    + rewrite (pass_keeps_params env ctx Hk _ _ _ Hp).
      destruct Ha as (_ & _ & _ & Hc). exact (constructor_params _ Hc).
    + rewrite Hm, (run_middlewares_pass pre (middleware :: post) env ctx 0 _ _ _ [] Hp).
      reflexivity.
  - intros this request env ctx w u req0 req1 res1 w1 pre r post params
      Ha Hp Hr Hn Hm Hs o.
    unfold fetch. rewrite (fetch_body_admitted this env ctx w Ha). cbv zeta.
    pose proof (run_middlewares_pass (middlewares this) [] env ctx 0 _ _ _ [] Hp) as E.
    rewrite app_nil_r in E. rewrite E. cbn [run_middlewares completed world log].
    rewrite Hr, (run_routes_unmatched pre (r :: post) _ _ _ _ _ _ _ _ _ Hn).
    cbn [run_routes]. rewrite Hm, Hs. cbn [completed world log]. fold o.
    split; [reflexivity|]. split; [|split].
    + destruct (try_catch _ _) as [[x|]|e]; reflexivity.
    + cbn [app Nat.add]. rewrite seq_S, map_app, <- !app_assoc. cbn [Nat.add map app].
      destruct (try_catch _ _) as [[x|]|e]; reflexivity.
    + intros x Hx. rewrite Hx. reflexivity.
Qed.

End Dispatching.

(** ** The body accessors of the request wrapper *)

Section Bodies.
Import Messages.
Variable P : Platform.

Lemma append_injective (p a b : string) : p ++ a = p ++ b -> a = b.
Proof. induction p as [|c p IH]; cbn [append]; intro H; [exact H|]. inversion H. auto. Qed.

(** C7. With a body whose decoded text is longer than 1 MiB (1024 * 1024 code
    units), [text()] throws the size-limit error, whose message names the
    limit, and which is not what a failure of the transport's reader gives;
    up to that length it returns the text. [json()] reads the body through
    [text()], so it throws on the size limit as well; it throws the
    empty-body error when the text is blank (empty or white space only); and
    when [JSON.parse] rejects the text with an error of message [m], it throws
    a parse error made of [m], whose message is not the one of the empty-body
    error (as long as [m] itself is not "Empty request body"). *)
Theorem body_size_and_json_failures :
  (forall (this : RouterRequest.t) content,
     raw_text (RouterRequest.request this) = Ret content ->
     ((RouterRequest.max_length < RouterRequest.length content)%N ->
        RouterRequest.text P this = throw_Error (text_prefix ++ too_large)
        /\ includes "too large" (text_prefix ++ too_large) = true
        /\ RouterRequest.json P this
           = throw_Error (json_prefix ++ text_prefix ++ too_large))
     /\ ((RouterRequest.length content <= RouterRequest.max_length)%N ->
           RouterRequest.text P this = Ret content
           /\ (blank content = true ->
                 RouterRequest.json P this = throw_Error (json_prefix ++ empty_body))
           /\ (blank content = false ->
                 forall m, JSON_parse P content = Throw (VError m) ->
                   exists message,
                     RouterRequest.json P this = throw_Error message
                     /\ message = (if includes "JSON" m then invalid_prefix ++ m
                                   else json_prefix ++ m)
                     /\ (m <> empty_body -> message <> json_prefix ++ empty_body))
           /\ (blank content = false ->
                 forall v, JSON_parse P content = Ret v ->
                   RouterRequest.json P this = Ret v)))
  /\ (forall (this : RouterRequest.t) m,
        raw_text (RouterRequest.request this) = Throw (VError m) ->
        RouterRequest.text P this = throw_Error (text_prefix ++ m)
        /\ (m <> too_large -> text_prefix ++ m <> text_prefix ++ too_large)).
Proof.
  split.
  - intros this content Hr. split.
    + intro Hl. apply N.ltb_lt in Hl.
      assert (T : RouterRequest.text P this = throw_Error (text_prefix ++ too_large)).
      { unfold RouterRequest.text. rewrite Hr. cbn [bind]. rewrite Hl. reflexivity. }
      split; [exact T|]. split; [reflexivity|].
      unfold RouterRequest.json. rewrite T. reflexivity.
    + intro Hl. apply N.ltb_ge in Hl.
      assert (T : RouterRequest.text P this = Ret content).
      { unfold RouterRequest.text. rewrite Hr. cbn [bind]. rewrite Hl. reflexivity. }
      split; [exact T|]. split; [|split].
      * intro Hb. unfold RouterRequest.json. rewrite T. cbn [bind]. rewrite Hb.
        reflexivity.
      * intros Hb m Hm. unfold RouterRequest.json. rewrite T. cbn [bind].
        rewrite Hb, Hm.
        cbn [try_catch]. change (message_of (VError m)) with (Ret (VString m)).
        cbn [bind RouterRequest.message_includes_JSON js_String].
        destruct (includes "JSON" m); eexists; (split; [reflexivity|]);
          (split; [reflexivity|]); intros Hne H.
        -- discriminate H.
        -- apply append_injective in H. contradiction.
      * intros Hb v Hv. unfold RouterRequest.json. rewrite T. cbn [bind].
        rewrite Hb, Hv. reflexivity.
  - intros this m Hr. split.
    + unfold RouterRequest.text. rewrite Hr. reflexivity.
    + intros Hne H. apply append_injective in H. contradiction.
Qed.

End Bodies.

(** ** The response builder *)

Section Builder.
Import WriteHead.
Variable P : Platform.

Lemma own_spread k (a b : object) :
  own k (spread a b) = match last_own k b with
                       | Some v => Some v
                       | None => own k a
                       end.
Proof.
  unfold spread. revert a. induction b as [|[k' v] b IH]; intro a; cbn [fold_left last_own];
    [reflexivity|].
  rewrite IH. cbn [fst snd]. destruct (last_own k b); [reflexivity|].
  rewrite MatchFacts.own_define. destruct (k' =? k); reflexivity.
Qed.

Lemma SFcompare_antisym a b :
  SFcompare b a = option_map CompOpp (SFcompare a b).
Proof.
  destruct a as [sa|sa| |sa ma ea], b as [sb|sb| |sb mb eb]; cbn [SFcompare option_map];
    try reflexivity; try (destruct sa; reflexivity); try (destruct sb; reflexivity);
    try (destruct sa, sb; reflexivity).
  assert (H : Pos.compare_cont Eq mb ma = CompOpp (Pos.compare_cont Eq ma mb))
    by (symmetry; apply (Pos.compare_cont_antisym ma mb Eq)).
  destruct sa, sb; cbn [CompOpp]; try reflexivity;
    rewrite (Z.compare_antisym ea eb), H;
    destruct (ea ?= eb)%Z; cbn [CompOpp]; try reflexivity.
Qed.

Lemma leb_not_ltb x y : PrimFloat.leb x y = true -> PrimFloat.ltb y x = false.
Proof.
  rewrite FloatAxioms.leb_spec, FloatAxioms.ltb_spec. unfold SFleb, SFltb.
  rewrite (SFcompare_antisym (Prim2SF x) (Prim2SF y)).
  destruct (SFcompare (Prim2SF x) (Prim2SF y)) as [[| |]|]; cbn [option_map CompOpp];
    try reflexivity; discriminate.
Qed.

Lemma not_nan x : PrimFloat.is_nan x = false -> Prim2SF x <> S754_nan.
Proof.
  unfold PrimFloat.is_nan. rewrite FloatAxioms.eqb_spec. intros H E. rewrite E in H.
  discriminate H.
Qed.

Lemma leb_negb_ltb x y :
  PrimFloat.is_nan x = false -> PrimFloat.is_nan y = false ->
  PrimFloat.leb x y = negb (PrimFloat.ltb y x).
Proof.
  intros Hx Hy. apply not_nan in Hx, Hy.
  rewrite FloatAxioms.leb_spec, FloatAxioms.ltb_spec. unfold SFleb, SFltb.
  rewrite (SFcompare_antisym (Prim2SF x) (Prim2SF y)).
  destruct (Prim2SF x) as [sx|sx| |sx mx ex] eqn:Ex; [| |now elim Hx|];
    (destruct (Prim2SF y) as [sy|sy| |sy my ey] eqn:Ey; [| |now elim Hy|]);
    match goal with
    | |- context [SFcompare ?a ?b] => destruct (SFcompare a b) as [[| |]|] eqn:C
    end; cbn [option_map CompOpp]; try reflexivity; cbn [SFcompare] in C; discriminate C.
Qed.

Lemma between_accepted x :
  between_100_and_599 x = true -> RouterResponse.out_of_range (VNumber x) = false.
Proof.
  unfold between_100_and_599, RouterResponse.out_of_range. intro H.
  apply andb_true_iff in H as [H1 H2].
  now rewrite (@leb_not_ltb _ _ H1), (@leb_not_ltb _ _ H2).
Qed.

Lemma not_between_rejected x :
  PrimFloat.is_nan x = false -> between_100_and_599 x = false ->
  RouterResponse.out_of_range (VNumber x) = true.
Proof.
  unfold between_100_and_599, RouterResponse.out_of_range. intros Hx H.
  rewrite (@leb_negb_ltb 100 x eq_refl Hx), (@leb_negb_ltb x 599 Hx eq_refl) in H.
  rewrite <- negb_orb in H. now apply negb_false_iff in H.
Qed.

(** C8 (amended). [writeHead(status, statusText, headers)] throws "Status
    must be a number between 100 and 599" when [status] is not a number, or
    is a number that does not lie between 100 and 599; a number that does,
    whole or not, is accepted: so is every integer from 100 to 599. (NaN is
    left aside.) With such a status it throws "Status text must be a
    string" when [statusText] is given (truthy) and is no string, then
    "Headers must be an object" when [headers] is given (truthy) and is no
    object. Otherwise it only changes the builder: [status] is the number
    given, [statusText] the text given or the empty string, and the headers
    are the current ones with the given ones merged over them, a given key
    winning over a current one. [writeHead(999)] and [writeHead("bad")]
    throw; [writeHead(201, "Created")] followed by [json({})] gives a
    response of status 201 and status text "Created". *)
Theorem writeHead_validates_and_merges :
  (forall this status statusText headers,
     (forall x, status <> VNumber x)
     \/ (exists x, status = VNumber x /\ PrimFloat.is_nan x = false
                   /\ between_100_and_599 x = false) ->
     RouterResponse.writeHead this status statusText headers
     = throw_Error "Status must be a number between 100 and 599")
  /\ (forall this x statusText headers,
        between_100_and_599 x = true -> given_not_string statusText ->
        RouterResponse.writeHead this (VNumber x) statusText headers
        = throw_Error "Status text must be a string")
  /\ (forall this x statusText headers,
        between_100_and_599 x = true -> omitted_or_string statusText ->
        given_not_object headers ->
        RouterResponse.writeHead this (VNumber x) statusText headers
        = throw_Error "Headers must be an object")
  /\ (forall this x statusText headers,
        between_100_and_599 x = true -> omitted_or_string statusText ->
        omitted_or_object headers ->
        exists this',
          RouterResponse.writeHead this (VNumber x) statusText headers = Ret this'
          /\ RouterResponse.status this' = VNumber x
          /\ RouterResponse.statusText this'
             = (if truthy statusText then statusText else VString "")
          /\ (truthy headers = false ->
                RouterResponse.header this' = RouterResponse.header this)
          /\ (truthy headers = true ->
                forall k, own k (RouterResponse.header this')
                          = match last_own k (own_enumerable headers) with
                            | Some v => Some v
                            | None => own k (RouterResponse.header this)
                            end))
  /\ (forall n : nat, 100 <= n <= 599 ->
        integer_in_range (VNumber (number n)) = true
        /\ between_100_and_599 (number n) = true)
  /\ RouterResponse.writeHead RouterResponse.constructor (VNumber 999) VUndefined VUndefined
     = throw_Error "Status must be a number between 100 and 599"
  /\ RouterResponse.writeHead RouterResponse.constructor (VString "bad") VUndefined VUndefined
     = throw_Error "Status must be a number between 100 and 599"
  /\ (exists this' r,
        RouterResponse.writeHead RouterResponse.constructor (VNumber 201)
          (VString "Created") VUndefined = Ret this'
        /\ RouterResponse.json P this' (VObject []) = Ret r
        /\ Response.status r = VNumber 201
        /\ Response.statusText r = VString "Created"
        /\ Response.body r = Some "{}").
Proof.
  assert (Text : forall v, omitted_or_string v ->
            truthy v && negb (js_type_eqb (typeof v) TString) = false).
  { intros v [H|[s ->]]; [now rewrite H|]. cbn [typeof js_type_eqb negb].
    apply andb_false_r. }
  assert (Object : forall v, omitted_or_object v ->
            truthy v && negb (js_type_eqb (typeof v) TObject) = false).
  { intros v [H|H]; [now rewrite H|]. rewrite H. cbn [js_type_eqb negb].
    apply andb_false_r. }
  assert (Status : forall x, between_100_and_599 x = true ->
            negb (js_type_eqb (typeof (VNumber x)) TNumber)
            || RouterResponse.out_of_range (VNumber x) = false).
  { intros x H. cbn [typeof js_type_eqb negb orb]. exact (@between_accepted x H). }
  split; [|split; [|split; [|split; [|split; [|split; [|split]]]]]].
  - intros this status statusText headers [H|(x & -> & Hx & H)];
      unfold RouterResponse.writeHead.
    + destruct status; try reflexivity. now elim (H x).
    + cbn [typeof js_type_eqb negb orb]. now rewrite (@not_between_rejected x Hx H).
  - intros this x statusText headers Hx [Ht Hs]. unfold RouterResponse.writeHead.
    rewrite (Status x Hx), Ht.
    destruct statusText; try reflexivity; try discriminate Ht. now elim (Hs s).
  - intros this x statusText headers Hx Ht [Hh Ho]. unfold RouterResponse.writeHead.
    rewrite (Status x Hx), (Text _ Ht), Hh.
    destruct (js_type_eqb (typeof headers) TObject) eqn:E; [|reflexivity].
    apply js_type_eqb_eq in E. contradiction.
  - intros this x statusText headers Hx Ht Hh. unfold RouterResponse.writeHead.
    rewrite (Status x Hx), (Text _ Ht), (Object _ Hh).
    eexists. split; [reflexivity|].
    cbn [RouterResponse.status RouterResponse.statusText RouterResponse.header].
    split; [reflexivity|]. split; [unfold js_or; reflexivity|]. split.
    + intros ->. reflexivity.
    + intros -> k. apply own_spread.
  - intros n Hn.
    assert (A : forallb (fun n => integer_in_range (VNumber (number n))
                                  && between_100_and_599 (number n))
                  (seq 100 500) = true) by (vm_compute; reflexivity).
    rewrite forallb_forall in A.
    assert (I : In n (seq 100 500)) by (apply in_seq; lia).
    specialize (A n I). now apply andb_true_iff in A.
  - reflexivity.
  - reflexivity.
  - do 2 eexists. repeat split.
Qed.

End Builder.

(** ** Samples of the theorems, and the inputs on which claims fail *)

Module Instances.
Import Router Samples.



(** C5 on a sample: the handler throws an error with a message. *)
Lemma callback_failure_500_witness :
  completed (fetch Host.platform (failing "boom") sample VUndefined VUndefined 0)
  = Ret (Materialized (failure_response Host.platform "Internal Server Error" (VError "boom")))
  /\ Response.body (failure_response Host.platform "Internal Server Error" (VError "boom"))
     = JSON_stringify Host.platform
         (VObject [("error", VString "Internal Server Error"); ("status", VNumber 500);
                   ("message", VString "boom")]).
Proof.
  split; [|reflexivity].
  refine (proj1 (proj2 (callback_failure_500 Host.platform counter))
            (failing "boom") sample VUndefined VUndefined 0 _ _ _ _ _
            [_] _ [] [("id", VString "7")] (VError "boom")
            (conj eq_refl (conj eq_refl (conj eq_refl eq_refl)))
            eq_refl eq_refl eq_refl eq_refl eq_refl eq_refl).
Defined.

(** C5, as stated, fails when the error thrown has an empty message, as
    [new Error()] has: the body has no [message] field. *)
Lemma callback_failure_empty_message_counterexample :
  exists r,
    completed (fetch Host.platform (failing "") sample VUndefined VUndefined 0)
    = Ret (Materialized r)
    /\ Response.status r = VNumber 500
    /\ Response.body r
       = JSON_stringify Host.platform
           (VObject [("error", VString "Internal Server Error"); ("status", VNumber 500)])
    /\ Response.body r
       <> JSON_stringify Host.platform
            (VObject [("error", VString "Internal Server Error"); ("status", VNumber 500);
                      ("message", VString "")]).
Proof.
  eexists. split; [reflexivity|]. split; [reflexivity|]. split; [reflexivity|].
  vm_compute. discriminate.
Qed.

(** C6 at its failing input: the route "/c++/docs" is registered, and the
    request for "/nothing", which the segment matcher matches with no route,
    is answered with 500. *)
Lemma unmatched_request_pattern_failure_witness :
  Segments.reference_match "/c++/docs" "/nothing" = None
  /\ fetch Host.platform (router [] [(GET, "/c++/docs", counting)])
       (request "https://example.com/nothing" "GET") VUndefined VUndefined 0
     = {| completed :=
            Ret (Materialized
                   (Response.new
                      (JSON_stringify Host.platform
                         (VObject [("error", VString "Internal Server Error");
                                   ("status", VNumber 500);
                                   ("message", VString "Failed to process request")]))
                      (VNumber 500) (VString "Internal Server Error")
                      [("Content-Type", VString "application/json");
                       ("Access-Control-Allow-Origin", VString "*")]));
          world := 0;
          log := [Matching 0] |}.
Proof.
  split; [reflexivity|].
  refine (@unmatched_request_pattern_failure Host.platform counter MatchFacts.host_conforms
            (router [] [(GET, "/c++/docs", counting)])
            (request "https://example.com/nothing" "GET") VUndefined VUndefined 0
            _ _ _ _ _ [] _ []
            (conj eq_refl (conj eq_refl (conj eq_refl eq_refl)))
            eq_refl eq_refl eq_refl eq_refl).
Defined.

(** X20 on a sample: no route for the path. *)
Lemma unmatched_request_404_witness :
  fetch Host.platform counted (request "https://example.com/nothing?x=1" "GET")
    VUndefined VUndefined 0
  = {| completed :=
         Ret (Materialized
                (Response.new
                   (JSON_stringify Host.platform
                      (VObject [("error", VString "Not Found");
                                ("status", VNumber 404);
                                ("message", VString "Route GET /nothing not found")]))
                   (VNumber 404) (VString "Not Found")
                   [("Content-Type", VString "application/json");
                    ("Access-Control-Allow-Origin", VString "*")]));
       world := 2;
       log := [Middleware 0; Middleware 1; Matching 0; Matching 1] |}.
Proof.
  refine (proj1 (unmatched_request_404 Host.platform counter)
            counted (request "https://example.com/nothing?x=1" "GET")
            VUndefined VUndefined 0 _ _ _ _ _
            (conj eq_refl (conj eq_refl (conj eq_refl eq_refl))) eq_refl eq_refl).
Defined.

(** C7 on a sample: a body of 1 MiB and one code unit. *)
Lemma body_size_and_json_failures_witness :
  RouterRequest.text Host.platform (wrapper (Ret (text_of_length 1048577)))
  = throw_Error "Failed to parse request body as text: Request body too large (max 1MB)"
  /\ RouterRequest.json Host.platform (wrapper (Ret "   "))
     = throw_Error "Failed to parse request body as JSON: Empty request body"
  /\ RouterRequest.json Host.platform (wrapper (Ret "{oops"))
     = throw_Error "Invalid JSON format: Unexpected end of JSON input".
Proof.
  split; [|split].
  - refine (proj1 (proj1 (proj1 (body_size_and_json_failures Host.platform)
                            (wrapper (Ret (text_of_length 1048577))) _ eq_refl) _)).
    vm_compute. reflexivity.
  - refine (proj1 (proj2 (proj2 (proj1 (body_size_and_json_failures Host.platform)
                                   (wrapper (Ret "   ")) _ eq_refl) _)) eq_refl).
    vm_compute. discriminate.
  - destruct (proj1 (proj2 (proj2 (proj2 (proj1 (body_size_and_json_failures Host.platform)
                                            (wrapper (Ret "{oops")) _ eq_refl)
                                     ltac:(vm_compute; discriminate))))
                eq_refl "Unexpected end of JSON input" eq_refl) as (message & E & M & _).
    rewrite E, M. reflexivity.
Defined.

(** C8 on a sample: a header given wins over the current one. *)
Lemma writeHead_validates_and_merges_witness :
  exists this',
    RouterResponse.writeHead RouterResponse.constructor (VNumber 404) (VString "Not Found")
      (VObject [("Server", VString "mine"); ("X-Trace", VString "1")]) = Ret this'
    /\ RouterResponse.status this' = VNumber 404
    /\ RouterResponse.statusText this' = VString "Not Found"
    /\ own "Server" (RouterResponse.header this') = Some (VString "mine")
    /\ own "X-Trace" (RouterResponse.header this') = Some (VString "1")
    /\ own "Access-Control-Allow-Origin" (RouterResponse.header this') = Some (VString "*").
Proof.
  destruct (proj1 (proj2 (proj2 (proj2 (writeHead_validates_and_merges
                                          Host.platform))))
              RouterResponse.constructor 404%float (VString "Not Found")
              (VObject [("Server", VString "mine"); ("X-Trace", VString "1")]) eq_refl
              (or_intror (ex_intro _ "Not Found" eq_refl)) (or_intror eq_refl))
    as (this' & E & Hs & Ht & _ & Hh).
  exists this'. split; [exact E|]. split; [exact Hs|]. split; [exact Ht|].
  rewrite !(Hh eq_refl). repeat split.
Defined.

(** C8, as stated, fails: a number that is no integer passes when it lies in
    the range, and so does a status text that is given, is no string, and is
    falsy. *)
Lemma writeHead_accepts_counterexample :
  WriteHead.integer_in_range (VNumber 200.5%float) = false
  /\ RouterResponse.writeHead RouterResponse.constructor (VNumber 200.5) VUndefined VUndefined
     = Ret {| RouterResponse.header := RouterResponse.header RouterResponse.constructor;
              RouterResponse.status := VNumber 200.5;
              RouterResponse.statusText := VString "" |}
  /\ RouterResponse.writeHead RouterResponse.constructor (VNumber 200) (VNumber 0) VUndefined
     = Ret {| RouterResponse.header := RouterResponse.header RouterResponse.constructor;
              RouterResponse.status := VNumber 200;
              RouterResponse.statusText := VString "" |}.
Proof. repeat split; vm_compute; reflexivity. Qed.

(** C9 on a sample: the handler of the route that is taken sees the captures;
    a middleware does not. *)
Lemma params_assigned_after_match_witness :
  (exists r,
     completed (fetch Host.platform counted sample VUndefined VUndefined 0)
     = Ret (Materialized r)
     /\ Response.body r = JSON_stringify Host.platform (VObject [("id", VString "7")]))
  /\ log (fetch Host.platform counted sample VUndefined VUndefined 0)
     = [Middleware 0; Middleware 1; Matching 0; Matching 1; Handler 1].
Proof.
  destruct (proj2 (proj2 (params_assigned_after_match Host.platform counter))
              counted sample VUndefined VUndefined 0 _ _ _ _ _
              [_] _ [] [("id", VString "7")]
              (conj eq_refl (conj eq_refl (conj eq_refl eq_refl)))
              eq_refl eq_refl eq_refl eq_refl eq_refl) as (_ & _ & L & C).
  split; [|exact L].
  eexists. split; [apply C; reflexivity|reflexivity].
Defined.

(** C9, as stated, fails: on the wrapper the constructor builds, [params] is
    absent, it is not an empty map; a middleware that shows [req.params]
    shows [null] for it. *)
Lemma params_absent_counterexample :
  (exists req,
     RouterRequest.constructor Host.platform sample = Ret req
     /\ RouterRequest.params req = VUndefined
     /\ RouterRequest.params req <> VObject [])
  /\ (exists r,
        completed (fetch Host.platform
                     (router [echoing] [(GET, "/users/:id", echoing)])
                     sample VUndefined VUndefined 0)
        = Ret (Materialized r)
        /\ Response.body r = Some "null").
Proof.
  split.
  - eexists. split; [reflexivity|]. split; [reflexivity|discriminate].
  - eexists. split; reflexivity.
Qed.

End Instances.

(** * Further properties of the code *)

(** ** Registration, in sequence and with invalid arguments *)

Section MoreRegistration.
Import Router Programs.
Variable World : Type.

Local Abbreviation callback := (callback World).
Local Abbreviation router := (t World).

(** X1. [use] accepts functions only: registering a list of functions one
    after the other appends them to the middleware in the order of the calls
    and leaves the routes alone; the first argument that is no function,
    whatever its value, stops the sequence with "Middleware must be a
    function.". *)
Theorem use_appends_in_call_order :
  (forall (fs : list callback) (this : router),
     use_all this (map (@Function World) fs)
     = Ret {| routes := routes this; middlewares := (middlewares this ++ fs)%list |})
  /\ (forall (fs : list callback) v rest (this : router),
        use_all this (map (@Function World) fs ++ NotFunction World v :: rest)%list
        = throw_Error "Middleware must be a function.").
Proof.
  split.
  - induction fs as [|f fs IH]; intro this; cbn [map use_all use bind].
    + rewrite app_nil_r. now destruct this.
    + rewrite IH. cbn [routes middlewares]. now rewrite <- app_assoc.
  - induction fs as [|f fs IH]; intros v rest this; cbn [map app use_all use bind].
    + reflexivity.
    + apply IH.
Qed.

(** X2. The checks of [_addRoute] in their order: a falsy pattern (the empty
    string as well) or a falsy callback gives "URL or Callback is not
    provided."; then a truthy pattern that is no string gives "URL must be of
    type string."; then a truthy callback that is no function gives "Callback
    must be of type function."; a non-empty string with a function is refused
    only as a duplicate. *)
Theorem addRoute_checks_in_order :
  forall (this : router) m u cb,
    (truthy u = false \/ truthy_argument cb = false ->
     _addRoute this m u cb = throw_Error "URL or Callback is not provided.")
    /\ (truthy u = true -> truthy_argument cb = true -> typeof u <> TString ->
          _addRoute this m u cb = throw_Error "URL must be of type string.")
    /\ (truthy u = true -> typeof u = TString ->
          forall v, cb = NotFunction World v -> truthy v = true ->
          _addRoute this m u cb = throw_Error "Callback must be of type function.")
    /\ (forall pattern f, u = VString pattern -> pattern <> "" -> cb = Function f ->
          _addRoute this m u cb
          = (_ <- check_duplicate (routes this) m pattern ;;
             Ret {| routes := (routes this
                               ++ [{| url := pattern; callback_of := f; method_of := m |}])%list;
                    middlewares := middlewares this |})).
Proof.
  intros this m u cb. unfold _addRoute. repeat split.
  - intros [H|H]; rewrite H; cbn [negb orb]; [reflexivity|].
    now rewrite orb_true_r.
  - intros Hu Hc Ht. rewrite Hu, Hc. cbn [negb orb].
    destruct u; try reflexivity. now elim Ht.
  - intros Hu Ht v -> Hv. rewrite Hu. cbn [truthy_argument negb orb]. rewrite Hv.
    cbn [negb]. destruct u; try discriminate Ht. reflexivity.
  - intros pattern f -> Hp ->. cbn [truthy truthy_argument].
    rewrite (proj2 (String.eqb_neq pattern "")) by exact Hp. reflexivity.
Qed.

(** X3. Registrations in sequence: when the patterns are non-empty strings
    and the (method, pattern) pairs are distinct from one another and from
    those of the table, every registration succeeds and the table is the old
    one followed by the new routes in the order of the calls; a pair that the
    table or an earlier call of the sequence already has stops the sequence
    with the duplicate-route error of that pair. *)
Theorem register_all_in_call_order :
  (forall (rs : list (method * string * callback)) (this : router),
     Forall (fun r => snd (fst r) <> "") rs ->
     NoDup (map (@key World) (routes this) ++ map fst rs) ->
     register_all this (map (@registration World) rs)
     = Ret {| routes := (routes this ++ map (@route_of World) rs)%list;
              middlewares := middlewares this |})
  /\ (forall (pre : list (method * string * callback)) m pattern f rest (this : router),
        Forall (fun r => snd (fst r) <> "") pre ->
        pattern <> "" ->
        NoDup (map (@key World) (routes this) ++ map fst pre) ->
        In (m, pattern) (map (@key World) (routes this) ++ map fst pre) ->
        register_all this (map (@registration World) (pre ++ (m, pattern, f) :: rest))
        = throw_Error ("Route already exists for " ++ method_name m ++ " " ++ pattern ++ ".")).
Proof.
  assert (Step : forall (this : router) m pattern f,
            pattern <> "" ->
            ~ In (m, pattern) (map (@key World) (routes this)) ->
            _addRoute this m (VString pattern) (Function f)
            = Ret {| routes := (routes this
                                ++ [{| url := pattern; callback_of := f; method_of := m |}])%list;
                     middlewares := middlewares this |}).
  { intros this m pattern f Hne Hin. unfold _addRoute. cbn [truthy truthy_argument].
    rewrite (proj2 (String.eqb_neq pattern "")) by exact Hne. cbn [negb orb].
    now rewrite (proj2 (check_duplicate_spec (routes this) m pattern) Hin). }
  split.
  - induction rs as [|[[m u] f] rs IH]; intros this Hne Hnd; cbn [map register_all].
    + rewrite app_nil_r. now destruct this.
    + inversion Hne as [|? ? Hu Hrest]; subst. cbn [fst snd] in Hu.
      unfold registration at 1. cbn [fst snd].
      cbn [map fst] in Hnd.
      rewrite Step; [|exact Hu|].
      * cbn [bind]. rewrite IH; [|exact Hrest|].
        -- cbn [routes middlewares map route_of fst snd].
           rewrite <- app_assoc. reflexivity.
        -- cbn [routes]. rewrite map_app, <- app_assoc. cbn [map key url method_of app].
           exact Hnd.
      * apply NoDup_remove_2 in Hnd. intro Hin. apply Hnd. apply in_or_app. now left.
  - induction pre as [|[[m0 u0] f0] pre IH]; intros m pattern f rest this Hne Hp Hnd Hin;
      cbn [app map register_all].
    + unfold registration at 1. cbn [fst snd]. rewrite app_nil_r in Hin.
      unfold _addRoute. cbn [truthy truthy_argument].
      rewrite (proj2 (String.eqb_neq pattern "")) by exact Hp. cbn [negb orb].
      now rewrite (proj1 (check_duplicate_spec (routes this) m pattern) Hin).
    + inversion Hne as [|? ? Hu Hrest]; subst. cbn [fst snd] in Hu.
      unfold registration at 1. cbn [fst snd]. cbn [map fst] in Hnd, Hin.
      rewrite Step; [|exact Hu|].
      * cbn [bind]. apply IH; [exact Hrest|exact Hp| |].
        -- cbn [routes]. rewrite map_app, <- app_assoc. cbn [map key url method_of app].
           exact Hnd.
        -- cbn [routes]. rewrite map_app, <- app_assoc. cbn [map key url method_of app].
           exact Hin.
      * apply NoDup_remove_2 in Hnd. intro H. apply Hnd. apply in_or_app. now left.
Qed.

End MoreRegistration.

(** ** Dispatch: which route is taken, and where a dispatch stops *)

Section MoreDispatch.
Import Router Programs.
Variable P : Platform.
Variable World : Type.

Local Abbreviation callback := (callback World).
Local Abbreviation route := (route World).
Local Abbreviation router := (t World).

Lemma fetch_after_middleware (this : router) request env ctx w u req0 req1 res1 w1 :
  admitted P request u req0 ->
  pass (middlewares this) req0 RouterResponse.constructor env ctx w = Some (req1, res1, w1) ->
  fetch P this request env ctx w
  = let rs := run_routes P (routes this) 0 request (pathname u) req1 res1 env ctx w1
                (map (@Middleware) (seq 0 (length (middlewares this)))) in
    {| completed :=
         try_catch
           match completed rs with
           | Throw e => Throw e
           | Ret (Some r) => Ret r
           | Ret None =>
               Ret (Materialized
                      (_errorResponse P 404 "Not Found"
                         (VString ("Route " ++ js_String P (request_method request)
                                   ++ " " ++ pathname u ++ " not found"))))
           end
           (fun _ => Ret (Materialized
                            (_errorResponse P 500 "Internal Server Error"
                               (VString "Failed to process request"))));
       world := world rs; log := log rs |}.
Proof.
  intros Ha Hp. unfold fetch. rewrite (fetch_body_admitted this env ctx w Ha). cbv zeta.
  pose proof (run_middlewares_pass P (middlewares this) [] env ctx 0 _ _ _ [] Hp) as E.
  rewrite app_nil_r in E. rewrite E. cbn [run_middlewares completed world log app Nat.add].
  destruct (completed (run_routes P (routes this) 0 request (pathname u) req1 res1 env ctx w1
                         (map (@Middleware) (seq 0 (length (middlewares this))))))
    as [[r|]|e]; reflexivity.
Qed.

Lemma fetch_route_taken (this : router) request env ctx w u req0 req1 res1 w1
    pre r post params :
  admitted P request u req0 ->
  pass (middlewares this) req0 RouterResponse.constructor env ctx w = Some (req1, res1, w1) ->
  routes this = (pre ++ r :: post)%list ->
  unmatched P pre request (pathname u) = true ->
  _matchRoute P (url r) (pathname u) = Ret (Some params) ->
  strict_equal (method_of r) (request_method request) = true ->
  fetch P this request env ctx w
  = taken P (length (middlewares this)) (length pre) r params req1 res1 env ctx w1.
Proof.
  intros Ha Hp Hr Hn Hm Hs. rewrite (fetch_after_middleware this env ctx w Ha Hp). cbv zeta.
  rewrite Hr, (run_routes_unmatched P pre (r :: post) _ _ _ _ _ _ _ _ _ Hn).
  cbn [run_routes]. rewrite Hm, Hs. cbn [completed world log]. unfold taken. cbv zeta.
  cbn [Nat.add]. rewrite seq_S, map_app, <- !app_assoc. cbn [Nat.add map app].
  f_equal.
  destruct (returned (callback_of r (RouterRequest.with_params (VObject params) req1)
                        res1 env ctx w1)) as [x|error]; cbn [bind try_catch]; [reflexivity|].
  unfold failure_response. destruct (message_of error); reflexivity.
Qed.

Lemma fetch_no_route (this : router) request env ctx w u req0 req1 res1 w1 :
  admitted P request u req0 ->
  pass (middlewares this) req0 RouterResponse.constructor env ctx w = Some (req1, res1, w1) ->
  unmatched P (routes this) request (pathname u) = true ->
  fetch P this request env ctx w
  = not_found P (length (middlewares this)) (length (routes this)) request (pathname u) w1.
Proof.
  intros Ha Hp Hn. rewrite (fetch_after_middleware this env ctx w Ha Hp). cbv zeta.
  pose proof (run_routes_unmatched P (routes this) [] request (pathname u) req1 res1
                env ctx w1 0 (map (@Middleware) (seq 0 (length (middlewares this)))) Hn) as E.
  rewrite app_nil_r in E. rewrite E. reflexivity.
Qed.

Lemma select_index (rs : list route) method path :
  forall i j r params, select rs i method path = Some (j, r, params) -> i <= j.
Proof.
  induction rs as [|r0 rs IH]; intros i j r params; cbn [select]; [discriminate|].
  destruct (Segments.segment_match (url r0) path) as [p0|].
  - destruct (strict_equal (method_of r0) method).
    + intro H. inversion H. lia.
    + intro H. apply IH in H. lia.
  - intro H. apply IH in H. lia.
Qed.

(** The route [select] finds splits the table: the routes before it are not
    taken, and it is. *)
Lemma select_split (conforms : regexp_conforms P) (rs : list route) request path :
  Forall (fun r => Segments.plain (url r) = true) rs ->
  forall i,
    match select rs i (request_method request) path with
    | None => unmatched P rs request path = true
    | Some (j, r, params) =>
        exists pre post,
          rs = (pre ++ r :: post)%list /\ j = i + length pre
          /\ unmatched P pre request path = true
          /\ _matchRoute P (url r) path = Ret (Some params)
          /\ strict_equal (method_of r) (request_method request) = true
    end.
Proof.
  induction 1 as [|r0 rs Hp _ IH]; intro i; cbn [select unmatched]; [reflexivity|].
  pose proof (MatchFacts.matchRoute_segments conforms (url r0) path Hp) as Em.
  rewrite Em.
  destruct (Segments.segment_match (url r0) path) as [p0|].
  - destruct (strict_equal (method_of r0) (request_method request)) eqn:Es.
    + exists [], rs. cbn [app length unmatched]. rewrite Nat.add_0_r. auto.
    + specialize (IH (S i)).
      destruct (select rs (S i) (request_method request) path) as [[[j r] params]|].
      * destruct IH as (pre & post & -> & -> & Hn & Hm & Hs).
        exists (r0 :: pre), post. cbn [app length unmatched].
        rewrite Em, Es. cbn [negb andb]. repeat split; auto; lia.
      * cbn [negb andb]. exact IH.
  - specialize (IH (S i)).
    destruct (select rs (S i) (request_method request) path) as [[[j r] params]|].
    + destruct IH as (pre & post & -> & -> & Hn & Hm & Hs).
      exists (r0 :: pre), post. cbn [app length unmatched].
      rewrite Em. repeat split; auto; lia.
    + exact IH.
Qed.

(** X4. Routing on a table of patterns without syntax characters, on a
    platform with conforming regular expressions: once the request is let in
    and the middleware have passed, [fetch] takes the first route of the
    table, in registration order, whose pattern matches the path as the
    segment matcher says and whose method is the request's; it answers what
    that handler returns (or the 500 response of its failure) after one match
    attempt for each route up to it. When there is no such route, for
    instance when the path is registered for other methods only, it answers
    404 after one match attempt for every route. *)
Theorem fetch_takes_first_matching_route :
  regexp_conforms P ->
  forall (this : router) request env ctx w u req0 req1 res1 w1,
    Forall (fun r => Segments.plain (url r) = true) (routes this) ->
    admitted P request u req0 ->
    pass (middlewares this) req0 RouterResponse.constructor env ctx w = Some (req1, res1, w1) ->
    fetch P this request env ctx w
    = match select (routes this) 0 (request_method request) (pathname u) with
      | Some (i, r, params) =>
          taken P (length (middlewares this)) i r params req1 res1 env ctx w1
      | None =>
          not_found P (length (middlewares this)) (length (routes this)) request (pathname u) w1
      end.
Proof.
  intros conforms this request env ctx w u req0 req1 res1 w1 Hpl Ha Hp.
  pose proof (select_split conforms request (pathname u) Hpl 0) as S.
  destruct (select (routes this) 0 (request_method request) (pathname u))
    as [[[i r] params]|].
  - destruct S as (pre & post & Hr & -> & Hn & Hm & Hs). cbn [Nat.add].
    eapply fetch_route_taken; eassumption.
  - eapply fetch_no_route; eassumption.
Qed.

(** X5. The routes registered after the one that is taken play no part: they
    are neither matched against the path nor called, so the answer is the
    same whatever they are, even where one of their patterns would make the
    match attempt throw. *)
Theorem routes_after_the_match_are_ignored :
  forall (this this' : router) request env ctx w u req0 req1 res1 w1 pre r post post' params,
    admitted P request u req0 ->
    pass (middlewares this) req0 RouterResponse.constructor env ctx w = Some (req1, res1, w1) ->
    routes this = (pre ++ r :: post)%list ->
    routes this' = (pre ++ r :: post')%list ->
    middlewares this' = middlewares this ->
    unmatched P pre request (pathname u) = true ->
    _matchRoute P (url r) (pathname u) = Ret (Some params) ->
    strict_equal (method_of r) (request_method request) = true ->
    fetch P this request env ctx w = fetch P this' request env ctx w
    /\ existsb (fun e => match e with
                         | Matching j | Handler j => Nat.ltb (length pre) j
                         | Middleware _ => false
                         end) (log (fetch P this request env ctx w)) = false.
Proof.
  intros this this' request env ctx w u req0 req1 res1 w1 pre r post post' params
    Ha Hp Hr Hr' Hm' Hn Hm Hs.
  assert (Hp' : pass (middlewares this') req0 RouterResponse.constructor env ctx w
                = Some (req1, res1, w1)) by (rewrite Hm'; exact Hp).
  rewrite (@fetch_route_taken this request env ctx w u req0 req1 res1 w1 pre r post params
             Ha Hp Hr Hn Hm Hs).
  rewrite (@fetch_route_taken this' request env ctx w u req0 req1 res1 w1 pre r post' params
             Ha Hp' Hr' Hn Hm Hs).
  rewrite Hm'. split; [reflexivity|].
  unfold taken. cbn [log]. rewrite !existsb_app. cbn [existsb].
  rewrite Nat.ltb_irrefl. cbn [orb].
  assert (A : existsb (fun e => match e with
                                | Matching j | Handler j => Nat.ltb (length pre) j
                                | Middleware _ => false
                                end)
                (map (@Middleware) (seq 0 (length (middlewares this)))) = false).
  { induction (seq 0 (length (middlewares this))); cbn; auto. }
  rewrite A. cbn [orb]. rewrite orb_false_r.
  apply not_true_is_false. intro H. apply existsb_exists in H as (e & He & Hj).
  apply in_map_iff in He as (j & <- & Hin). apply in_seq in Hin.
  apply Nat.ltb_lt in Hj. lia.
Qed.

(** X6. A middleware that throws ends the dispatch: [fetch] answers with the
    500 response "Middleware Error" of the failure, the world is as this
    middleware left it, and the calls are those of the middleware up to it:
    no later middleware, no match attempt, no handler. *)
Theorem middleware_failure_stops_dispatch :
  forall (this : router) request env ctx w u req0 pre middleware post req1 res1 w1 error,
    admitted P request u req0 ->
    middlewares this = (pre ++ middleware :: post)%list ->
    pass pre req0 RouterResponse.constructor env ctx w = Some (req1, res1, w1) ->
    returned (middleware req1 res1 env ctx w1) = Throw error ->
    fetch P this request env ctx w
    = {| completed := Ret (Materialized (failure_response P "Middleware Error" error));
         world := world_after (middleware req1 res1 env ctx w1);
         log := map (@Middleware) (seq 0 (S (length pre))) |}.
Proof.
  intros this request env ctx w u req0 pre middleware post req1 res1 w1 error Ha Hm Hp Hr.
  unfold fetch. rewrite (fetch_body_admitted this env ctx w Ha). cbv zeta.
  rewrite Hm, (run_middlewares_pass P pre (middleware :: post) env ctx 0 _ _ _ [] Hp).
  cbn [run_middlewares]. rewrite Hr. cbn [app Nat.add].
  rewrite seq_S, map_app. cbn [Nat.add map].
  unfold failure_response. destruct (message_of error); reflexivity.
Qed.

End MoreDispatch.

(** ** What a match attempt can capture *)

Section MoreMatching.
Import Router Programs Segments.

Lemma own_in_keys k o : own k o <> None <-> In k (map fst o).
Proof.
  induction o as [|[k1 v1] o IH]; cbn [own map fst In]; [tauto|].
  destruct (String.eqb_spec k1 k) as [->|N].
  - split; [now left|discriminate].
  - rewrite IH. split; [now right|]. intros [E|H]; [congruence|exact H].
Qed.

Lemma overwrite_keys k v o : map fst (overwrite k v o) = map fst o.
Proof.
  induction o as [|[k1 v1] o IH]; cbn [overwrite map fst]; [reflexivity|].
  destruct (k1 =? k); cbn [map fst]; [reflexivity|now rewrite IH].
Qed.

Lemma insert_keys k v o k' :
  In k' (map fst (insert k v o)) <-> k' = k \/ In k' (map fst o).
Proof.
  induction o as [|[k1 v1] o IH]; cbn [insert map fst In].
  - split; [intros [H|[]]; auto | intros [H|[]]; auto].
  - destruct (enumerated_before k k1); cbn [map fst In].
    + intuition congruence.
    + rewrite IH. intuition congruence.
Qed.

Lemma insert_NoDup k v o :
  ~ In k (map fst o) -> NoDup (map fst o) -> NoDup (map fst (insert k v o)).
Proof.
  induction o as [|[k1 v1] o IH]; cbn [insert map fst In]; intros Hk H.
  - constructor; [intros []|constructor].
  - inversion H as [|? ? Hn Hd]; subst.
    destruct (enumerated_before k k1); cbn [map fst].
    + constructor; [cbn [In]; tauto|exact H].
    + constructor; [|apply IH; tauto].
      rewrite insert_keys. intros [E|E]; [apply Hk; now left|contradiction].
Qed.

Lemma define_property_keys k v o k' :
  In k' (map fst (define_property k v o)) <-> k' = k \/ In k' (map fst o).
Proof.
  unfold define_property. pose proof (own_in_keys k o) as K.
  destruct (own k o) as [v'|].
  - rewrite overwrite_keys. split; [now right|].
    intros [->|H]; [|exact H]. apply K. discriminate.
  - apply insert_keys.
Qed.

Lemma define_property_NoDup k v o :
  NoDup (map fst o) -> NoDup (map fst (define_property k v o)).
Proof.
  unfold define_property. pose proof (own_in_keys k o) as K.
  destruct (own k o) as [v'|]; intro H.
  - now rewrite overwrite_keys.
  - apply insert_NoDup; [|exact H]. intro Hin. apply K in Hin. now apply Hin.
Qed.

Lemma assign_shape names : forall i matched params,
  NoDup (map fst params) ->
  NoDup (map fst (assign names i matched params))
  /\ forall k, In k (map fst (assign names i matched params)) ->
       In k (map fst params) \/ (In k names /\ k <> "__proto__").
Proof.
  induction names as [|name names IH]; intros i matched params Hd; cbn [assign].
  - split; [assumption|]. intros k H. now left.
  - unfold set_property. destruct (String.eqb_spec name "__proto__") as [E|N].
    + destruct (IH (S i) matched params Hd) as [D K]. split; [assumption|].
      intros k H. destruct (K k H) as [G|[G G']]; [now left|right]. split; [now right|assumption].
    + destruct (IH (S i) matched
                  (define_property name (nth (S i) matched VUndefined) params)
                  (define_property_NoDup _ _ _ Hd)) as [D K].
      split; [assumption|].
      intros k H. destruct (K k H) as [G|[G G']].
      * apply define_property_keys in G as [->|G]; [right|now left].
        split; [now left|assumption].
      * right. split; [now right|assumption].
Qed.

Lemma slashes_run s : slashes (run s) = 0.
Proof.
  induction s as [|c s IH]; cbn [run slashes]; [reflexivity|].
  destruct (is_slash c) eqn:E; cbn [slashes]; [reflexivity|]. now rewrite E.
Qed.

Lemma replace_names s : forall in_name,
  Forall (fun n => n <> "" /\ slashes n = 0) (fst (replace s in_name)).
Proof.
  induction s as [|c s IH]; intro in_name; cbn [replace]; [constructor|].
  pose proof (IH false) as F. pose proof (IH true) as T.
  destruct (replace s false) as [nf rf], (replace s true) as [nt rt]. cbn [fst] in F, T.
  destruct (is_slash c); [exact F|].
  destruct in_name; [exact T|].
  destruct (Ascii.eqb c ":" && negb (run s =? "")) eqn:E; cbn [fst]; [|exact F].
  constructor; [|exact T]. apply andb_true_iff in E as [_ E].
  apply negb_true_iff, String.eqb_neq in E. split; [exact E|apply slashes_run].
Qed.

Lemma replace_no_colon s : no_colon s = true -> fst (replace s false) = [].
Proof.
  unfold no_colon.
  induction s as [|c s IH]; cbn [list_ascii_of_string forallb replace]; [reflexivity|].
  intro H. apply andb_true_iff in H as [Hc H]. apply negb_true_iff in Hc.
  specialize (IH H). rewrite Hc. cbn [andb].
  destruct (replace s false) as [nf rf]. cbn [fst] in IH.
  destruct (is_slash c); exact IH.
Qed.

(** X7. On every platform and for every pattern, the parameters of a match
    are an object with one property at most for each name the replacer
    pushed: no key occurs twice, every key is one of these names, hence
    non-empty and without a slash, the key [__proto__] is never among them,
    and a pattern without ":" yields the empty object. *)
Theorem matchRoute_params_are_declared (P : Platform) pattern pathname params :
  _matchRoute P pattern pathname = Ret (Some params) ->
  NoDup (map fst params)
  /\ (forall k, In k (map fst params) ->
        In k (fst (replace pattern false))
        /\ k <> "__proto__" /\ k <> "" /\ slashes k = 0)
  /\ length params <= length (fst (replace pattern false))
  /\ (no_colon pattern = true -> params = []).
Proof.
  unfold _matchRoute. intro H.
  pose proof (replace_names pattern false) as N.
  pose proof (replace_no_colon pattern) as C.
  destruct (replace pattern false) as [names re]. cbn [fst] in *.
  destruct (RegExp_match P ("^" ++ re ++ "$") pathname) as [[matched|]|e];
    cbn [bind] in H; try discriminate.
  inversion H as [E]. clear H.
  destruct (assign_shape names 0 matched [] (NoDup_nil _)) as [D K].
  assert (I : forall k, In k (map fst (assign names 0 matched [])) ->
              In k names /\ k <> "__proto__").
  { intros k Hk. destruct (K k Hk) as [[]|G]. exact G. }
  split; [exact D|]. split; [|split].
  - intros k Hk. destruct (I k Hk) as [Hin Hp]. split; [exact Hin|]. split; [exact Hp|].
    exact (proj1 (Forall_forall _ _) N k Hin).
  - rewrite <- (length_map fst). apply NoDup_incl_length; [exact D|].
    intros k Hk. exact (proj1 (I k Hk)).
  - intro Hc. rewrite (C Hc). reflexivity.
Qed.

Lemma split_length s : length (split s) = S (slashes s).
Proof.
  induction s as [|c s IH]; cbn [split slashes]; [reflexivity|].
  destruct (is_slash c); cbn [length]; [now rewrite IH|].
  destruct (split s) as [|seg segs]; [discriminate|exact IH].
Qed.

Lemma split_slash_free s : Forall (fun seg => slashes seg = 0) (split s).
Proof.
  induction s as [|c s IH]; cbn [split]; [repeat constructor|].
  destruct (is_slash c) eqn:E; [constructor; [reflexivity|exact IH]|].
  destruct (split s) as [|seg segs]; [repeat constructor; cbn [slashes]; now rewrite E|].
  inversion IH as [|? ? H0 H1]; subst. constructor; [|exact H1].
  cbn [slashes]. now rewrite E.
Qed.

Lemma strip_app p : forall s v, strip p s = Some v -> s = p ++ v.
Proof.
  induction p as [|a p IH]; intros s v; cbn [strip].
  - intro H. now inversion H.
  - destruct s as [|b s]; [discriminate|].
    destruct (Ascii.eqb_spec a b) as [->|]; [|discriminate].
    intro H. cbn [append]. now rewrite (IH _ _ H).
Qed.

Lemma slashes_app a b : slashes (a ++ b) = slashes a + slashes b.
Proof.
  induction a as [|c a IH]; cbn [append slashes]; [reflexivity|]. rewrite IH. lia.
Qed.

Lemma segment_captures_shape ps : forall ss l,
  segment_captures ps ss = Some l ->
  length ps = length ss
  /\ forall k v, In (k, v) l -> v <> "" /\ exists seg pre, In seg ss /\ seg = pre ++ v.
Proof.
  induction ps as [|p ps IH]; intros [|s ss] l; cbn [segment_captures]; try discriminate.
  - intro H. inversion H. split; [reflexivity|intros k v []].
  - destruct (capture_of p) as [prefix [name|]].
    + destruct (strip prefix s) as [v0|] eqn:Es; [|discriminate].
      destruct (String.eqb_spec v0 "") as [|Hv]; [discriminate|].
      destruct (segment_captures ps ss) as [l'|] eqn:El; [|discriminate].
      cbn [option_map]. intro H. inversion H; subst. destruct (IH _ _ El) as [L V].
      split; [cbn [length]; now rewrite L|].
      intros k v [G|G].
      * inversion G; subst. split; [exact Hv|]. exists s, prefix.
        split; [now left|apply strip_app, Es].
      * destruct (V k v G) as (Hn & seg & pre & Hin & E). split; [exact Hn|].
        exists seg, pre. split; [now right|exact E].
    + destruct (p =? s); [|discriminate]. intro H. destruct (IH _ _ H) as [L V].
      split; [cbn [length]; now rewrite L|].
      intros k v G. destruct (V k v G) as (Hn & seg & pre & Hin & E). split; [exact Hn|].
      exists seg, pre. split; [now right|exact E].
Qed.

Lemma bindings_own l : forall acc k v,
  own k (fold_left (fun params kv => set_property (fst kv) (VString (snd kv)) params) l acc)
  = Some v ->
  own k acc = Some v \/ exists s, v = VString s /\ In (k, s) l.
Proof.
  induction l as [|[k0 v0] l IH]; intros acc k v; cbn [fold_left fst snd]; [now left|].
  intro H. destruct (IH _ _ _ H) as [G|(s & E & G)].
  - unfold set_property in G. destruct (k0 =? "__proto__"); [now left|].
    rewrite MatchFacts.own_define in G.
    destruct (String.eqb_spec k0 k) as [->|]; [|now left].
    inversion G. right. exists v0. split; [reflexivity|now left].
  - right. exists s. split; [exact E|now right].
Qed.

(** X8. On a platform with conforming regular expressions, a pattern without
    syntax characters matches only paths with as many slashes as it has, and
    every value it captures is a string that is not empty, holds no slash,
    and ends one of the segments of the path: nothing is decoded, trimmed or
    converted on the way. *)
Theorem matchRoute_captures_are_segments (P : Platform) pattern pathname params :
  regexp_conforms P ->
  plain pattern = true ->
  _matchRoute P pattern pathname = Ret (Some params) ->
  slashes pattern = slashes pathname
  /\ forall k v, own k params = Some v ->
       exists s seg pre,
         v = VString s /\ s <> "" /\ slashes s = 0
         /\ In seg (split pathname) /\ seg = pre ++ s.
Proof.
  intros conforms Hp H.
  rewrite (MatchFacts.matchRoute_segments conforms pattern pathname Hp) in H.
  unfold segment_match, captures_of in H.
  destruct (segment_captures (split pattern) (split pathname)) as [l|] eqn:El;
    [|discriminate].
  cbn [option_map] in H. inversion H as [E]. clear H.
  destruct (segment_captures_shape _ _ El) as [L V]. split.
  - rewrite !split_length in L. now inversion L.
  - intros k v Hk. unfold bindings in Hk.
    destruct (bindings_own _ _ _ Hk) as [G|(s & -> & G)]; [discriminate|].
    destruct (V k s G) as (Hn & seg & pre & Hin & Hseg).
    exists s, seg, pre. repeat split; auto.
    pose proof (proj1 (Forall_forall _ _) (split_slash_free pathname) seg Hin) as Z.
    cbv beta in Z. rewrite Hseg, slashes_app in Z. lia.
Qed.

End MoreMatching.

(** ** The response builder: CORS headers and the three materializers *)

Section MoreBuilder.
Import Programs.
Variable P : Platform.

Lemma own_set k k' v o :
  k' <> "__proto__" ->
  own k (set_property k' v o) = if k' =? k then Some v else own k o.
Proof.
  intro H. unfold set_property. rewrite (proj2 (String.eqb_neq _ _) H).
  apply MatchFacts.own_define.
Qed.

Lemma define_property_same k v o : own k o = Some v -> define_property k v o = o.
Proof.
  unfold define_property. intro H. rewrite H. revert H.
  induction o as [|[k1 v1] o IH]; cbn [own overwrite]; [discriminate|].
  destruct (k1 =? k); intro H; [now inversion H|]. now rewrite IH.
Qed.

Lemma set_header_same k v this :
  own k (RouterResponse.header this) = Some v -> RouterResponse.set_header k v this = this.
Proof.
  intro H. unfold RouterResponse.set_header, set_property.
  destruct (k =? "__proto__"); [now destruct this|].
  rewrite (define_property_same _ _ H). now destruct this.
Qed.

Lemma cors_object this o :
  RouterResponse.cors this (VObject o)
  = Ret (let this3 :=
           RouterResponse.set_header "Access-Control-Allow-Headers"
             (RouterResponse.default_to (VString "*") (get_property "headers" o))
             (RouterResponse.set_header "Access-Control-Allow-Methods"
                (RouterResponse.default_to (VString "GET, POST, PUT, DELETE, PATCH, OPTIONS")
                   (get_property "methods" o))
                (RouterResponse.set_header "Access-Control-Allow-Origin"
                   (RouterResponse.default_to (VString "*") (get_property "origin" o))
                   this)) in
         if truthy (RouterResponse.default_to (VBool false) (get_property "credentials" o))
         then RouterResponse.set_header "Access-Control-Allow-Credentials" (VString "true") this3
         else this3).
Proof. reflexivity. Qed.

(** X9. [cors(options)] with an object changes the headers of the builder
    and nothing else: the three headers Allow-Origin, Allow-Methods and
    Allow-Headers take the option given, or the default when the option is
    [undefined] (and only then: [null] is kept); Allow-Credentials becomes
    the string "true" for any truthy [credentials], and is left as it is
    otherwise, so that a later [cors] never removes it; every other header,
    the status and the status text are untouched. Calling it again with the
    same options changes nothing more, no argument is the empty object, and
    [null] throws. *)
Theorem cors_sets_access_control_headers :
  forall this o,
    (exists this',
       RouterResponse.cors this (VObject o) = Ret this'
       /\ RouterResponse.status this' = RouterResponse.status this
       /\ RouterResponse.statusText this' = RouterResponse.statusText this
       /\ own "Access-Control-Allow-Origin" (RouterResponse.header this')
          = Some (RouterResponse.default_to (VString "*") (get_property "origin" o))
       /\ own "Access-Control-Allow-Methods" (RouterResponse.header this')
          = Some (RouterResponse.default_to
                    (VString "GET, POST, PUT, DELETE, PATCH, OPTIONS")
                    (get_property "methods" o))
       /\ own "Access-Control-Allow-Headers" (RouterResponse.header this')
          = Some (RouterResponse.default_to (VString "*") (get_property "headers" o))
       /\ own "Access-Control-Allow-Credentials" (RouterResponse.header this')
          = (if truthy (RouterResponse.default_to (VBool false)
                          (get_property "credentials" o))
             then Some (VString "true")
             else own "Access-Control-Allow-Credentials" (RouterResponse.header this))
       /\ (forall k,
             k <> "Access-Control-Allow-Origin" -> k <> "Access-Control-Allow-Methods" ->
             k <> "Access-Control-Allow-Headers" -> k <> "Access-Control-Allow-Credentials" ->
             own k (RouterResponse.header this') = own k (RouterResponse.header this))
       /\ RouterResponse.cors this' (VObject o) = Ret this')
    /\ RouterResponse.cors this VUndefined = RouterResponse.cors this (VObject [])
    /\ (exists e, RouterResponse.cors this VNull = Throw e).
Proof.
  intros this o. split; [|split; [reflexivity|eexists; reflexivity]].
  rewrite cors_object. cbv zeta.
  set (origin := RouterResponse.default_to (VString "*") (get_property "origin" o)).
  set (methods := RouterResponse.default_to _ (get_property "methods" o)).
  set (headers := RouterResponse.default_to (VString "*") (get_property "headers" o)).
  assert (N1 : "Access-Control-Allow-Origin" <> "__proto__") by discriminate.
  assert (N2 : "Access-Control-Allow-Methods" <> "__proto__") by discriminate.
  assert (N3 : "Access-Control-Allow-Headers" <> "__proto__") by discriminate.
  assert (N4 : "Access-Control-Allow-Credentials" <> "__proto__") by discriminate.
  assert (K : forall k (t : RouterResponse.t),
            own k (RouterResponse.header
                     (RouterResponse.set_header "Access-Control-Allow-Headers" headers
                        (RouterResponse.set_header "Access-Control-Allow-Methods" methods
                           (RouterResponse.set_header "Access-Control-Allow-Origin" origin t))))
            = if "Access-Control-Allow-Headers" =? k then Some headers
              else if "Access-Control-Allow-Methods" =? k then Some methods
              else if "Access-Control-Allow-Origin" =? k then Some origin
              else own k (RouterResponse.header t)).
  { intros k t. cbn [RouterResponse.header RouterResponse.set_header].
    now rewrite (own_set k _ _ N3), (own_set k _ _ N2), (own_set k _ _ N1). }
  assert (S3 : forall t,
            own "Access-Control-Allow-Origin" (RouterResponse.header t) = Some origin ->
            own "Access-Control-Allow-Methods" (RouterResponse.header t) = Some methods ->
            own "Access-Control-Allow-Headers" (RouterResponse.header t) = Some headers ->
            RouterResponse.set_header "Access-Control-Allow-Headers" headers
              (RouterResponse.set_header "Access-Control-Allow-Methods" methods
                 (RouterResponse.set_header "Access-Control-Allow-Origin" origin t)) = t).
  { intros t H1 H2 H3. now rewrite (set_header_same _ _ H1), (set_header_same _ _ H2),
                         (set_header_same _ _ H3). }
  destruct (truthy (RouterResponse.default_to (VBool false) (get_property "credentials" o)))
    eqn:Ec; (eexists; split; [reflexivity|]).
  - assert (K4 : forall k (t : RouterResponse.t),
              own k (RouterResponse.header
                       (RouterResponse.set_header "Access-Control-Allow-Credentials"
                          (VString "true") t))
              = if "Access-Control-Allow-Credentials" =? k then Some (VString "true")
                else own k (RouterResponse.header t)).
    { intros k t. cbn [RouterResponse.header RouterResponse.set_header].
      now rewrite (own_set k _ _ N4). }
    repeat split.
    + rewrite K4, K. reflexivity.
    + rewrite K4, K. reflexivity.
    + rewrite K4, K. reflexivity.
    + rewrite K4. reflexivity.
    + intros k H1 H2 H3 H4. rewrite K4, K.
      apply not_eq_sym, String.eqb_neq in H1, H2, H3, H4. now rewrite H1, H2, H3, H4.
    + rewrite cors_object. cbv zeta. fold origin methods headers. rewrite Ec.
      rewrite S3 by (rewrite K4, K; reflexivity).
      rewrite set_header_same by (rewrite K4; reflexivity). reflexivity.
  - repeat split.
    + rewrite K. reflexivity.
    + rewrite K. reflexivity.
    + rewrite K. reflexivity.
    + rewrite K. reflexivity.
    + intros k H1 H2 H3 H4. rewrite K.
      apply not_eq_sym, String.eqb_neq in H1, H2, H3. now rewrite H1, H2, H3.
    + rewrite cors_object. cbv zeta. fold origin methods headers. rewrite Ec.
      rewrite S3 by (rewrite K; reflexivity). reflexivity.
Qed.

(** *** The constructor of [Response] behind the materializers *)

Lemma construct_accepted body status statusText headers :
  Response.accepts P (Response.has_body body) status statusText headers = true ->
  Response.construct P body status statusText headers
  = Ret (Response.new body (VNumber (Response.number (Response.code P status)))
           (VString (js_String P statusText)) (Response.header_list P body headers)).
Proof. unfold Response.construct. now intros ->. Qed.

Lemma construct_refused body status statusText headers :
  Response.accepts P (Response.has_body body) status statusText headers = false ->
  Response.construct P body status statusText headers
  = throw_Error (Response_refusal P body status statusText headers).
Proof. unfold Response.construct. now intros ->. Qed.

Lemma construct_returns body status statusText headers r :
  Response.construct P body status statusText headers = Ret r ->
  Response.accepts P (Response.has_body body) status statusText headers = true
  /\ r = Response.new body (VNumber (Response.number (Response.code P status)))
           (VString (js_String P statusText)) (Response.header_list P body headers).
Proof.
  unfold Response.construct.
  destruct (Response.accepts P (Response.has_body body) status statusText headers);
    [|discriminate].
  intro H. inversion H. now split.
Qed.




Lemma own_map_header k o :
  own k (map (Response.header P) o)
  = option_map (fun v => VString (Response.header_value P v)) (own k o).
Proof.
  induction o as [|[k1 v1] o IH]; cbn [map own Response.header fst snd option_map];
    [reflexivity|].
  destruct (k1 =? k); [reflexivity|exact IH].
Qed.

Lemma header_list_typed b h ct :
  Response.header_list P (Some b) (spread h [("Content-Type", VString ct)])
  = map (Response.header P) (define_property "Content-Type" (VString ct) h).
Proof.
  unfold Response.header_list, spread. cbn [fold_left fst snd Response.has_body andb].
  assert (E : existsb (fun kv => Response.same_name (fst kv) "Content-Type")
                (map (Response.header P) (define_property "Content-Type" (VString ct) h))
              = true).
  { apply existsb_exists.
    assert (I : In "Content-Type" (map fst (define_property "Content-Type" (VString ct) h)))
      by (apply define_property_keys; now left).
    apply in_map_iff in I as ([k v] & Hk & Hin). cbn [fst] in Hk. subst k.
    exists (Response.header P ("Content-Type", v)). split; [now apply in_map|reflexivity]. }
  now rewrite E.
Qed.

(** What the three materializers do past their own checks. *)
Lemma materialized (this : RouterResponse.t) ct b :
  Response.normalize ct = ct ->
  if accepted P this ct
  then exists r,
         Response.construct P (Some b)
           (js_or (RouterResponse.status this) (VNumber 200))
           (js_or (RouterResponse.statusText this) (VString "OK"))
           (spread (RouterResponse.header this) [("Content-Type", VString ct)]) = Ret r
         /\ made_from P this ct r /\ Response.body r = Some b
  else Response.construct P (Some b)
         (js_or (RouterResponse.status this) (VNumber 200))
         (js_or (RouterResponse.statusText this) (VString "OK"))
         (spread (RouterResponse.header this) [("Content-Type", VString ct)])
       = throw_Error (refusal P this b ct).
Proof.
  intro Hct. unfold accepted.
  destruct (Response.accepts P true _ _ _) eqn:A.
  - eexists. split; [apply construct_accepted; exact A|].
    split; [|reflexivity]. unfold made_from.
    cbn [Response.status Response.statusText Response.headers].
    split; [reflexivity|]. split; [reflexivity|]. rewrite header_list_typed. split.
    + rewrite own_map_header, MatchFacts.own_define, String.eqb_refl. cbn [option_map].
      unfold Response.header_value. cbn [js_String]. now rewrite Hct.
    + intros k Hk. rewrite own_map_header, MatchFacts.own_define.
      apply not_eq_sym, String.eqb_neq in Hk. now rewrite Hk.
  - apply construct_refused. exact A.
Qed.


Lemma materializers_outcome (this : RouterResponse.t) body :
  (if accepted P this "text/plain"
   then exists r, RouterResponse.text P this body = Ret r
                  /\ made_from P this "text/plain" r
                  /\ Response.body r = Some (text_of P body)
   else RouterResponse.text P this body
        = throw_Error ("Failed to create text response: "
                       ++ refusal P this (text_of P body) "text/plain"))
  /\ (if accepted P this "text/html"
      then exists r, RouterResponse.html P this body = Ret r
                     /\ made_from P this "text/html" r
                     /\ Response.body r = Some (text_of P body)
      else RouterResponse.html P this body
           = throw_Error ("Failed to create HTML response: "
                          ++ refusal P this (text_of P body) "text/html"))
  /\ (body <> VUndefined ->
        exists s,
          JSON_stringify P body = Some s
          /\ if accepted P this "application/json"
             then exists r, RouterResponse.json P this body = Ret r
                            /\ made_from P this "application/json" r
                            /\ Response.body r = Some s
             else RouterResponse.json P this body
                  = throw_Error ("Failed to serialize response to JSON: "
                                 ++ refusal P this s "application/json")).
Proof.
  split; [|split].
  - pose proof (@materialized this "text/plain" (text_of P body) eq_refl) as M.
    unfold RouterResponse.text. fold (text_of P body).
    destruct (accepted P this "text/plain").
    + destruct M as (r & E & F & B). exists r. rewrite E. now split.
    + rewrite M. reflexivity.
  - pose proof (@materialized this "text/html" (text_of P body) eq_refl) as M.
    unfold RouterResponse.html. fold (text_of P body).
    destruct (accepted P this "text/html").
    + destruct M as (r & E & F & B). exists r. rewrite E. now split.
    + rewrite M. reflexivity.
  - intro Hb.
    assert (S : exists s, JSON_stringify P body = Some s)
      by (destruct body; try congruence; eexists; reflexivity).
    destruct S as [s Hs]. exists s. split; [exact Hs|].
    pose proof (@materialized this "application/json" s eq_refl) as M.
    assert (J : RouterResponse.json P this body
                = try_catch
                    (Response.construct P (Some s)
                       (js_or (RouterResponse.status this) (VNumber 200))
                       (js_or (RouterResponse.statusText this) (VString "OK"))
                       (spread (RouterResponse.header this)
                          [("Content-Type", VString "application/json")]))
                    (fun err =>
                       m <- message_of err ;;
                       throw_Error ("Failed to serialize response to JSON: "
                                    ++ js_String P m)))
      by (unfold RouterResponse.json; rewrite Hs; destruct body; try congruence; reflexivity).
    rewrite J. destruct (accepted P this "application/json").
    + destruct M as (r & E & F & B). exists r. rewrite E. now split.
    + rewrite M. reflexivity.
Qed.


Lemma integer_status n :
  100 <= n <= 599 ->
  truthy (VNumber (WriteHead.number n)) = true
  /\ Response.to_unsigned_short (WriteHead.number n) = Z.of_nat n.
Proof.
  intro Hn.
  assert (A : forallb (fun n => truthy (VNumber (WriteHead.number n))
                                && Z.eqb (Response.to_unsigned_short (WriteHead.number n))
                                     (Z.of_nat n))
                (seq 100 500) = true) by (vm_compute; reflexivity).
  rewrite forallb_forall in A.
  assert (I : In n (seq 100 500)) by (apply in_seq; lia).
  specialize (A n I). apply andb_true_iff in A as [A1 A2].
  apply Z.eqb_eq in A2. now split.
Qed.

Lemma bodiless_spec n :
  100 <= n <= 599 ->
  Response.is_ok_status (Z.of_nat n) && negb (Response.is_null_body_status (Z.of_nat n))
  = negb (bodiless n).
Proof.
  intro Hn.
  assert (A : forallb (fun n => Bool.eqb
                                  (Response.is_ok_status (Z.of_nat n)
                                   && negb (Response.is_null_body_status (Z.of_nat n)))
                                  (negb (bodiless n)))
                (seq 100 500) = true) by (vm_compute; reflexivity).
  rewrite forallb_forall in A.
  assert (I : In n (seq 100 500)) by (apply in_seq; lia).
  apply Bool.eqb_prop. exact (A n I).
Qed.

(** X11. [writeHead] takes every integer status from 100 to 599, but a
    response is made only with those [new Response] takes: after
    [writeHead(n, ...)] with [n] below 200, or 204, 205 or 304, each
    materializer throws its own error (for [json], on a body other than
    [undefined]); with any other [n] a materializer that returns answers with
    the status [n], and with the status text given when there is one and
    "OK" when it is omitted or empty: the empty status text [writeHead]
    stores never reaches a response. *)
Theorem writeHead_status_reaches_response :
  forall this n statusText headers this' body,
    100 <= n <= 599 ->
    RouterResponse.writeHead this (VNumber (WriteHead.number n)) statusText headers
    = Ret this' ->
    (bodiless n = true ->
       (exists m, RouterResponse.text P this' body
                  = throw_Error ("Failed to create text response: " ++ m))
       /\ (exists m, RouterResponse.html P this' body
                     = throw_Error ("Failed to create HTML response: " ++ m))
       /\ (exists m, RouterResponse.json P this' body
                     = throw_Error ("Failed to serialize response to JSON: " ++ m)))
    /\ (bodiless n = false ->
          forall r,
            In (Ret r) [RouterResponse.text P this' body; RouterResponse.html P this' body;
                        RouterResponse.json P this' body] ->
            Response.status r = VNumber (WriteHead.number n)
            /\ Response.statusText r
               = (if truthy statusText then statusText else VString "OK")).
Proof.
  intros this n statusText headers this' body Hn H.
  destruct (integer_status Hn) as [Ht Hc]. pose proof (bodiless_spec Hn) as Hb.
  unfold RouterResponse.writeHead in H.
  destruct (negb (js_type_eqb (typeof (VNumber (WriteHead.number n))) TNumber)
            || RouterResponse.out_of_range (VNumber (WriteHead.number n))); [discriminate|].
  destruct (truthy statusText && negb (js_type_eqb (typeof statusText) TString)) eqn:Es;
    [discriminate|].
  destruct (truthy headers && negb (js_type_eqb (typeof headers) TObject));
    [discriminate|].
  inversion H as [E]. clear H. subst this'.
  set (t := {| RouterResponse.header := _ |}).
  assert (St : js_or (RouterResponse.status t) (VNumber 200)
               = VNumber (WriteHead.number n))
    by (unfold js_or; cbn [RouterResponse.status t]; now rewrite Ht).
  assert (Tx : VString (js_String P (js_or (RouterResponse.statusText t) (VString "OK")))
               = if truthy statusText then statusText else VString "OK").
  { cbn [RouterResponse.statusText t]. unfold js_or.
    destruct (truthy statusText) eqn:Et.
    - rewrite Et. destruct statusText; try discriminate Es. reflexivity.
    - reflexivity. }
  assert (Co : forall ct, accepted P t ct = true -> bodiless n = false).
  { intros ct A. unfold accepted, Response.accepts in A. rewrite St in A.
    unfold Response.code in A. cbn [Response.ToNumber] in A. rewrite Hc in A.
    apply andb_true_iff in A as [A A4]. apply andb_true_iff in A as [A _].
    apply andb_true_iff in A as [A1 _]. cbn [andb] in A4.
    rewrite A1, A4 in Hb. cbn [andb] in Hb. now apply negb_true_iff. }
  pose proof (materializers_outcome t body) as M.
  destruct M as (Mt & Mh & Mj). split.
  - intro B.
    assert (R : forall ct, accepted P t ct = false).
    { intro ct. destruct (accepted P t ct) eqn:A; [|reflexivity].
      rewrite (Co ct A) in B. discriminate. }
    rewrite (R "text/plain") in Mt. rewrite (R "text/html") in Mh.
    split; [eexists; exact Mt|]. split; [eexists; exact Mh|].
    destruct body; try (specialize (Mj ltac:(discriminate)); destruct Mj as (j & _ & Mj);
                        rewrite (R "application/json") in Mj; eexists; exact Mj).
    eexists. reflexivity.
  - intros B r Hr.
    assert (G : exists ct, made_from P t ct r).
    { destruct Hr as [Hr|[Hr|[Hr|[]]]].
      - destruct (accepted P t "text/plain").
        + destruct Mt as (r' & E' & F & _). rewrite E' in Hr. inversion Hr; subst. eauto.
        + rewrite Mt in Hr. discriminate.
      - destruct (accepted P t "text/html").
        + destruct Mh as (r' & E' & F & _). rewrite E' in Hr. inversion Hr; subst. eauto.
        + rewrite Mh in Hr. discriminate.
      - destruct body; try (specialize (Mj ltac:(discriminate)); destruct Mj as (j & _ & Mj);
                            destruct (accepted P t "application/json");
                            [destruct Mj as (r' & E' & F & _); rewrite E' in Hr;
                             inversion Hr; subst; eauto
                            |rewrite Mj in Hr; discriminate]). }
    destruct G as (ct & F1 & F2 & _). rewrite F1, F2, St, Tx.
    unfold Response.code. cbn [Response.ToNumber]. rewrite Hc. now split.
Qed.

(** X22. The error responses of [fetch] are what [new Response] makes of
    their arguments: for the statuses 400, 404 and 500, a status text that is
    a reason phrase and any message, the constructor accepts the body, the
    status, the text and the two headers of [_errorResponse] and returns the
    response as it is written, so that building an error response never
    throws. *)
Theorem errorResponse_is_constructed :
  forall status statusText message,
    In status [400; 404; 500]%float ->
    Response.is_reason_phrase statusText = true ->
    Response.construct P
      (JSON_stringify P (VObject (Router.error_body status statusText message)))
      (VNumber status) (VString statusText) Router.json_headers
    = Ret (Router._errorResponse P status statusText message).
Proof.
  intros status statusText message Hs Ht.
  unfold Response.construct, Response.accepts, Router._errorResponse.
  cbn [JSON_stringify Response.has_body js_String]. rewrite Ht.
  destruct Hs as [<-|[<-|[<-|[]]]]; reflexivity.
Qed.

End MoreBuilder.

(** ** The request wrapper: what the constructor builds, what the readers give *)

Section MoreRequests.
Import Programs.
Variable P : Platform.

Lemma or_null_spec v :
  RouterRequest.or_null v = VNull \/ truthy (RouterRequest.or_null v) = true.
Proof.
  unfold RouterRequest.or_null, js_or. destruct (truthy v) eqn:E; [right; exact E|now left].
Qed.

Lemma last_value_capture k l : last_value k l = Segments.last_capture k l.
Proof.
  induction l as [|[k' v] l IH]; cbn [last_value Segments.last_capture]; [reflexivity|].
  now rewrite IH.
Qed.

Lemma own_proto_bindings l : forall acc,
  own "__proto__"
    (fold_left (fun q kv => set_property (fst kv) (VString (snd kv)) q) l acc)
  = own "__proto__" acc.
Proof.
  induction l as [|[k v] l IH]; intro acc; cbn [fold_left fst snd]; [reflexivity|].
  rewrite IH. unfold set_property.
  destruct (String.eqb_spec k "__proto__") as [->|N]; [reflexivity|].
  rewrite MatchFacts.own_define. now rewrite (proj2 (String.eqb_neq _ _) N).
Qed.

Lemma build_shape r req :
  RouterRequest.build P r = Ret req ->
  map fst (RouterRequest.client req) = client_fields
  /\ Forall (fun kv => snd kv = VNull \/ truthy (snd kv) = true) (RouterRequest.client req)
  /\ RouterRequest.params req = VUndefined
  /\ RouterRequest.expando req = []
  /\ RouterRequest.request req = r
  /\ RouterRequest.method req = raw_method r
  /\ URL_parse P (js_String P (raw_url r)) = Ret (RouterRequest.url req)
  /\ RouterRequest.query req
     = fold_left (fun q kv => set_property (fst kv) (VString (snd kv)) q)
         (searchParams (RouterRequest.url req)) [].
Proof.
  unfold RouterRequest.build. cbv zeta.
  destruct (match raw_headers r with
            | Some get => get "cf-connecting-ip"
            | None => Ret VUndefined
            end) as [ip|e]; cbn [bind]; [|discriminate].
  destruct (URL_parse P (js_String P (raw_url r))) as [u|e]; cbn [bind]; [|discriminate].
  intro H. inversion H. clear H.
  cbn [RouterRequest.client RouterRequest.params RouterRequest.expando RouterRequest.request
       RouterRequest.method RouterRequest.url RouterRequest.query map fst].
  split; [reflexivity|]. split; [|repeat split].
  repeat (constructor; [cbn [snd]; apply or_null_spec|]). constructor.
Qed.

(** X12. What the constructor of the wrapper builds, whenever it returns:
    [client] has the sixteen fields of the source in their order, each
    [null] or a truthy value, so that [false], 0, the empty string and
    [undefined] never show; [params] is not set; [method] is the method of
    the request and [url] its parsed URL; and [query] maps every key of the
    search parameters to the last value given for it, except the key
    [__proto__], which is never an own property of [query]. *)
Theorem constructor_client_and_query :
  forall request req,
    RouterRequest.constructor P request = Ret req ->
    map fst (RouterRequest.client req) = client_fields
    /\ Forall (fun kv => snd kv = VNull \/ truthy (snd kv) = true) (RouterRequest.client req)
    /\ RouterRequest.params req = VUndefined
    /\ RouterRequest.method req = Router.request_method request
    /\ URL_parse P (js_String P (Router.request_url request)) = Ret (RouterRequest.url req)
    /\ forall k,
         own k (RouterRequest.query req)
         = if k =? "__proto__" then None
           else option_map VString (last_value k (searchParams (RouterRequest.url req))).
Proof.
  intros request req H.
  assert (B : exists r, RouterRequest.build P r = Ret req
                        /\ raw_method r = Router.request_method request
                        /\ raw_url r = Router.request_url request).
  { destruct request as [v|r]; cbn [RouterRequest.constructor] in H.
    - destruct (negb (truthy v)); [discriminate|]. exists primitive_request. now split.
    - exists r. now split. }
  destruct B as (r & B & Hm & Hu).
  destruct (@build_shape r req B) as (F & T & Hp & _ & _ & M & U & Q).
  split; [exact F|]. split; [exact T|]. split; [exact Hp|].
  split; [now rewrite M|]. split; [now rewrite <- Hu|].
  intro k. rewrite Q. destruct (String.eqb_spec k "__proto__") as [->|N].
  - apply own_proto_bindings.
  - rewrite last_value_capture, (MatchFacts.own_bindings _ N).
    destruct (Segments.last_capture k _); reflexivity.
Qed.

Lemma try_catch_throws A (c : completion A) h :
  (forall e, exists m, h e = Throw (VError m)) ->
  forall e, try_catch c h = Throw e -> exists m, e = VError m.
Proof.
  intros Hh e. destruct c as [a|e0]; cbn [try_catch]; [discriminate|].
  destruct (Hh e0) as [m Hm]. rewrite Hm. intro H. inversion H. eauto.
Qed.

Lemma try_catch_returns A (c : completion A) h a :
  (forall e, exists m, h e = Throw (VError m)) ->
  try_catch c h = Ret a <-> c = Ret a.
Proof.
  intros Hh. destruct c as [a0|e0]; cbn [try_catch]; [tauto|].
  destruct (Hh e0) as [m Hm]. rewrite Hm. split; discriminate.
Qed.

Lemma wrap_throws (A : Type) prefix e :
  exists m,
    (m <- message_of e ;; throw_Error (prefix ++ js_String P m) : completion A)
    = Throw (VError m).
Proof. destruct e; cbn [message_of prop bind]; eexists; reflexivity. Qed.

Lemma json_catch_throws e :
  exists m,
    (m <- message_of e ;;
     b <- RouterRequest.message_includes_JSON m ;;
     if b then throw_Error ("Invalid JSON format: " ++ js_String P m)
     else throw_Error ("Failed to parse request body as JSON: " ++ js_String P m)
     : completion value)
    = Throw (VError m).
Proof.
  assert (G : forall m, exists m',
            (b <- RouterRequest.message_includes_JSON m ;;
             if b then throw_Error ("Invalid JSON format: " ++ js_String P m)
             else throw_Error ("Failed to parse request body as JSON: " ++ js_String P m)
             : completion value)
            = Throw (VError m')).
  { intro m. destruct m; cbn [RouterRequest.message_includes_JSON bind];
      try (eexists; reflexivity);
      match goal with |- context [if ?b then _ else _] => destruct b end;
      eexists; reflexivity. }
  destruct e; cbn [message_of prop bind]; try (eexists; reflexivity); apply G.
Qed.

Lemma text_returns (this : RouterRequest.t) s :
  RouterRequest.text P this = Ret s
  <-> raw_text (RouterRequest.request this) = Ret s
      /\ (RouterRequest.length s <= RouterRequest.max_length)%N.
Proof.
  unfold RouterRequest.text. rewrite try_catch_returns by (intro; apply wrap_throws).
  destruct (raw_text (RouterRequest.request this)) as [s0|e]; cbn [bind].
  - destruct (N.ltb_spec RouterRequest.max_length (RouterRequest.length s0)) as [L|L].
    + split; [discriminate|]. intros [E Hl]. inversion E; subst. lia.
    + split; [intro E; inversion E; subst; now split|]. intros [E _]. exact E.
  - split; [discriminate|]. intros [E _]. discriminate.
Qed.

(** X13. The body readers return only what the transport read: [text()]
    returns a text exactly when the transport gave it and it is no longer
    than 1 MiB; [json()] returns a value exactly when that text is no longer
    than 1 MiB, is not blank, and [JSON.parse] returned the value;
    [formdata()] returns exactly what the transport's reader returned, and
    wraps the message of its failure. Whatever the transport or the parser
    throw, what the three readers throw is an Error object. *)
Theorem readers_return_and_throw :
  forall this : RouterRequest.t,
    (forall s, RouterRequest.text P this = Ret s
               <-> raw_text (RouterRequest.request this) = Ret s
                   /\ (RouterRequest.length s <= RouterRequest.max_length)%N)
    /\ (forall v, RouterRequest.json P this = Ret v
                  <-> exists s, raw_text (RouterRequest.request this) = Ret s
                                /\ (RouterRequest.length s <= RouterRequest.max_length)%N
                                /\ blank s = false /\ JSON_parse P s = Ret v)
    /\ (forall v, RouterRequest.formdata P this = Ret v
                  <-> raw_formData (RouterRequest.request this) = Ret v)
    /\ (forall m, raw_formData (RouterRequest.request this) = Throw (VError m) ->
                  RouterRequest.formdata P this
                  = throw_Error ("Failed to parse request body as form data: " ++ m))
    /\ (forall e, RouterRequest.text P this = Throw e \/ RouterRequest.json P this = Throw e
                  \/ RouterRequest.formdata P this = Throw e ->
                  exists m, e = VError m).
Proof.
  intro this. split; [apply text_returns|]. split; [|split; [|split]].
  - intro v. unfold RouterRequest.json.
    rewrite try_catch_returns by (intro; apply json_catch_throws).
    destruct (RouterRequest.text P this) as [s|e] eqn:Et; cbn [bind].
    + apply text_returns in Et as [Er Hl]. split.
      * destruct (blank s) eqn:Eb; [discriminate|]. intro H. exists s. auto.
      * intros (s' & Er' & _ & Eb & Hv). rewrite Er in Er'. inversion Er'; subst.
        now rewrite Eb.
    + split; [discriminate|]. intros (s & Er & Hl & _).
      rewrite (proj2 (text_returns this s) (conj Er Hl)) in Et. discriminate.
  - intro v. unfold RouterRequest.formdata.
    apply try_catch_returns. intro. apply wrap_throws.
  - intros m H. unfold RouterRequest.formdata. rewrite H. reflexivity.
  - intros e [H|[H|H]]; revert H.
    + apply try_catch_throws. intro. apply wrap_throws.
    + apply try_catch_throws. intro. apply json_catch_throws.
    + apply try_catch_throws. intro. apply wrap_throws.
Qed.

End MoreRequests.

(** ** The example applications *)

Section MoreApplications.
Import Router Programs.
Variable P : Platform.
Variable World : Type.

Lemma literal_match (conforms : regexp_conforms P) pattern pathname :
  Segments.plain pattern = true -> Segments.no_colon pattern = true ->
  _matchRoute P pattern pathname = Ret (if pattern =? pathname then Some [] else None).
Proof.
  intros Hp Hc. rewrite (MatchFacts.matchRoute_segments conforms pattern pathname Hp).
  now rewrite (@MatchFacts.segment_match_literal pattern pathname Hc).
Qed.

Lemma admitted_request (r : RawRequest) u req0 :
  admitted P (Raw r) u req0 ->
  RouterRequest.request req0 = r /\ RouterRequest.url req0 = u.
Proof.
  intros (_ & _ & Hu & Hc). cbn [RouterRequest.constructor] in Hc.
  destruct (@build_shape P r req0 Hc) as (_ & _ & _ & _ & Hr & _ & U & _).
  split; [exact Hr|]. cbn [request_url] in Hu. rewrite Hu in U. now inversion U.
Qed.

(** X14. The application of examples/router_1.js. Its three registrations
    succeed, and on a platform with conforming regular expressions it answers
    every request it lets in as follows: GET "/" with the text "SAMPLE GET
    REQ"; POST "/" with "SAMPLE POST REQ", after the match attempt on the GET
    route of the same path; POST "/echo" with the very text of the body when
    it is no longer than 1 MiB, and with the 500 response of the size-limit
    error otherwise; every other method and path with 404, after three match
    attempts. *)
Theorem router_1_answers :
  regexp_conforms P ->
  exists app,
    router_1 P World = Ret app
    /\ forall r u req0 env ctx (w : World),
         admitted P (Raw r) u req0 ->
         world (fetch P app (Raw r) env ctx w) = w
         /\ (raw_method r = VString "GET" -> pathname u = "/" ->
               completed (fetch P app (Raw r) env ctx w)
               = Ret (Materialized (text_response "SAMPLE GET REQ"))
               /\ log (fetch P app (Raw r) env ctx w) = [Matching 0; Handler 0])
         /\ (raw_method r = VString "POST" -> pathname u = "/" ->
               completed (fetch P app (Raw r) env ctx w)
               = Ret (Materialized (text_response "SAMPLE POST REQ"))
               /\ log (fetch P app (Raw r) env ctx w)
                  = [Matching 0; Matching 1; Handler 1])
         /\ (raw_method r = VString "POST" -> pathname u = "/echo" ->
               forall content, raw_text r = Ret content ->
               completed (fetch P app (Raw r) env ctx w)
               = Ret (Materialized
                        (if N.ltb RouterRequest.max_length (RouterRequest.length content)
                         then failure_response P "Internal Server Error"
                                (VError (Messages.text_prefix ++ Messages.too_large))
                         else text_response content))
               /\ log (fetch P app (Raw r) env ctx w)
                  = [Matching 0; Matching 1; Matching 2; Handler 2])
         /\ (~ In (raw_method r, pathname u)
                  [(VString "GET", "/"); (VString "POST", "/"); (VString "POST", "/echo")] ->
               fetch P app (Raw r) env ctx w = not_found P 0 3 (Raw r) (pathname u) w).
Proof.
  intro conforms.
  set (r0 := {| url := "/"; callback_of := sample_get P (World := World); method_of := GET |}).
  set (r1 := {| url := "/"; callback_of := sample_post P (World := World); method_of := POST |}).
  set (r2 := {| url := "/echo"; callback_of := echo P (World := World); method_of := POST |}).
  exists {| routes := [r0; r1; r2]; middlewares := [] |}. split; [reflexivity|].
  intros r u req0 env ctx w Ha.
  set (app := {| routes := [r0; r1; r2]; middlewares := [] |}).
  assert (Hp : pass (middlewares app) req0 RouterResponse.constructor env ctx w
               = Some (req0, RouterResponse.constructor, w)) by reflexivity.
  assert (M0 : forall path, _matchRoute P "/" path
                            = Ret (if "/" =? path then Some [] else None))
    by (intro; now apply literal_match).
  assert (M2 : forall path, _matchRoute P "/echo" path
                            = Ret (if "/echo" =? path then Some [] else None))
    by (intro; now apply literal_match).
  assert (Cases :
    (raw_method r = VString "GET" /\ pathname u = "/"
     /\ fetch P app (Raw r) env ctx w
        = taken P 0 0 r0 [] req0 RouterResponse.constructor env ctx w)
    \/ (raw_method r = VString "POST" /\ pathname u = "/"
        /\ fetch P app (Raw r) env ctx w
           = taken P 0 1 r1 [] req0 RouterResponse.constructor env ctx w)
    \/ (raw_method r = VString "POST" /\ pathname u = "/echo"
        /\ fetch P app (Raw r) env ctx w
           = taken P 0 2 r2 [] req0 RouterResponse.constructor env ctx w)
    \/ (~ In (raw_method r, pathname u)
             [(VString "GET", "/"); (VString "POST", "/"); (VString "POST", "/echo")]
        /\ fetch P app (Raw r) env ctx w = not_found P 0 3 (Raw r) (pathname u) w)).
  { destruct (String.eqb_spec "/" (pathname u)) as [E0|N0].
    - destruct (strict_equal GET (raw_method r)) eqn:Eg.
      + left. destruct (raw_method r) as [| | | |s| | |] eqn:Em; try discriminate.
        cbn [strict_equal method_name] in Eg. apply String.eqb_eq in Eg. subst s.
        split; [reflexivity|]. split; [now symmetry|].
        apply (@fetch_route_taken P World app (Raw r) env ctx w u req0 req0
                 RouterResponse.constructor w [] r0 [r1; r2] [] Ha Hp eq_refl eq_refl).
        * cbn [url r0]. rewrite M0, <- E0. reflexivity.
        * cbn [request_method method_of r0]. now rewrite Em.
      + destruct (strict_equal POST (raw_method r)) eqn:Ep.
        * right; left. destruct (raw_method r) as [| | | |s| | |] eqn:Em; try discriminate.
          cbn [strict_equal method_name] in Ep. apply String.eqb_eq in Ep. subst s.
          split; [reflexivity|]. split; [now symmetry|].
          apply (@fetch_route_taken P World app (Raw r) env ctx w u req0 req0
                   RouterResponse.constructor w [r0] r1 [r2] [] Ha Hp eq_refl).
          -- cbn [unmatched url method_of r0 request_method]. rewrite M0, <- E0, Em.
             reflexivity.
          -- cbn [url r1]. rewrite M0, <- E0. reflexivity.
          -- cbn [request_method method_of r1]. now rewrite Em.
        * right; right; right. split.
          -- intros [H|[H|[H|[]]]]; inversion H as [[Hm Hu]]; rewrite <- Hm in *;
               discriminate.
          -- apply (@fetch_no_route P World app (Raw r) env ctx w u req0 req0
                      RouterResponse.constructor w Ha Hp).
             cbn [unmatched routes app url method_of r0 r1 r2 request_method].
             rewrite !M0, M2, <- E0, Eg, Ep. reflexivity.
    - destruct (String.eqb_spec "/echo" (pathname u)) as [E2|N2].
      + destruct (strict_equal POST (raw_method r)) eqn:Ep.
        * right; right; left.
          destruct (raw_method r) as [| | | |s| | |] eqn:Em; try discriminate.
          cbn [strict_equal method_name] in Ep. apply String.eqb_eq in Ep. subst s.
          split; [reflexivity|]. split; [now symmetry|].
          apply (@fetch_route_taken P World app (Raw r) env ctx w u req0 req0
                   RouterResponse.constructor w [r0; r1] r2 [] [] Ha Hp eq_refl).
          -- cbn [unmatched url method_of r0 r1 request_method]. rewrite !M0, <- E2.
             reflexivity.
          -- cbn [url r2]. rewrite M2, <- E2. reflexivity.
          -- cbn [request_method method_of r2]. now rewrite Em.
        * right; right; right. split.
          -- intros [H|[H|[H|[]]]]; inversion H as [[Hm Hu]]; try congruence.
             rewrite <- Hm in Ep. discriminate.
          -- apply (@fetch_no_route P World app (Raw r) env ctx w u req0 req0
                      RouterResponse.constructor w Ha Hp).
             cbn [unmatched routes app url method_of r0 r1 r2 request_method].
             rewrite !M0, M2, <- E2, Ep. reflexivity.
      + right; right; right. split.
        * intros [H|[H|[H|[]]]]; inversion H as [[Hm Hu]]; congruence.
        * apply (@fetch_no_route P World app (Raw r) env ctx w u req0 req0
                   RouterResponse.constructor w Ha Hp).
          cbn [unmatched routes app url method_of r0 r1 r2 request_method].
          rewrite !M0, M2.
          rewrite (proj2 (String.eqb_neq _ _) N0), (proj2 (String.eqb_neq _ _) N2).
          reflexivity. }
  destruct (admitted_request Ha) as [Hreq _].
  destruct Cases as [(Em & Eu & F)|[(Em & Eu & F)|[(Em & Eu & F)|(Hn & F)]]]; rewrite F.
  - split; [reflexivity|]. split; [intros _ _; split; reflexivity|].
    split; [intros H; rewrite Em in H; discriminate|].
    split; [intros H; rewrite Em in H; discriminate|].
    intro H. elim H. rewrite Em, Eu. now left.
  - split; [reflexivity|]. split; [intros H; rewrite Em in H; discriminate|].
    split; [intros _ _; split; reflexivity|].
    split; [intros _ H; rewrite Eu in H; discriminate|].
    intro H. elim H. rewrite Em, Eu. right. now left.
  - assert (T : RouterRequest.text P (RouterRequest.with_params (VObject []) req0)
                = RouterRequest.text P req0) by reflexivity.
    split; [reflexivity|]. split; [intros H; rewrite Em in H; discriminate|].
    split; [intros _ H; rewrite Eu in H; discriminate|].
    split.
    + intros _ _ content Hc. split; [|reflexivity].
      unfold taken. cbn [completed r2 callback_of echo answer returned]. rewrite T.
      unfold RouterRequest.text. rewrite Hreq, Hc. cbn [bind].
      destruct (N.ltb RouterRequest.max_length (RouterRequest.length content));
        reflexivity.
    + intro H. elim H. rewrite Em, Eu. right. right. now left.
  - split; [reflexivity|]. split; [intros Hm Hu; elim Hn; rewrite Hm, Hu; now left|].
    split; [intros Hm Hu; elim Hn; rewrite Hm, Hu; right; now left|].
    split; [intros Hm Hu; elim Hn; rewrite Hm, Hu; right; right; now left|].
    intros _. reflexivity.
Qed.

End MoreApplications.

(** ** The handlers of examples/enhanced-router.js *)

Section MoreHandlers.
Import Router Programs.
Variable P : Platform.
Variable World : Type.











End MoreHandlers.

(** ** Methods no registration operation knows *)

Section MoreMethods.
Import Router Programs.
Variable P : Platform.
Variable World : Type.

(** X19. The method of a request is compared as it stands with the six
    names the registration operations use. A request with any other method,
    HEAD or a lower-case "get" for instance, is taken by no route, whatever
    the table holds: once it is let in and the middleware have passed, it is
    answered with 404 after a match attempt on every route (none of which
    throws). *)
Theorem unregistered_method_not_found :
  forall (this : t World) request env ctx w u req0 req1 res1 w1,
    admitted P request u req0 ->
    pass (middlewares this) req0 RouterResponse.constructor env ctx w = Some (req1, res1, w1) ->
    (forall m, request_method request <> VString (method_name m)) ->
    Forall (fun r => exists o, _matchRoute P (url r) (pathname u) = Ret o) (routes this) ->
    fetch P this request env ctx w
    = not_found P (length (middlewares this)) (length (routes this)) request (pathname u) w1.
Proof.
  intros this request env ctx w u req0 req1 res1 w1 Ha Hp Hm Hr.
  apply (@fetch_no_route P World this request env ctx w u req0 req1 res1 w1 Ha Hp).
  induction Hr as [|r rs [o Ho] _ IH]; cbn [unmatched]; [reflexivity|].
  rewrite Ho. destruct o as [params|]; [|exact IH].
  rewrite IH, andb_true_r. apply negb_true_iff, not_true_is_false.
  destruct (request_method request) as [| | | |s| | |] eqn:E; cbn [strict_equal];
    try discriminate.
  rewrite String.eqb_eq. intro H. apply (Hm (method_of r)). now rewrite H.
Qed.

End MoreMethods.

(** ** Samples of the further properties *)

Module MoreInstances.
Import Router Samples Programs.

(** X3 on a sample: the three registrations of examples/router_1.js. *)
Lemma register_all_in_call_order_witness :
  register_all (router [] [])
    (map (@registration counter)
       [(GET, "/", counting); (POST, "/", counting); (POST, "/echo", counting)])
  = Ret (router [] [(GET, "/", counting); (POST, "/", counting); (POST, "/echo", counting)]).
Proof.
  refine (proj1 (register_all_in_call_order counter)
            [(GET, "/", counting); (POST, "/", counting); (POST, "/echo", counting)]
            (router [] []) _ _).
  - repeat constructor; discriminate.
  - repeat constructor; cbn [In]; intuition discriminate.
Defined.

(** X4 on a sample: the second route is the first of the method GET. *)
Lemma fetch_takes_first_matching_route_witness :
  log (fetch Host.platform counted sample VUndefined VUndefined 0)
  = [Middleware 0; Middleware 1; Matching 0; Matching 1; Handler 1]
  /\ world (fetch Host.platform counted sample VUndefined VUndefined 0) = 3.
Proof.
  rewrite (@fetch_takes_first_matching_route Host.platform counter MatchFacts.host_conforms
             counted sample VUndefined VUndefined 0 _ _ _ _ _
             ltac:(repeat constructor)
             (conj eq_refl (conj eq_refl (conj eq_refl eq_refl))) eq_refl).
  split; reflexivity.
Defined.

(** X5 on a sample: a third route whose pattern is no regular expression
    changes nothing for a request the second route takes. *)
Lemma routes_after_the_match_are_ignored_witness :
  fetch Host.platform counted sample VUndefined VUndefined 0
  = fetch Host.platform
      (router [counting; counting]
         [(POST, "/users/:id", counting); (GET, "/users/:id", echoing);
          (GET, "/(", counting)])
      sample VUndefined VUndefined 0.
Proof.
  refine (proj1 (@routes_after_the_match_are_ignored Host.platform counter
                   counted
                   (router [counting; counting]
                      [(POST, "/users/:id", counting); (GET, "/users/:id", echoing);
                       (GET, "/(", counting)])
                   sample VUndefined VUndefined 0 _ _ _ _ _
                   [_] _ [] [_] [("id", VString "7")]
                   (conj eq_refl (conj eq_refl (conj eq_refl eq_refl)))
                   eq_refl eq_refl eq_refl eq_refl eq_refl eq_refl eq_refl)).
Defined.

(** X6 on a sample: the second of three middleware throws. *)
Lemma middleware_failure_stops_dispatch_witness :
  fetch Host.platform
    (router [counting; throwing "denied"; counting] [(GET, "/users/:id", echoing)])
    sample VUndefined VUndefined 0
  = {| completed :=
         Ret (Materialized
                (failure_response Host.platform "Middleware Error" (VError "denied")));
       world := 2;
       log := [Middleware 0; Middleware 1] |}.
Proof.
  refine (@middleware_failure_stops_dispatch Host.platform counter
            (router [counting; throwing "denied"; counting] [(GET, "/users/:id", echoing)])
            sample VUndefined VUndefined 0 _ _
            [counting] (throwing "denied") [counting] _ _ _ (VError "denied")
            (conj eq_refl (conj eq_refl (conj eq_refl eq_refl)))
            eq_refl eq_refl eq_refl).
Defined.

(** X7 on a sample: a pattern that names the same parameter twice gives one
    property. *)
Lemma matchRoute_params_are_declared_witness :
  _matchRoute Host.platform "/:a/:a" "/x/y" = Ret (Some [("a", VString "y")])
  /\ NoDup (map fst [("a", VString "y")])
  /\ length [("a", VString "y")] <= length (fst (replace "/:a/:a" false)).
Proof.
  split; [reflexivity|].
  pose proof (@matchRoute_params_are_declared Host.platform "/:a/:a" "/x/y"
                [("a", VString "y")] eq_refl) as (D & _ & L & _).
  split; [exact D|exact L].
Defined.

(** X8 on a sample. *)
Lemma matchRoute_captures_are_segments_witness :
  slashes "/users/:id" = slashes "/users/7"
  /\ exists s seg pre,
       VString "7" = VString s /\ s <> "" /\ slashes s = 0
       /\ In seg (Segments.split "/users/7") /\ seg = pre ++ s.
Proof.
  pose proof (@matchRoute_captures_are_segments Host.platform "/users/:id" "/users/7"
                [("id", VString "7")] MatchFacts.host_conforms eq_refl eq_refl) as (S & V).
  split; [exact S|exact (V "id" (VString "7") eq_refl)].
Defined.

(** X11 on samples: [writeHead(100)] and [writeHead(404)] on a fresh builder,
    each followed by [text("gone")]. *)
Lemma writeHead_status_reaches_response_witness :
  (exists m,
     RouterResponse.text Host.platform
       {| RouterResponse.header := RouterResponse.header RouterResponse.constructor;
          RouterResponse.status := VNumber 100;
          RouterResponse.statusText := VString "" |} (VString "gone")
     = throw_Error ("Failed to create text response: " ++ m))
  /\ (forall r,
        RouterResponse.text Host.platform
          {| RouterResponse.header := RouterResponse.header RouterResponse.constructor;
             RouterResponse.status := VNumber 404;
             RouterResponse.statusText := VString "" |} (VString "gone") = Ret r ->
        Response.status r = VNumber 404 /\ Response.statusText r = VString "OK").
Proof.
  split.
  - exact (proj1 (proj1 (@writeHead_status_reaches_response Host.platform
                           RouterResponse.constructor 100 VUndefined VUndefined _
                           (VString "gone")
                           (conj (le_n 100) (proj1 (Nat.leb_le 100 599) eq_refl)) eq_refl)
                    eq_refl)).
  - intros r H.
    exact (proj2 (@writeHead_status_reaches_response Host.platform
                    RouterResponse.constructor 404 VUndefined VUndefined _
                    (VString "gone")
                    (conj (proj1 (Nat.leb_le 100 404) eq_refl)
                       (proj1 (Nat.leb_le 404 599) eq_refl)) eq_refl)
             eq_refl r (or_introl H)).
Defined.

(** X12 on a sample: a key given twice. *)
Lemma constructor_client_and_query_witness :
  exists req,
    RouterRequest.constructor Host.platform
      (request "https://example.com/hello?name=a&name=b" "GET") = Ret req
    /\ own "name" (RouterRequest.query req) = Some (VString "b")
    /\ own "country" (RouterRequest.client req) = Some (VString "US")
    /\ own "city" (RouterRequest.client req) = Some VNull.
Proof.
  eexists. split; [reflexivity|]. split; [|split; reflexivity].
  rewrite (proj2 (proj2 (proj2 (proj2 (proj2
             (@constructor_client_and_query Host.platform
                (request "https://example.com/hello?name=a&name=b" "GET") _ eq_refl)))))
             "name").
  reflexivity.
Defined.

(** X14 on a sample: a body of four code units comes back. *)
Lemma router_1_answers_witness :
  exists app,
    router_1 Host.platform counter = Ret app
    /\ completed (fetch Host.platform app
                    (Raw (raw "https://example.com/echo" "POST" (Ret "ping")))
                    VUndefined VUndefined 0)
       = Ret (Materialized (text_response "ping")).
Proof.
  destruct (@router_1_answers Host.platform counter MatchFacts.host_conforms)
    as (app & E & H).
  exists app. split; [exact E|].
  destruct (H (raw "https://example.com/echo" "POST" (Ret "ping")) _ _
              VUndefined VUndefined 0
              (conj eq_refl (conj eq_refl (conj eq_refl eq_refl))))
    as (_ & _ & _ & He & _).
  exact (proj1 (He eq_refl eq_refl "ping" eq_refl)).
Defined.



(** X19 on a sample: a HEAD request for a path that two routes match. *)
Lemma unregistered_method_not_found_witness :
  log (fetch Host.platform counted (request "https://example.com/users/7" "HEAD")
         VUndefined VUndefined 0)
  = [Middleware 0; Middleware 1; Matching 0; Matching 1].
Proof.
  rewrite (@unregistered_method_not_found Host.platform counter counted
             (request "https://example.com/users/7" "HEAD") VUndefined VUndefined 0
             _ _ _ _ _
             (conj eq_refl (conj eq_refl (conj eq_refl eq_refl))) eq_refl
             (fun m => ltac:(destruct m; discriminate))
             ltac:(repeat (constructor; [eexists; reflexivity|]); constructor)).
  reflexivity.
Defined.

(** X2 on a sample: the empty pattern is refused as not provided. *)
Lemma addRoute_checks_in_order_witness :
  _addRoute (router [] []) GET (VString "") (Function counting)
  = throw_Error "URL or Callback is not provided."
  /\ _addRoute (router [] []) GET (VNumber 7) (Function counting)
     = throw_Error "URL must be of type string."
  /\ _addRoute (router [] []) GET (VString "/") (NotFunction counter (VString "handler"))
     = throw_Error "Callback must be of type function.".
Proof.
  split; [|split].
  - exact (proj1 (@addRoute_checks_in_order counter (router [] []) GET (VString "")
                    (Function counting)) (or_introl eq_refl)).
  - refine (proj1 (proj2 (@addRoute_checks_in_order counter (router [] []) GET (VNumber 7)
                            (Function counting))) eq_refl eq_refl _).
    discriminate.
  - exact (proj1 (proj2 (proj2 (@addRoute_checks_in_order counter (router [] []) GET
                                  (VString "/")
                                  (NotFunction counter (VString "handler")))))
             eq_refl eq_refl (VString "handler") eq_refl eq_refl).
Defined.

(** X13 on a sample: the text of an empty object. *)
Lemma readers_return_and_throw_witness :
  RouterRequest.json Host.platform (wrapper (Ret "{}")) = Ret (VObject []).
Proof.
  refine (proj2 (proj1 (proj2 (@readers_return_and_throw Host.platform (wrapper (Ret "{}"))))
                   (VObject []))
            (ex_intro _ "{}" (conj eq_refl (conj _ (conj eq_refl eq_refl))))).
  vm_compute. discriminate.
Defined.



(** X22 on a sample: the response of an unmatched request. *)
Lemma errorResponse_is_constructed_witness :
  Response.construct Host.platform
    (JSON_stringify Host.platform
       (VObject (error_body 404 "Not Found" (VString "Route GET /nothing not found"))))
    (VNumber 404) (VString "Not Found") json_headers
  = Ret (_errorResponse Host.platform 404 "Not Found"
           (VString "Route GET /nothing not found")).
Proof.
  exact (@errorResponse_is_constructed Host.platform 404%float "Not Found"
           (VString "Route GET /nothing not found")
           (or_intror (or_introl eq_refl)) eq_refl).
Defined.

End MoreInstances.
